(** * The authentication context of the marketplace front end

    A shallow embedding of [AuthContext] (the [AuthProvider] component, its
    helpers [withRetry] and [fetchTokenBalance], and the client configuration
    of [lib/supabase.js]), with the properties of the session reconciler
    stated over it.

    JavaScript numbers are IEEE-754 binary64 values, so they are embedded as
    Rocq's primitive [float]s: [+], [<], [>=] and NaN behave as they do in
    the browser.  The two conversions between strings and numbers are the
    only parts of the language left abstract ([JsBuiltins]). *)

From Stdlib Require Import Floats ZArith Lia.
From stdpp Require Import base option list strings gmap.

Local Open Scope string_scope.

(** ** JavaScript values *)

#[local] Unset Elimination Schemes.

Inductive jsval : Type :=
| VUndefined
| VNull
| VBool (b : bool)
| VNum (n : float)
| VStr (s : string)
| VArr (l : list jsval)
| VObj (kv : list (string * jsval)).

#[local] Set Elimination Schemes.

(** [StringToNumber] is the conversion applied by [Number(s)] and by the
    numeric coercion of a string; [NumberToString] is the text of a number.
    Both are total in JavaScript. *)
Class JsBuiltins : Type := {
  StringToNumber : string -> float;
  NumberToString : float -> string
}.

Definition is_num (v : jsval) : bool :=
  match v with VNum _ => true | _ => false end.

(** Truthiness: [undefined], [null], [false], [0], [-0], [NaN] and the empty
    string are falsy, everything else (arrays and objects too) is truthy. *)
Definition ToBoolean (v : jsval) : bool :=
  match v with
  | VUndefined | VNull => false
  | VBool b => b
  | VNum n => negb (PrimFloat.eqb n 0 || PrimFloat.is_nan n)
  | VStr s => negb (String.eqb s "")
  | VArr _ | VObj _ => true
  end.

(** [a || b] *)
Definition js_or (a b : jsval) : jsval := if ToBoolean a then a else b.

(** [v === 'lit'] for a string literal. *)
Definition strict_eq_str (v : jsval) (lit : string) : bool :=
  match v with VStr s => String.eqb s lit | _ => false end.

Fixpoint join (sep : string) (l : list string) : string :=
  match l with
  | [] => ""
  | [x] => x
  | x :: rest => x ++ sep ++ join sep rest
  end.

Section Coercions.
Context `{JsBuiltins}.

(** [String(v)]: an array prints its elements separated by commas, with
    [null] and [undefined] elements printed as nothing; a plain object
    prints as [[object Object]]. *)
Fixpoint ToString (v : jsval) : string :=
  match v with
  | VUndefined => "undefined"
  | VNull => "null"
  | VBool true => "true"
  | VBool false => "false"
  | VNum n => NumberToString n
  | VStr s => s
  | VArr l =>
      join ","
        (map (fun x => match x with
                       | VUndefined | VNull => ""
                       | _ => ToString x
                       end) l)
  | VObj _ => "[object Object]"
  end.

Definition ToPrimitive (v : jsval) : jsval :=
  match v with
  | VArr _ | VObj _ => VStr (ToString v)
  | _ => v
  end.

Definition ToNumber (v : jsval) : float :=
  match ToPrimitive v with
  | VUndefined => nan
  | VNull => 0%float
  | VBool true => 1%float
  | VBool false => 0%float
  | VNum n => n
  | VStr s => StringToNumber s
  | VArr _ | VObj _ => nan
  end.

(** The abstract relational comparison [a < b]; [None] is the undefined
    result a NaN operand gives.  Two strings compare as strings, anything
    else as numbers. *)
Definition js_lt (a b : jsval) : option bool :=
  match ToPrimitive a, ToPrimitive b with
  | VStr sa, VStr sb => Some (String.ltb sa sb)
  | pa, pb =>
      let na := ToNumber pa in
      let nb := ToNumber pb in
      if PrimFloat.is_nan na || PrimFloat.is_nan nb then None
      else Some (PrimFloat.ltb na nb)
  end.

(** [a > b] is [b < a]; [a >= b] is "not [a < b]", false on undefined. *)
Definition js_gt (a b : jsval) : bool :=
  match js_lt b a with Some true => true | _ => false end.

Definition js_ge (a b : jsval) : bool :=
  match js_lt a b with Some false => true | _ => false end.

(** [a + b]: concatenation as soon as one operand is a string after
    [ToPrimitive], numeric addition otherwise. *)
Definition js_add (a b : jsval) : jsval :=
  match ToPrimitive a, ToPrimitive b with
  | VStr sa, pb => VStr (sa ++ ToString pb)
  | pa, VStr sb => VStr (ToString pa ++ sb)
  | pa, pb => VNum (ToNumber pa + ToNumber pb)%float
  end.
End Coercions.

(** ** The provider's state *)

(** The hosted-auth user ([session.user]). *)
Record User : Type := { uid : string }.

(** A row of the [profiles] table, with the columns the provider reads. *)
Record Profile : Type := {
  id : string;
  user_type : jsval;
  token_balance : jsval;
  wallet_address : jsval
}.

(** A JavaScript error: [name] and [message] (absent when [None]) and the
    [code] some libraries add (a string for the database, a number for the
    wallet). *)
Record Error : Type := {
  name : option string;
  message : option string;
  code : jsval
}.

Definition new_Error (msg : string) : Error :=
  {| name := Some "Error"; message := Some msg; code := VUndefined |}.

(** The values held by [useState]. *)
Record State : Type := {
  user : option User;
  profile : option Profile;
  isLoading : bool;
  isProfileLoading : bool;
  authError : option Error;
  localWalletAddress : option string;
  isWalletConnecting : bool;
  liveTokenBalance : jsval
}.

Definition initial_State : State :=
  {| user := None; profile := None; isLoading := true;
     isProfileLoading := false; authError := None;
     localWalletAddress := None; isWalletConnecting := false;
     liveTokenBalance := VNum 0 |}.

(** ** Token thresholds and the computed values *)

Record Thresholds : Type := {
  CLIENT : jsval;
  FREELANCER : jsval;
  BOOSTED_FREELANCER : jsval
}.

Definition TOKEN_THRESHOLDS : Thresholds :=
  {| CLIENT := VNum 1000;
     FREELANCER := VNum 10000;
     BOOSTED_FREELANCER := VNum 50000 |}.

(** The object built by [computedValues].  Its field [liveTokenBalance] is
    [rawLiveTokenBalance] here, the state having a field of that name. *)
Record ComputedValues : Type := {
  isAuthenticated : bool;
  isClient : bool;
  isFreelancer : bool;
  isAdmin : bool;
  canBeClient : bool;
  canBeFreelancer : bool;
  isBoostedFreelancer : bool;
  effectiveRole : jsval;
  storedRole : jsval;
  isWalletConnected : bool;
  walletAddress : jsval;
  tokenBalance : jsval;
  rawLiveTokenBalance : jsval;
  tokenThresholds : Thresholds
}.

(** [profile?.field]. *)
Definition opt_field (f : Profile -> jsval) (p : option Profile) : jsval :=
  match p with Some r => f r | None => VUndefined end.

Definition of_address (a : option string) : jsval :=
  match a with Some s => VStr s | None => VNull end.

Section Computed.
Context `{JsBuiltins}.

Definition computedValues (s : State) : ComputedValues :=
  let tokenBalance :=
    if js_gt (liveTokenBalance s) (VNum 0) then liveTokenBalance s
    else js_or (opt_field token_balance (profile s)) (VNum 0) in
  let canBeClient := js_ge tokenBalance (CLIENT TOKEN_THRESHOLDS) in
  let canBeFreelancer := js_ge tokenBalance (FREELANCER TOKEN_THRESHOLDS) in
  let isBoostedFreelancer :=
    js_ge tokenBalance (BOOSTED_FREELANCER TOKEN_THRESHOLDS) in
  let storedRole := opt_field user_type (profile s) in
  let effectiveRole :=
    if strict_eq_str storedRole "freelancer" && negb canBeFreelancer then
      if canBeClient then VStr "client" else VNull
    else if strict_eq_str storedRole "client" && negb canBeClient then VNull
    else storedRole in
  {| isAuthenticated := bool_decide (is_Some (user s)) || bool_decide (is_Some (profile s));
     isClient := strict_eq_str effectiveRole "client" || strict_eq_str storedRole "admin";
     isFreelancer := strict_eq_str effectiveRole "freelancer" || strict_eq_str storedRole "admin";
     isAdmin := strict_eq_str storedRole "admin";
     canBeClient := canBeClient;
     canBeFreelancer := canBeFreelancer;
     isBoostedFreelancer := isBoostedFreelancer;
     effectiveRole := effectiveRole;
     storedRole := storedRole;
     isWalletConnected :=
       ToBoolean (js_or (of_address (localWalletAddress s))
                        (opt_field wallet_address (profile s)));
     walletAddress :=
       js_or (js_or (of_address (localWalletAddress s))
                    (opt_field wallet_address (profile s))) VNull;
     tokenBalance := tokenBalance;
     rawLiveTokenBalance := liveTokenBalance s;
     tokenThresholds := TOKEN_THRESHOLDS |}.

Definition hasMinTokens (s : State) (required : jsval) : bool :=
  js_ge (tokenBalance (computedValues s)) required.

Definition canAccessRole (s : State) (role : string) : bool :=
  if String.eqb role "client" then canBeClient (computedValues s)
  else if String.eqb role "freelancer" then canBeFreelancer (computedValues s)
  else if String.eqb role "boosted" then isBoostedFreelancer (computedValues s)
  else if String.eqb role "admin" then isAdmin (computedValues s)
  else false.
End Computed.

(** The role computation read off a profile and a live balance alone. *)
Definition role_of `{JsBuiltins} (p : option Profile) (live : jsval) : jsval :=
  effectiveRole
    (computedValues
       {| user := None; profile := p; isLoading := false;
          isProfileLoading := false; authError := None;
          localWalletAddress := None; isWalletConnecting := false;
          liveTokenBalance := live |}).

(** ** Completions: a computation returns a value or throws *)

Inductive completion (A : Type) : Type :=
| Return (a : A)
| Throw (e : Error).

Arguments Return {A} a.
Arguments Throw {A} e.

#[export] Instance completion_ret : MRet completion := @Return.

#[export] Instance completion_bind : MBind completion :=
  fun A B (k : A -> completion B) (c : completion A) =>
    match c with
    | Return a => k a
    | Throw e => Throw e
    end.

Definition TypeError (msg : string) : Error :=
  {| name := Some "TypeError"; message := Some msg; code := VUndefined |}.

(** ** The token balance lookup *)

Definition HELIUS_RPC_URL : string :=
  "https://lurleen-mzv5vx-fast-mainnet.helius-rpc.com".
Definition TOKEN_MINT : string :=
  "8LSpERCFafc1qfxrHVj4QaZ9k1jgNuUNAfVMJ9gApump".

(** The own property [k] of a parsed JSON object: when a key is repeated the
    last occurrence is the one [JSON.parse] keeps. *)
Fixpoint assoc (k : string) (kv : list (string * jsval)) : option jsval :=
  match kv with
  | [] => None
  | (k', v) :: rest => if String.eqb k' k then Some v else assoc k rest
  end.

Definition lookup_prop (k : string) (kv : list (string * jsval)) : jsval :=
  default VUndefined (assoc k (rev kv)).

(** [o.k] for a named property [k] that is neither [length] nor an index
    (the only kind read below): reading from [undefined] or [null] throws,
    a primitive or an array has no such property. *)
Definition get (o : jsval) (k : string) : completion jsval :=
  match o with
  | VUndefined | VNull =>
      Throw (TypeError ("Cannot read properties of undefined (reading '" ++ k ++ "')"))
  | VObj kv => Return (lookup_prop k kv)
  | VBool _ | VNum _ | VStr _ | VArr _ => Return VUndefined
  end.

(** The values a [for ... of] loop visits: the elements of an array, the
    characters of a string; nothing else produced by [JSON.parse] is
    iterable. *)
Definition iterate (v : jsval) : completion (list jsval) :=
  match v with
  | VArr l => Return l
  | VStr s => Return (map (fun c => VStr (String c "")) (String.list_ascii_of_string s))
  | _ => Throw (TypeError "json.result.value is not iterable")
  end.

(** What the RPC request comes back with. *)
Inductive rpc_reply : Type :=
| FetchRejected (e : Error)
| JsonRejected (e : Error)
| JsonBody (json : jsval).

Section FetchTokenBalance.
Context `{JsBuiltins}.

(** [acc.account.data.parsed.info.tokenAmount] *)
Definition tokenAmount_of (acc : jsval) : completion jsval :=
  account ← get acc "account";
  data ← get account "data";
  parsed ← get data "parsed";
  info ← get parsed "info";
  get info "tokenAmount".

(** [tokenAmount.uiAmount ?? Number(tokenAmount.uiAmountString)] *)
Definition amount_of (tokenAmount : jsval) : completion jsval :=
  uiAmount ← get tokenAmount "uiAmount";
  match uiAmount with
  | VUndefined | VNull =>
      uiAmountString ← get tokenAmount "uiAmountString";
      Return (VNum (ToNumber uiAmountString))
  | _ => Return uiAmount
  end.

(** The loop [for (const acc of value) { ...; total += amount }]. *)
Fixpoint sum_accounts (total : jsval) (accs : list jsval) : completion jsval :=
  match accs with
  | [] => Return total
  | acc :: rest =>
      tokenAmount ← tokenAmount_of acc;
      amount ← amount_of tokenAmount;
      sum_accounts (js_add total amount) rest
  end.

(** [json.result?.value] *)
Definition result_value (json : jsval) : completion jsval :=
  result ← get json "result";
  match result with
  | VUndefined | VNull => Return VUndefined
  | _ => get result "value"
  end.

(** The body of the [try] block. *)
Definition fetchTokenBalance_try (reply : rpc_reply) : completion jsval :=
  match reply with
  | FetchRejected e => Throw e
  | JsonRejected e => Throw e
  | JsonBody json =>
      value ← result_value json;
      if negb (ToBoolean value) then Return (VNum 0)
      else
        accs ← iterate value;
        sum_accounts (VNum 0) accs
  end.

(** [rpc] is the endpoint: the reply it gives to a
    [getTokenAccountsByOwner] request for a wallet and [TOKEN_MINT]. *)
Definition fetchTokenBalance (rpc : string -> rpc_reply) (walletAddress : string)
  : jsval :=
  match fetchTokenBalance_try (rpc walletAddress) with
  | Return total => total
  | Throw _ => VNum 0
  end.

End FetchTokenBalance.

Section AccountAmount.
Context `{JsBuiltins}.

(** The amount one loop iteration adds for [acc]. *)
Definition account_amount (acc : jsval) : completion jsval :=
  tokenAmount ← tokenAmount_of acc;
  amount_of tokenAmount.


End AccountAmount.

(** ** Retrying with backoff, and profile fetches

    Time is virtual and counted in milliseconds.  A call to an asynchronous
    function is a [run]: how long it took and how it settled. *)

Record run (A : Type) : Type := {
  took : N;
  outcome : completion A
}.

Arguments took {A} r.
Arguments outcome {A} r.

(** [s.includes(sub)] *)
Fixpoint includes (s sub : string) : bool :=
  if String.prefix sub s then true
  else match s with
       | EmptyString => false
       | String _ rest => includes rest sub
       end.

(** [error.message?.includes(sub)], read as a condition. *)
Definition message_includes (e : Error) (sub : string) : bool :=
  match message e with
  | Some m => includes m sub
  | None => false
  end.

(** [error.name === 'AbortError' || error.message?.includes('AbortError')] *)
Definition is_abort (e : Error) : bool :=
  bool_decide (name e = Some "AbortError") || message_includes e "AbortError".

(** How a retried call went: its settlement, the time at which it settled,
    how many times the function was called and the delays slept between the
    calls. *)
Record retried (A : Type) : Type := {
  settled : completion A;
  elapsed : N;
  calls : nat;
  delays : list N
}.

Arguments settled {A} r.
Arguments elapsed {A} r.
Arguments calls {A} r.
Arguments delays {A} r.

Definition N_sum (l : list N) : N := fold_right N.add 0%N l.

(** The time spent in the calls [attempt], ..., [attempt + n - 1] of [fn]. *)
Definition time_in_calls {A : Type} (fn : nat -> run A) (attempt n : nat) : N :=
  N_sum (map (fun k => took (fn k)) (seq attempt n)).

(** Thrown when the loop of [withRetry] falls through without an error. *)
Definition undefined_thrown : Error :=
  {| name := None; message := None; code := VUndefined |}.

Section WithRetry.
Context {A : Type}.

(** The loop of [withRetry] from iteration [attempt] on, with [n] iterations
    left and the clock at [now]; [fn k] is the [k]-th call of the function. *)
Fixpoint withRetry_loop (fn : nat -> run A) (retries : nat) (baseDelay : N)
    (shouldRetry : Error -> bool) (lastError : option Error)
    (n attempt : nat) (now : N) : retried A :=
  match n with
  | 0 =>
      {| settled := Throw (default undefined_thrown lastError);
         elapsed := now; calls := attempt; delays := [] |}
  | S n' =>
      let r := fn attempt in
      let now' := (now + took r)%N in
      match outcome r with
      | Return a =>
          {| settled := Return a; elapsed := now';
             calls := S attempt; delays := [] |}
      | Throw error =>
          if is_abort error then
            {| settled := Throw error; elapsed := now';
               calls := S attempt; delays := [] |}
          else if (attempt <? retries)%nat && shouldRetry error then
            let delay := (baseDelay * 2 ^ N.of_nat attempt)%N in
            let rest :=
              withRetry_loop fn retries baseDelay shouldRetry (Some error)
                             n' (S attempt) (now' + delay)%N in
            {| settled := settled rest; elapsed := elapsed rest;
               calls := calls rest; delays := delay :: delays rest |}
          else
            {| settled := Throw error; elapsed := now';
               calls := S attempt; delays := [] |}
      end
  end.

Definition withRetry (fn : nat -> run A) (retries : nat) (baseDelay : N)
    (shouldRetry : Error -> bool) : retried A :=
  withRetry_loop fn retries baseDelay shouldRetry None (S retries) 0 0%N.

(** A single call, not retried. *)
Definition once (fn : nat -> run A) : retried A :=
  {| settled := outcome (fn 0); elapsed := took (fn 0);
     calls := 1; delays := [] |}.

(** [Promise.race([p, timeoutPromise])]: [p] wins when it settles before the
    timer fires; a promise that settles at the very millisecond of the timer
    loses to it. *)
Definition race (p : retried A) (timeout : N) (timeoutError : Error)
  : completion A :=
  if (elapsed p <? timeout)%N then settled p else Throw timeoutError.

End WithRetry.

(** What one [select ... single()] on [profiles] resolves to: [{ data }] or
    [{ error }]. *)
Inductive QueryReply : Type :=
| QData (row : Profile)
| QError (e : Error).

Record FetchOptions : Type := {
  timeout : option N;
  useRetry : option bool
}.

Definition no_options : FetchOptions := {| timeout := None; useRetry := None |}.

(** [fetchFn]: a missing row (PGRST116) is [null], any other error is
    thrown. *)
Definition fetchFn (query : nat -> run QueryReply) (k : nat)
  : run (option Profile) :=
  {| took := took (query k);
     outcome :=
       reply ← outcome (query k);
       match reply with
       | QError error =>
           if strict_eq_str (code error) "PGRST116" then Return None
           else Throw error
       | QData data => Return (Some data)
       end |}.

Definition shouldRetry_fetch (error : Error) : bool :=
  message_includes error "fetch" || message_includes error "network"
  || message_includes error "Failed to fetch".

(** The promise raced against the timer in [fetchProfile]. *)
Definition fetchPromise (query : nat -> run QueryReply) (options : FetchOptions)
  : retried (option Profile) :=
  if default true (useRetry options)
  then withRetry (fetchFn query) 2 1000%N shouldRetry_fetch
  else once (fetchFn query).

(** The [catch] of [fetchProfile] and [fetchProfileByWallet]: an abort is
    [null], anything else is thrown again. *)
Definition ignore_abort (c : completion (option Profile))
  : completion (option Profile) :=
  match c with
  | Return data => Return data
  | Throw error => if is_abort error then Return None else Throw error
  end.

(** [fetchProfile(userId, options)]; [query k] is the [k]-th run of the
    query for [userId]. *)
Definition fetchProfile (query : nat -> run QueryReply) (options : FetchOptions)
  : completion (option Profile) :=
  ignore_abort
    (race (fetchPromise query options) (default 5000%N (timeout options))
          (new_Error "Profile fetch timeout")).

(** [fetchProfileByWallet(walletAddress, options)]: one run, never retried. *)
Definition fetchProfileByWallet (query : nat -> run QueryReply)
    (options : FetchOptions) : completion (option Profile) :=
  ignore_abort
    (race (once (fetchFn query)) (default 5000%N (timeout options))
          (new_Error "Profile fetch timeout")).

(** ** The provider: refs, the world around it, and its operations

    An asynchronous function runs in segments: from its start to the first
    [await], and from each settled [await] to the next.  A segment is a
    function on contexts; what happens between two segments of one call is up
    to the event loop, so the second segment takes the context it finds. *)

Record Session : Type := {
  session_user : option User;
  expires_at : option N
}.

(** [session?.user] *)
Definition user_of (session : option Session) : option User :=
  session ≫= session_user.

Record Refs : Type := {
  mountedRef : bool;
  initCompleteRef : bool;
  backgroundRetryRef : option nat;
  profileSubscriptionRef : option nat
}.

(** The closure [updateAuthState] hands to [setTimeout]; it keeps the id of
    the session's user. *)
Inductive callback : Type :=
| BackgroundRetry (userId : string).

Record Timer : Type := {
  delay_ms : N;
  callback_of : callback
}.

(** A realtime channel on [profiles]: its topic and its row filter. *)
Record Channel : Type := {
  topic : string;
  row_filter : string
}.

Definition ProfileUpdates : Type := list (string * jsval).

(** The calls the provider can make to the wallet extension, the RPC
    endpoint and the hosted backend. *)
Inductive vendor_call : Type :=
| PhantomConnect
| PhantomDisconnect
| PhantomSignMessage (text : string)
| WindowOpen (url : string)
| RpcGetTokenAccountsByOwner (url walletAddress mint : string)
| ProfilesSelectById (userId : string)
| ProfilesSelectByWallet (walletAddress : string)
| ProfilesUpdate (userId : string) (updates : ProfileUpdates)
| AuthSignInWithPassword (email : string)
| AuthSignUp (email : string)
| AuthSetSession
| AuthSignOut.

(** A write that outlives the page: the session the auth client keeps in
    browser storage, and a row of the hosted [profiles] table. *)
Inductive durable_write : Type :=
| SessionStored (key : string) (u : User)
| SessionRemoved (key : string)
| ProfileRowWritten (row : Profile).

Record World : Type := {
  channels : gmap nat Channel;
  timers : gmap nat Timer;
  next_id : nat;
  calls_made : list vendor_call;
  durable : list durable_write
}.

Record Ctx : Type := {
  st : State;
  refs : Refs;
  world : World
}.

Definition initial_Ctx : Ctx :=
  {| st := initial_State;
     refs := {| mountedRef := true; initCompleteRef := false;
                backgroundRetryRef := None; profileSubscriptionRef := None |};
     world := {| channels := ∅; timers := ∅; next_id := 0;
                 calls_made := []; durable := [] |} |}.

(** *** The options of [createClient] in [lib/supabase.js] *)

Record AuthConfig : Type := {
  autoRefreshToken : bool;
  persistSession : bool;
  detectSessionInUrl : bool;
  storageKey : string
}.

Definition supabase_auth : AuthConfig :=
  {| autoRefreshToken := true; persistSession := true;
     detectSessionInUrl := true; storageKey := "pumpwork-auth" |}.

(** *** State setters and primitive effects *)

Definition with_st (f : State -> State) (c : Ctx) : Ctx :=
  {| st := f (st c); refs := refs c; world := world c |}.

Definition with_refs (f : Refs -> Refs) (c : Ctx) : Ctx :=
  {| st := st c; refs := f (refs c); world := world c |}.

Definition with_world (f : World -> World) (c : Ctx) : Ctx :=
  {| st := st c; refs := refs c; world := f (world c) |}.

Definition setUser (u : option User) : Ctx -> Ctx :=
  with_st (fun s =>
    {| user := u; profile := profile s; isLoading := isLoading s;
       isProfileLoading := isProfileLoading s; authError := authError s;
       localWalletAddress := localWalletAddress s;
       isWalletConnecting := isWalletConnecting s;
       liveTokenBalance := liveTokenBalance s |}).

Definition setProfile (p : option Profile) : Ctx -> Ctx :=
  with_st (fun s =>
    {| user := user s; profile := p; isLoading := isLoading s;
       isProfileLoading := isProfileLoading s; authError := authError s;
       localWalletAddress := localWalletAddress s;
       isWalletConnecting := isWalletConnecting s;
       liveTokenBalance := liveTokenBalance s |}).

Definition setIsLoading (b : bool) : Ctx -> Ctx :=
  with_st (fun s =>
    {| user := user s; profile := profile s; isLoading := b;
       isProfileLoading := isProfileLoading s; authError := authError s;
       localWalletAddress := localWalletAddress s;
       isWalletConnecting := isWalletConnecting s;
       liveTokenBalance := liveTokenBalance s |}).

Definition setIsProfileLoading (b : bool) : Ctx -> Ctx :=
  with_st (fun s =>
    {| user := user s; profile := profile s; isLoading := isLoading s;
       isProfileLoading := b; authError := authError s;
       localWalletAddress := localWalletAddress s;
       isWalletConnecting := isWalletConnecting s;
       liveTokenBalance := liveTokenBalance s |}).

Definition setAuthError (e : option Error) : Ctx -> Ctx :=
  with_st (fun s =>
    {| user := user s; profile := profile s; isLoading := isLoading s;
       isProfileLoading := isProfileLoading s; authError := e;
       localWalletAddress := localWalletAddress s;
       isWalletConnecting := isWalletConnecting s;
       liveTokenBalance := liveTokenBalance s |}).

Definition setLocalWalletAddress (a : option string) : Ctx -> Ctx :=
  with_st (fun s =>
    {| user := user s; profile := profile s; isLoading := isLoading s;
       isProfileLoading := isProfileLoading s; authError := authError s;
       localWalletAddress := a;
       isWalletConnecting := isWalletConnecting s;
       liveTokenBalance := liveTokenBalance s |}).

Definition setIsWalletConnecting (b : bool) : Ctx -> Ctx :=
  with_st (fun s =>
    {| user := user s; profile := profile s; isLoading := isLoading s;
       isProfileLoading := isProfileLoading s; authError := authError s;
       localWalletAddress := localWalletAddress s;
       isWalletConnecting := b;
       liveTokenBalance := liveTokenBalance s |}).

Definition setLiveTokenBalance (v : jsval) : Ctx -> Ctx :=
  with_st (fun s =>
    {| user := user s; profile := profile s; isLoading := isLoading s;
       isProfileLoading := isProfileLoading s; authError := authError s;
       localWalletAddress := localWalletAddress s;
       isWalletConnecting := isWalletConnecting s;
       liveTokenBalance := v |}).

Definition set_mountedRef (b : bool) : Ctx -> Ctx :=
  with_refs (fun r =>
    {| mountedRef := b; initCompleteRef := initCompleteRef r;
       backgroundRetryRef := backgroundRetryRef r;
       profileSubscriptionRef := profileSubscriptionRef r |}).

Definition set_initCompleteRef (b : bool) : Ctx -> Ctx :=
  with_refs (fun r =>
    {| mountedRef := mountedRef r; initCompleteRef := b;
       backgroundRetryRef := backgroundRetryRef r;
       profileSubscriptionRef := profileSubscriptionRef r |}).

Definition set_backgroundRetryRef (t : option nat) : Ctx -> Ctx :=
  with_refs (fun r =>
    {| mountedRef := mountedRef r; initCompleteRef := initCompleteRef r;
       backgroundRetryRef := t;
       profileSubscriptionRef := profileSubscriptionRef r |}).

Definition set_profileSubscriptionRef (ch : option nat) : Ctx -> Ctx :=
  with_refs (fun r =>
    {| mountedRef := mountedRef r; initCompleteRef := initCompleteRef r;
       backgroundRetryRef := backgroundRetryRef r;
       profileSubscriptionRef := ch |}).

Definition set_channels (f : gmap nat Channel -> gmap nat Channel) : Ctx -> Ctx :=
  with_world (fun w =>
    {| channels := f (channels w); timers := timers w; next_id := next_id w;
       calls_made := calls_made w; durable := durable w |}).

Definition set_timers (f : gmap nat Timer -> gmap nat Timer) : Ctx -> Ctx :=
  with_world (fun w =>
    {| channels := channels w; timers := f (timers w); next_id := next_id w;
       calls_made := calls_made w; durable := durable w |}).

Definition bump_next_id : Ctx -> Ctx :=
  with_world (fun w =>
    {| channels := channels w; timers := timers w; next_id := S (next_id w);
       calls_made := calls_made w; durable := durable w |}).

(** Record a call to a vendor. *)
Definition call (v : vendor_call) : Ctx -> Ctx :=
  with_world (fun w =>
    {| channels := channels w; timers := timers w; next_id := next_id w;
       calls_made := calls_made w ++ [v]; durable := durable w |}).

Definition write_durable (d : durable_write) : Ctx -> Ctx :=
  with_world (fun w =>
    {| channels := channels w; timers := timers w; next_id := next_id w;
       calls_made := calls_made w; durable := durable w ++ [d] |}).

(** [supabase.removeChannel(ch)] *)
Definition removeChannel (ch : nat) : Ctx -> Ctx :=
  set_channels (delete ch).

(** [supabase.channel(topic).on(..., filter, handler).subscribe()]: a new
    channel object; the second component is the channel. *)
Definition subscribe_channel (ch : Channel) (c : Ctx) : Ctx * nat :=
  let i := next_id (world c) in
  (bump_next_id (set_channels (insert i ch) c), i).

(** [setTimeout(cb, delay)], giving the new timer's id, and
    [clearTimeout(t)]. *)
Definition setTimeout (cb : callback) (delay : N) (c : Ctx) : Ctx * nat :=
  let t := next_id (world c) in
  (bump_next_id
     (set_timers (insert t {| delay_ms := delay; callback_of := cb |}) c), t).

Definition clearTimeout (t : nat) : Ctx -> Ctx :=
  set_timers (delete t).

(** *** Realtime subscription to the profile row *)

Definition profile_channel (userId : string) : Channel :=
  {| topic := "profile:" ++ userId; row_filter := "id=eq." ++ userId |}.

(** [subscribeToProfile(userId)].  The cleanup closure it returns is dropped
    by every caller. *)
Definition subscribeToProfile (userId : string) (c : Ctx) : Ctx :=
  let c1 :=
    match profileSubscriptionRef (refs c) with
    | Some ch => removeChannel ch c
    | None => c
    end in
  let '(c2, channel) := subscribe_channel (profile_channel userId) c1 in
  set_profileSubscriptionRef (Some channel) c2.

(** The handler of the channel: an UPDATE of the row arrives on [ch]. *)
Definition on_profile_update (ch : nat) (payload_new : option Profile) (c : Ctx)
  : Ctx :=
  match channels (world c) !! ch with
  | None => c
  | Some _ =>
      if mountedRef (refs c) && bool_decide (is_Some payload_new)
      then setProfile payload_new c
      else c
  end.

(** *** [updateAuthState] *)

Record UpdateOptions : Type := {
  retryInBackground : option bool;
  isInitial : option bool
}.

Definition default_update : UpdateOptions :=
  {| retryInBackground := None; isInitial := None |}.

(** A profile fetch that has been started and is awaited. *)
Record FetchRequest : Type := {
  request_userId : string;
  request_options : FetchOptions
}.

(** "Clear any pending background retry" *)
Definition clear_background_retry (c : Ctx) : Ctx :=
  match backgroundRetryRef (refs c) with
  | Some t => set_backgroundRetryRef None (clearTimeout t c)
  | None => c
  end.

(** From the call to the [await] of [fetchProfile] (or to the early
    return, when the session has no user).  The queries of a fetch are
    recorded once, when the fetch starts. *)
Definition updateAuthState_begin (session : option Session)
    (options : UpdateOptions) (c : Ctx) : Ctx * option FetchRequest :=
  let c := clear_background_retry c in
  match user_of session with
  | None => (setAuthError None (setProfile None (setUser None c)), None)
  | Some u =>
      let c := setIsProfileLoading true (setAuthError None (setUser (Some u) c)) in
      (call (ProfilesSelectById (uid u)) c,
       Some {| request_userId := uid u;
               request_options :=
                 {| timeout := Some (if default false (isInitial options)
                                     then 5000%N else 10000%N);
                    useRetry := Some true |} |})
  end.

(** From the settled fetch to the end: the [try] continuation or the
    [catch], then the [finally]. *)
Definition updateAuthState_settle (u : User) (options : UpdateOptions)
    (fetched : completion (option Profile)) (c : Ctx) : Ctx :=
  let c :=
    match fetched with
    | Return profileData =>
        if mountedRef (refs c) then
          let c := setProfile profileData c in
          match profileData with
          | Some _ => subscribeToProfile (uid u) c
          | None => c
          end
        else c
    | Throw error =>
        let isTimeout := message_includes error "timeout" in
        if mountedRef (refs c) then
          let c := setProfile None c in
          if isTimeout && default true (retryInBackground options) then
            let '(c, t) := setTimeout (BackgroundRetry (uid u)) 3000%N c in
            set_backgroundRetryRef (Some t) c
          else c
        else c
    end in
  if mountedRef (refs c) then setIsProfileLoading false c else c.

(** The options of the retry's fetch. *)
Definition background_retry_options : FetchOptions :=
  {| timeout := Some 15000%N; useRetry := Some true |}.

(** The timer [t] fires: its callback runs up to the [await] of
    [fetchProfile]. *)
Definition timer_fires (t : nat) (c : Ctx) : Ctx * option FetchRequest :=
  match timers (world c) !! t with
  | None => (c, None)
  | Some timer =>
      let c := set_timers (delete t) c in
      match callback_of timer with
      | BackgroundRetry userId =>
          if negb (mountedRef (refs c)) then (c, None)
          else (call (ProfilesSelectById userId) c,
                Some {| request_userId := userId;
                        request_options := background_retry_options |})
      end
  end.

(** The rest of the retry callback, once its fetch has settled. *)
Definition background_retry_settle (userId : string)
    (fetched : completion (option Profile)) (c : Ctx) : Ctx :=
  match fetched with
  | Return (Some profileData) =>
      if mountedRef (refs c)
      then subscribeToProfile userId (setProfile (Some profileData) c)
      else c
  | Return None => c
  | Throw retryError => c
  end.

(** [updateAuthState] run without anything happening in between. *)
Definition updateAuthState (session : option Session) (options : UpdateOptions)
    (query : nat -> run QueryReply) (c : Ctx) : Ctx :=
  match updateAuthState_begin session options c, user_of session with
  | (c, Some request), Some u =>
      updateAuthState_settle u options
        (fetchProfile query (request_options request)) c
  | (c, _), _ => c
  end.

(** *** Mounting, and the listener of auth events *)

Definition mount : Ctx -> Ctx := set_mountedRef true.

(** The cleanup of the initialisation effect.  (The fallback timer of the
    initialisation is not part of the model.) *)
Definition unmount (c : Ctx) : Ctx :=
  let c := set_mountedRef false c in
  let c :=
    match backgroundRetryRef (refs c) with
    | Some t => clearTimeout t c
    | None => c
    end in
  match profileSubscriptionRef (refs c) with
  | Some ch => removeChannel ch c
  | None => c
  end.

Inductive auth_event : Type :=
| INITIAL_SESSION
| SIGNED_IN
| SIGNED_OUT
| TOKEN_REFRESHED
| USER_UPDATED
| USER_DELETED
| PASSWORD_RECOVERY.

(** "Cleanup profile subscription" *)
Definition cleanup_profile_subscription (c : Ctx) : Ctx :=
  match profileSubscriptionRef (refs c) with
  | Some ch => set_profileSubscriptionRef None (removeChannel ch c)
  | None => c
  end.

(** What the listener still has to do once the [updateAuthState] it awaits
    is over. *)
Inductive listener_tail : Type :=
| TailInitial
| TailLoaded.

(** The listener, up to its first [await] or to its end.  When it calls
    [updateAuthState] the result carries that call's pending fetch and the
    tail to run after it. *)
Definition onAuthStateChange_begin (event : auth_event)
    (session : option Session) (c : Ctx)
  : Ctx * option (option FetchRequest * UpdateOptions * listener_tail) :=
  if negb (mountedRef (refs c)) then (c, None)
  else
    match event, session with
    | TOKEN_REFRESHED, None =>
        (setIsLoading false (setProfile None (setUser None c)), None)
    | INITIAL_SESSION, _ =>
        if negb (initCompleteRef (refs c)) && bool_decide (is_Some (user_of session))
        then
          let options := {| retryInBackground := None; isInitial := Some true |} in
          let '(c, request) := updateAuthState_begin session options c in
          (c, Some (request, options, TailInitial))
        else (set_initCompleteRef true c, None)
    | (SIGNED_IN | TOKEN_REFRESHED | USER_UPDATED), _ =>
        if bool_decide (is_Some (user_of session)) then
          let '(c, request) := updateAuthState_begin session default_update c in
          (c, Some (request, default_update, TailLoaded))
        else (setIsLoading false c, None)
    | (SIGNED_OUT | USER_DELETED), _ =>
        (setIsLoading false
           (setProfile None (setUser None (cleanup_profile_subscription c))),
         None)
    | PASSWORD_RECOVERY, _ => (c, None)
    end.

Definition onAuthStateChange_finish (tail : listener_tail) (c : Ctx) : Ctx :=
  match tail with
  | TailInitial => set_initCompleteRef true (setIsLoading false c)
  | TailLoaded => setIsLoading false c
  end.

(** *** The actions of the context *)

(** The [{ data, error }] objects the actions return. *)
Record Result (A : Type) : Type := {
  data : option A;
  error : option Error
}.

Arguments data {A} r.
Arguments error {A} r.

(** What the auth client does to browser storage, as the options of
    [createClient] tell it to: with [persistSession] the session of a signed-in
    user is kept under [storageKey], and dropped on sign-out. *)
Definition client_stores_session (cfg : AuthConfig) (u : User) (c : Ctx) : Ctx :=
  if persistSession cfg then write_durable (SessionStored (storageKey cfg) u) c
  else c.

Definition client_drops_session (cfg : AuthConfig) (c : Ctx) : Ctx :=
  if persistSession cfg then write_durable (SessionRemoved (storageKey cfg)) c
  else c.

(** What [supabase.auth.signInWithPassword] resolves to: [data.user], or
    the [error].  The [data] of the result of [signIn] is that user. *)
Inductive AuthReply : Type :=
| AuthOk (data_user : option User)
| AuthError (e : Error).

Definition email_not_confirmed : Error :=
  {| name := Some "Error";
     message := Some "Please confirm your email address before signing in. Check your inbox for the confirmation link.";
     code := VStr "email_not_confirmed" |}.

(** [signIn]: up to the call of [signInWithPassword]. *)
Definition signIn_begin (email : string) (c : Ctx) : Ctx :=
  call (AuthSignInWithPassword email) (setAuthError None c).

(** [signIn]: from the reply of the auth client to the [await] of
    [fetchProfile], or to the returned result. *)
Definition signIn_authenticated (reply : completion AuthReply) (c : Ctx)
  : Ctx * (Result User + User) :=
  match reply with
  | Return (AuthOk (Some u)) =>
      (call (ProfilesSelectById (uid u)) (client_stores_session supabase_auth u c),
       inr u)
  | Return (AuthOk None) => (c, inl {| data := None; error := None |})
  | Return (AuthError e) =>
      let e := if message_includes e "Email not confirmed"
               then email_not_confirmed else e in
      (setAuthError (Some e) c, inl {| data := None; error := Some e |})
  | Throw e => (setAuthError (Some e) c, inl {| data := None; error := Some e |})
  end.

(** [signIn]: from the settled profile fetch to the returned result. *)
Definition signIn_fetched (u : User) (fetched : completion (option Profile))
    (c : Ctx) : Ctx * Result User :=
  let c :=
    match fetched with
    | Return profileData =>
        let c := setProfile profileData c in
        match profileData with
        | Some _ => subscribeToProfile (uid u) c
        | None => c
        end
    | Throw profileError => c
    end in
  (c, {| data := Some u; error := None |}).

Definition signIn (email : string) (reply : completion AuthReply)
    (query : nat -> run QueryReply) (c : Ctx) : Ctx * Result User :=
  match signIn_authenticated reply (signIn_begin email c) with
  | (c, inl result) => (c, result)
  | (c, inr u) =>
      signIn_fetched u
        (fetchProfile query {| timeout := Some 5000%N; useRetry := None |}) c
  end.

(** [signOut]: up to the call of [supabase.auth.signOut]. *)
Definition signOut_begin (c : Ctx) : Ctx :=
  call AuthSignOut (clear_background_retry (cleanup_profile_subscription c)).

(** [signOut]: from the client's reply (its [error], if any) on. *)
Definition signOut_settle (reply : completion (option Error)) (c : Ctx)
  : Ctx * option Error :=
  match reply with
  | Return None =>
      (setAuthError None
         (setProfile None (setUser None (client_drops_session supabase_auth c))),
       None)
  | Return (Some e) => (c, Some e)
  | Throw e => (c, Some e)
  end.

Definition signOut (reply : completion (option Error)) (c : Ctx)
  : Ctx * option Error :=
  signOut_settle reply (signOut_begin c).

(** [updateProfile(updates)]; [reply] is what the update of the row comes
    back with. *)
Definition updateProfile (updates : ProfileUpdates)
    (reply : completion QueryReply) (c : Ctx) : Ctx * Result Profile :=
  match user (st c) with
  | None =>
      (c, {| data := None; error := Some (new_Error "No user logged in") |})
  | Some u =>
      let c := call (ProfilesUpdate (uid u) updates) c in
      match reply with
      | Return (QData row) =>
          (setProfile (Some row) (write_durable (ProfileRowWritten row) c),
           {| data := Some row; error := None |})
      | Return (QError e) => (c, {| data := None; error := Some e |})
      | Throw e => (c, {| data := None; error := Some e |})
      end
  end.

(** [v === n] for a number literal. *)
Definition strict_eq_num (v : jsval) (n : float) : bool :=
  match v with VNum m => PrimFloat.eqb m n | _ => false end.

(** What a wallet action finds around it: the extension (absent, or the
    settlement of [connect()] with the address of the public key), the RPC
    endpoint, the lookup of the profile by wallet and the reply to a
    profile update. *)
Record WalletEnv : Type := {
  phantom : option (completion string);
  rpc : string -> rpc_reply;
  wallet_query : string -> nat -> run QueryReply;
  update_reply : completion QueryReply
}.

Record ConnectResult : Type := {
  address : option string;
  found_profile : option Profile;
  profileExists : bool;
  found_balance : jsval;
  connect_error : option Error
}.

Definition connect_failed (e : Error) : ConnectResult :=
  {| address := None; found_profile := None; profileExists := false;
     found_balance := VUndefined; connect_error := Some e |}.

(** The [data] of [signInWithWallet]. *)
Record WalletSignIn : Type := {
  signed_profile : option Profile;
  signed_address : string;
  isNewUser : bool
}.

(** Calls that would create a hosted-auth session, and calls that would ask
    the wallet for a signature. *)
Definition creates_session (v : vendor_call) : bool :=
  match v with
  | AuthSignInWithPassword _ | AuthSignUp _ | AuthSetSession => true
  | _ => false
  end.

Definition asks_signature (v : vendor_call) : bool :=
  match v with PhantomSignMessage _ => true | _ => false end.

Definition writes_database (v : vendor_call) : bool :=
  match v with ProfilesUpdate _ _ => true | _ => false end.

Section Wallet.
Context `{JsBuiltins}.

Definition connectWallet (env : WalletEnv) (c : Ctx) : Ctx * ConnectResult :=
  let c := setIsWalletConnecting true c in
  match phantom env with
  | None =>
      (setIsWalletConnecting false (call (WindowOpen "https://phantom.app/") c),
       connect_failed (new_Error "Phantom wallet not installed"))
  | Some connected =>
      let c := call PhantomConnect c in
      match connected with
      | Throw err =>
          let c := setIsWalletConnecting false c in
          if strict_eq_num (code err) 4001 then
            (c, connect_failed (new_Error "Connection rejected by user"))
          else if message_includes err "Unexpected error" then
            (c, connect_failed
                  (new_Error "Phantom extension error - try reinstalling"))
          else (c, connect_failed err)
      | Return addr =>
          let c := setLocalWalletAddress (Some addr) c in
          let c := call (RpcGetTokenAccountsByOwner HELIUS_RPC_URL addr TOKEN_MINT) c in
          let balance := fetchTokenBalance (rpc env) addr in
          let c := setLiveTokenBalance balance c in
          let c := call (ProfilesSelectByWallet addr) c in
          let existingProfile :=
            match fetchProfileByWallet (wallet_query env addr) no_options with
            | Return found => found
            | Throw err => None
            end in
          let c :=
            match user (st c), existingProfile with
            | Some _, None =>
                fst (updateProfile [("wallet_address", VStr addr)]
                                   (update_reply env) c)
            | _, _ => c
            end in
          (setIsWalletConnecting false c,
           {| address := Some addr; found_profile := existingProfile;
              profileExists := bool_decide (is_Some existingProfile);
              found_balance := balance; connect_error := None |})
      end
  end.

Definition signInWithWallet (env : WalletEnv) (c : Ctx)
  : Ctx * Result WalletSignIn :=
  let c := setIsWalletConnecting true (setAuthError None c) in
  let '(c, connected) := connectWallet env c in
  match connect_error connected with
  | Some connectError =>
      (setIsWalletConnecting false (setAuthError (Some connectError) c),
       {| data := None; error := Some connectError |})
  | None =>
      match address connected with
      | Some addr =>
          if String.eqb addr "" then
            let e := new_Error "No wallet address received" in
            (setIsWalletConnecting false (setAuthError (Some e) c),
             {| data := None; error := Some e |})
          else
            match found_profile connected with
            | Some walletProfile =>
                (setIsWalletConnecting false (setProfile (Some walletProfile) c),
                 {| data := Some {| signed_profile := Some walletProfile;
                                    signed_address := addr;
                                    isNewUser := false |};
                    error := None |})
            | None =>
                (setIsWalletConnecting false c,
                 {| data := Some {| signed_profile := None;
                                    signed_address := addr;
                                    isNewUser := true |};
                    error := None |})
            end
      | None =>
          let e := new_Error "No wallet address received" in
          (setIsWalletConnecting false (setAuthError (Some e) c),
           {| data := None; error := Some e |})
      end
  end.

End Wallet.

(** *** The provider as a transition system

    One event is one segment of one of the provider's functions, run to its
    next [await]; the event loop runs them one at a time, in any order.  The
    functions that have no event of their own ([signUp], [refreshProfile],
    [forceRefreshAuth], [registerWithWallet], [disconnectWallet],
    [clearAuthError], the initialisation, the visibility handler and the
    wallet listeners) act on the context through state setters,
    [initCompleteRef], [updateAuthState] and [updateProfile] only. *)

Inductive event : Type :=
| EvSetState (f : State -> State)
| EvSetInitCompleteRef (b : bool)
| EvMount
| EvUnmount
| EvUpdateAuthStateBegin (session : option Session) (options : UpdateOptions)
| EvUpdateAuthStateSettle (u : User) (options : UpdateOptions)
    (fetched : completion (option Profile))
| EvTimerFires (t : nat)
| EvBackgroundRetrySettle (userId : string)
    (fetched : completion (option Profile))
| EvAuthStateChange (ev : auth_event) (session : option Session)
| EvListenerFinish (tail : listener_tail)
| EvProfileUpdate (ch : nat) (payload_new : option Profile)
| EvSignInBegin (email : string)
| EvSignInAuthenticated (reply : completion AuthReply)
| EvSignInFetched (u : User) (fetched : completion (option Profile))
| EvSignOutBegin
| EvSignOutSettle (reply : completion (option Error))
| EvUpdateProfile (updates : ProfileUpdates) (reply : completion QueryReply)
| EvConnectWallet (env : WalletEnv)
| EvSignInWithWallet (env : WalletEnv).

Section Transitions.
Context `{JsBuiltins}.

Definition apply_event (e : event) (c : Ctx) : Ctx :=
  match e with
  | EvSetState f => with_st f c
  | EvSetInitCompleteRef b => set_initCompleteRef b c
  | EvMount => mount c
  | EvUnmount => unmount c
  | EvUpdateAuthStateBegin session options =>
      fst (updateAuthState_begin session options c)
  | EvUpdateAuthStateSettle u options fetched =>
      updateAuthState_settle u options fetched c
  | EvTimerFires t => fst (timer_fires t c)
  | EvBackgroundRetrySettle userId fetched =>
      background_retry_settle userId fetched c
  | EvAuthStateChange ev session => fst (onAuthStateChange_begin ev session c)
  | EvListenerFinish tail => onAuthStateChange_finish tail c
  | EvProfileUpdate ch payload_new => on_profile_update ch payload_new c
  | EvSignInBegin email => signIn_begin email c
  | EvSignInAuthenticated reply => fst (signIn_authenticated reply c)
  | EvSignInFetched u fetched => fst (signIn_fetched u fetched c)
  | EvSignOutBegin => signOut_begin c
  | EvSignOutSettle reply => fst (signOut_settle reply c)
  | EvUpdateProfile updates reply => fst (updateProfile updates reply c)
  | EvConnectWallet env => fst (connectWallet env c)
  | EvSignInWithWallet env => fst (signInWithWallet env c)
  end.

Inductive reachable : Ctx -> Prop :=
| reachable_initial : reachable initial_Ctx
| reachable_step (e : event) (c : Ctx) :
    reachable c -> reachable (apply_event e c).

End Transitions.

(** The client's channels are those the provider still holds in
    [profileSubscriptionRef]. *)
Definition channels_tracked (c : Ctx) : Prop :=
  forall ch, is_Some (channels (world c) !! ch) ->
             profileSubscriptionRef (refs c) = Some ch.

(** Timer ids are handed out in increasing order. *)
Definition timers_fresh (w : World) : Prop :=
  forall t, is_Some (timers w !! t) -> t < next_id w.

(** A durable write made through the configured vendor client: the session
    under the client's storage key, or a row of [profiles]. *)
Definition vendor_write (d : durable_write) : Prop :=
  match d with
  | SessionStored key _ | SessionRemoved key => key = storageKey supabase_auth
  | ProfileRowWritten _ => True
  end.

(** [c'] has the durable writes of [c], followed by vendor writes. *)
Definition durable_extends (c c' : Ctx) : Prop :=
  exists written,
    durable (world c') = (durable (world c) ++ written)%list /\
    Forall vendor_write written.

(** The calls a wallet connection makes when it finds nothing to update. *)
Definition connection_calls (addr : string) : list vendor_call :=
  [PhantomConnect;
   RpcGetTokenAccountsByOwner HELIUS_RPC_URL addr TOKEN_MINT;
   ProfilesSelectByWallet addr].

(** ** The pages and the navigation bar that read the context *)

(** The dashboard a page navigates to for a stored [user_type] (the effect
    of the login and registration pages). *)
Definition dashboardPath (userType : jsval) : string :=
  if strict_eq_str userType "client" then "/dashboard/client"
  else if strict_eq_str userType "admin" then "/dashboard/admin"
  else "/dashboard/freelancer".

(** The dashboard of the second effect of the login page, which knows no
    admin. *)
Definition softDashboardPath (userType : jsval) : string :=
  if strict_eq_str userType "client" then "/dashboard/client"
  else "/dashboard/freelancer".

(** [getDashboardLink] of the navigation bar. *)
Definition getDashboardLink (cv : ComputedValues) : string :=
  if isAdmin cv then "/dashboard/admin"
  else if isClient cv then "/dashboard/client"
  else "/dashboard/freelancer".







Section Pages.
Context `{JsBuiltins}.

(** The first effect of the login page: where it navigates, if it does. *)
Definition Login_navigate (s : State) : option string :=
  match profile s with
  | Some p =>
      if isAuthenticated (computedValues s)
      then Some (dashboardPath (user_type p))
      else None
  | None => None
  end.

(** The second effect of the login page ("also check for wallet-based
    profile"): [!isAuthenticated && profile && profile.wallet_address]. *)
Definition Login_navigate_soft (s : State) : option string :=
  match profile s with
  | Some p =>
      if negb (isAuthenticated (computedValues s)) && ToBoolean (wallet_address p)
      then Some (softDashboardPath (user_type p))
      else None
  | None => None
  end.




(** [determinedRole] of the registration page; [THRESHOLDS] is the
    [tokenThresholds] of the context. *)
Definition determinedRole (s : State) : jsval :=
  let cv := computedValues s in
  let THRESHOLDS := tokenThresholds cv in
  let balance := js_or (tokenBalance cv) (VNum 0) in
  if js_ge balance (FREELANCER THRESHOLDS) then VStr "freelancer"
  else if js_ge balance (CLIENT THRESHOLDS) then VStr "client"
  else VNull.

End Pages.

(** ** The fetch handed to the client: [fetchWithTimeout] of [lib/supabase.js]

    The options of a request, as far as [fetchWithTimeout] reads them.  A
    signal is the time, counted from the call, at which it aborts if the
    request is still pending then; header names are compared without regard
    to case, as the [Headers] class does. *)

Record RequestInit : Type := {
  req_body : jsval;
  req_headers : list (string * string);
  req_signal : option N
}.

Definition to_lower (c : Ascii.ascii) : Ascii.ascii :=
  let n := Ascii.nat_of_ascii c in
  if (65 <=? n)%nat && (n <=? 90)%nat then Ascii.ascii_of_nat (n + 32) else c.

Fixpoint lowercase (s : string) : string :=
  match s with
  | EmptyString => EmptyString
  | String c rest => String (to_lower c) (lowercase rest)
  end.

(** [headers.has(name)] and [headers.get(name)] (of the first header of that
    name). *)
Definition headers_has (headers : list (string * string)) (name : string) : bool :=
  existsb (fun kv => String.eqb (lowercase (fst kv)) (lowercase name)) headers.

Fixpoint headers_get (headers : list (string * string)) (name : string)
  : option string :=
  match headers with
  | [] => None
  | (k, v) :: rest =>
      if String.eqb (lowercase k) (lowercase name) then Some v
      else headers_get rest name
  end.

(** The [timeout] of [fetchWithTimeout], in ms. *)
Definition REQUEST_TIMEOUT : N := 15000.

(** The time at which [controller] aborts: when its own timer fires, or
    when the signal found in the options does. *)
Definition controller_aborts_at (options : RequestInit) : N :=
  match req_signal options with
  | Some t => N.min t REQUEST_TIMEOUT
  | None => REQUEST_TIMEOUT
  end.

(** The headers [fetchWithTimeout] passes on. *)
Definition merged_headers (options : RequestInit) : list (string * string) :=
  let headers := req_headers options in
  if ToBoolean (req_body options) && negb (headers_has headers "Content-Type")
  then (headers ++ [("Content-Type", "application/json")])%list
  else headers.

(** [fetchWithTimeout(url, options)]; [fetch] is the browser's. *)
Definition fetchWithTimeout {A : Type} (fetch : RequestInit -> run A)
    (options : RequestInit) : run A :=
  fetch {| req_body := req_body options;
           req_headers := merged_headers options;
           req_signal := Some (controller_aborts_at options) |}.

(** The same request without any signal. *)
Definition unsignalled (init : RequestInit) : RequestInit :=
  {| req_body := req_body init; req_headers := req_headers init;
     req_signal := None |}.

(** What the browser's [fetch] does with a signal: a request that settles
    before the signal aborts goes as it would without the signal; otherwise
    it is rejected with an [AbortError] when the signal aborts. *)
Definition honours_signal {A : Type} (fetch : RequestInit -> run A) : Prop :=
  forall (init : RequestInit) (t : N),
    req_signal init = Some t ->
    if (took (fetch (unsignalled init)) <? t)%N
    then fetch init = fetch (unsignalled init)
    else took (fetch init) = t /\
         exists e, outcome (fetch init) = Throw e /\
                   name e = Some "AbortError".

(** A query of the client goes through its fetch: it takes the time of the
    request, and [decode] makes the reply of the settled request. *)
Definition client_query {A : Type} (fetch : RequestInit -> run A)
    (request : nat -> RequestInit)
    (decode : completion A -> completion QueryReply) (k : nat)
  : run QueryReply :=
  {| took := took (fetchWithTimeout fetch (request k));
     outcome := decode (outcome (fetchWithTimeout fetch (request k))) |}.

(** The timeouts the provider passes to [fetchProfile]: none (5000 ms), or
    5000, 10000 and 15000 ms. *)
Definition provider_timeout (options : FetchOptions) : Prop :=
  timeout options = None \/ timeout options = Some 5000%N \/
  timeout options = Some 10000%N \/ timeout options = Some 15000%N.

(** ** The other functions of the provider

    Each is run here without anything happening between its segments, as
    [updateAuthState] above. *)

(** [refreshProfile()]; [query k] is the [k]-th run of the query for the
    user's row. *)
Definition refreshProfile (query : nat -> run QueryReply) (c : Ctx)
  : Ctx * Result Profile :=
  match user (st c) with
  | None =>
      (c, {| data := None; error := Some (new_Error "No user logged in") |})
  | Some u =>
      let c := call (ProfilesSelectById (uid u)) (setIsProfileLoading true c) in
      match fetchProfile query {| timeout := Some 10000%N; useRetry := None |} with
      | Return profileData =>
          (setIsProfileLoading false (setProfile profileData c),
           {| data := profileData; error := None |})
      | Throw e =>
          (setIsProfileLoading false c, {| data := None; error := Some e |})
      end
  end.

(** What the "retry" button of [RequireProfile] does: it is shown while
    there is no profile, and calls [refreshProfile]. *)
Definition RequireProfile_retry (query : nat -> run QueryReply) (c : Ctx) : Ctx :=
  fst (refreshProfile query c).

(** [disconnectWallet()]; [disconnected] is the settlement of the wallet's
    [disconnect()], when the extension is there. *)
Definition disconnectWallet (disconnected : option (completion unit))
    (update_reply : completion QueryReply) (c : Ctx) : Ctx * option Error :=
  let rest (c : Ctx) : Ctx * option Error :=
    let c := setLocalWalletAddress None c in
    let c :=
      match user (st c) with
      | Some _ => fst (updateProfile [("wallet_address", VNull)] update_reply c)
      | None => c
      end in
    (c, None) in
  match disconnected with
  | Some (Throw err) => (call PhantomDisconnect c, Some err)
  | Some (Return _) => rest (call PhantomDisconnect c)
  | None => rest c
  end.

(** The listeners of the wallet's events, and the eager connection. *)
Definition handleAccountChanged (publicKey : option string) : Ctx -> Ctx :=
  setLocalWalletAddress publicKey.

Definition handleDisconnect : Ctx -> Ctx := setLocalWalletAddress None.

Definition eager_connect (connected : completion string) (c : Ctx) : Ctx :=
  match connected with
  | Return addr => setLocalWalletAddress (Some addr) c
  | Throw _ => c
  end.

(** What [getSession] and [refreshSession] resolve to: the session and
    the error. *)
Record SessionReply : Type := {
  reply_session : option Session;
  reply_error : option Error
}.

(** [await supabase.auth.signOut().catch(() => { })]: whatever comes of it
    is ignored; the client drops the stored session when it succeeds. *)
Definition quiet_signOut (reply : completion (option Error)) (c : Ctx) : Ctx :=
  let c := call AuthSignOut c in
  match reply with
  | Return None => client_drops_session supabase_auth c
  | _ => c
  end.

(** What the auth client answers during a refresh of the session. *)
Record AuthEnv : Type := {
  getSession : completion SessionReply;
  refreshSession : completion SessionReply;
  signOut_reply : completion (option Error)
}.

(** The failure paths of [forceRefreshAuth]. *)
Definition forceRefreshAuth_failed (env : AuthEnv) (e : option Error) (c : Ctx)
  : Ctx * option Error :=
  (setIsLoading false
     (setAuthError e
        (setProfile None (setUser None (quiet_signOut (signOut_reply env) c)))),
   e).

(** [forceRefreshAuth()], giving the [error] of its result. *)
Definition forceRefreshAuth (env : AuthEnv) (query : nat -> run QueryReply)
    (c : Ctx) : Ctx * option Error :=
  let c := setAuthError None (setIsLoading true c) in
  match getSession env with
  | Throw e => forceRefreshAuth_failed env (Some e) c
  | Return got =>
      match reply_error got with
      | Some e => forceRefreshAuth_failed env (Some e) c
      | None =>
          match user_of (reply_session got) with
          | Some _ =>
              match refreshSession env with
              | Throw e => forceRefreshAuth_failed env (Some e) c
              | Return refreshed =>
                  if bool_decide (is_Some (reply_error refreshed))
                     || negb (bool_decide (is_Some (reply_session refreshed)))
                  then forceRefreshAuth_failed env (reply_error refreshed) c
                  else
                    (setIsLoading false
                       (updateAuthState (reply_session refreshed) default_update
                                        query c),
                     None)
              end
          | None =>
              (setIsLoading false (setProfile None (setUser None c)),
               Some (new_Error "No active session"))
          end
      end
  end.

(** [handleRecovery] of [AuthReadyGate]: [clearAuthError], then
    [forceRefreshAuth], whose result is dropped. *)
Definition handleRecovery (env : AuthEnv) (query : nat -> run QueryReply)
    (c : Ctx) : Ctx :=
  fst (forceRefreshAuth env query (setAuthError None c)).

(** [session.expires_at ? session.expires_at * 1000 : 0], and
    [expiresAt - Date.now() < 60000]; [expires_at] is in seconds, [now] in
    ms. *)
Definition expiresAt (session : Session) : Z :=
  match expires_at session with
  | Some seconds => Z.of_N seconds * 1000
  | None => 0
  end.

Definition isExpiringSoon (session : Session) (now : N) : bool :=
  (expiresAt session - Z.of_N now <? 60000)%Z.

(** The two ways in which [initializeAuth] gives up. *)
Definition initializeAuth_failed (env : AuthEnv) (clear : bool)
    (e : option Error) (c : Ctx) : Ctx :=
  let c := quiet_signOut (signOut_reply env) c in
  if mountedRef (refs c) then
    let c := if clear then setProfile None (setUser None c) else c in
    set_initCompleteRef true (setIsLoading false (setAuthError e c))
  else c.

(** [initializeAuth()], started at [now]. *)
Definition initializeAuth (env : AuthEnv) (now : N)
    (query : nat -> run QueryReply) (c : Ctx) : Ctx :=
  let finish (c : Ctx) : Ctx :=
    if mountedRef (refs c)
    then setIsLoading false (set_initCompleteRef true c)
    else c in
  let update (session : option Session) (c : Ctx) : Ctx :=
    if mountedRef (refs c)
    then updateAuthState session
           {| retryInBackground := None; isInitial := Some true |} query c
    else c in
  match getSession env with
  | Throw e => initializeAuth_failed env true (Some e) c
  | Return got =>
      match reply_error got with
      | Some e => initializeAuth_failed env false (Some e) c
      | None =>
          match reply_session got with
          | Some session =>
              match session_user session with
              | Some _ =>
                  if isExpiringSoon session now then
                    match refreshSession env with
                    | Throw e => initializeAuth_failed env true (Some e) c
                    | Return refreshed =>
                        if bool_decide (is_Some (reply_error refreshed))
                           || negb (bool_decide (is_Some (reply_session refreshed)))
                        then initializeAuth_failed env true
                               (reply_error refreshed) c
                        else finish (update (reply_session refreshed) c)
                    end
                  else finish (update (Some session) c)
              | None => finish c
              end
          | None => finish c
          end
      end
  end.

(** The fallback timer of the initialisation, 12 s after the mount. *)
Definition fallback_timeout (c : Ctx) : Ctx :=
  if mountedRef (refs c) && negb (initCompleteRef (refs c))
  then set_initCompleteRef true (setIsLoading false c)
  else c.

(** What [supabase.auth.signUp] resolves to. *)
Record SignUpReply : Type := {
  signUp_user : option User;
  signUp_session : option Session;
  signUp_error : option Error
}.

(** The data of a registration: [{ user, session }]. *)
Record Registered : Type := {
  registered_user : option User;
  registered_session : option Session
}.

(** [`${walletAddress.slice(0, 8)}@wallet.pumpwork.local`] *)
Definition tempEmail (walletAddress : string) : string :=
  String.substring 0 8 walletAddress ++ "@wallet.pumpwork.local".

(** What a registration finds around it: the lookup of the wallet, the
    reply of the sign-up, the row the update leaves when it succeeds, and
    the query for the new user's row. *)
Record RegisterEnv : Type := {
  lookup_query : nat -> run QueryReply;
  signUp_reply : completion SignUpReply;
  row_updated : option Profile;
  row_query : nat -> run QueryReply
}.

(** [registerWithWallet(walletAddress, nickname, userType)] *)
Definition registerWithWallet (env : RegisterEnv)
    (walletAddress nickname : string) (userType : jsval) (c : Ctx)
  : Ctx * Result Registered :=
  let caught (e : Error) (c : Ctx) : Ctx * Result Registered :=
    (setAuthError (Some e) c, {| data := None; error := Some e |}) in
  let c := call (ProfilesSelectByWallet walletAddress) (setAuthError None c) in
  match fetchProfileByWallet (lookup_query env) no_options with
  | Throw e => caught e c
  | Return (Some existingProfile) =>
      (c, {| data := None;
             error := Some (new_Error "This wallet is already registered") |})
  | Return None =>
      let c := call (AuthSignUp (tempEmail walletAddress)) c in
      match signUp_reply env with
      | Throw e => caught e c
      | Return signUpData =>
          match signUp_error signUpData with
          | Some signUpError =>
              if message_includes signUpError "already registered" then
                (c, {| data := None;
                       error := Some (new_Error
                         "This wallet appears to already be registered") |})
              else caught signUpError c
          | None =>
              let c :=
                match user_of (signUp_session signUpData) with
                | Some u => client_stores_session supabase_auth u c
                | None => c
                end in
              let registered :=
                {| data := Some {| registered_user := signUp_user signUpData;
                                   registered_session :=
                                     signUp_session signUpData |};
                   error := None |} in
              match signUp_user signUpData with
              | Some u =>
                  let c :=
                    call (ProfilesUpdate (uid u)
                            [("wallet_address", VStr walletAddress);
                             ("nickname", VStr nickname);
                             ("user_type", userType)]) c in
                  let c :=
                    match row_updated env with
                    | Some row => write_durable (ProfileRowWritten row) c
                    | None => c
                    end in
                  let c := call (ProfilesSelectById (uid u)) c in
                  match fetchProfile (row_query env) no_options with
                  | Return profile => (setProfile profile c, registered)
                  | Throw e => caught e c
                  end
              | None => (c, registered)
              end
          end
      end
  end.

(** [signUp(email, password, nickname, userType)] *)
Definition signUp (email : string) (reply : completion SignUpReply)
    (query : nat -> run QueryReply) (c : Ctx) : Ctx * Result Registered :=
  let caught (e : Error) (c : Ctx) : Ctx * Result Registered :=
    (setAuthError (Some e) c, {| data := None; error := Some e |}) in
  let c := call (AuthSignUp email) (setAuthError None c) in
  match reply with
  | Throw e => caught e c
  | Return signUpData =>
      match signUp_error signUpData with
      | Some e => caught e c
      | None =>
          let c :=
            match user_of (signUp_session signUpData) with
            | Some u => client_stores_session supabase_auth u c
            | None => c
            end in
          let c :=
            match signUp_user signUpData with
            | Some u =>
                let c := call (ProfilesSelectById (uid u)) c in
                match fetchProfile query
                        {| timeout := Some 5000%N; useRetry := None |} with
                | Return profileData => setProfile profileData c
                | Throw profileError => c
                end
            | None => c
            end in
          (c, {| data := Some {| registered_user := signUp_user signUpData;
                                 registered_session :=
                                   signUp_session signUpData |};
                 error := None |})
      end
  end.



(** ** [throttle]

    The closure [throttle(fn, delay)] returns keeps [lastCall] and
    [timeoutId]; its timers live in the browser, which hands out their ids
    (positive numbers, so that [!timeoutId] holds for [null] only).  Times
    are the values of [Date.now()], in ms.  The calls of [fn] are logged
    with their time and arguments, oldest first. *)

Section Throttle.
Context {Args : Type}.

Record Throttled : Type := {
  lastCall : Z;
  timeoutId : option positive;
  scheduled : gmap positive (Z * Args);
  next_timer : positive;
  invoked : list (Z * Args)
}.

(** The closure as [throttle] returns it. *)
Definition throttle_initial : Throttled :=
  {| lastCall := 0%Z; timeoutId := None; scheduled := ∅;
     next_timer := 1%positive; invoked := [] |}.

(** A call of the throttled function at [now]: [fn] is called at once, or a
    timer is set for the remaining time, or the call is dropped. *)
Definition throttle_call (delay now : Z) (args : Args) (t : Throttled)
  : Throttled :=
  let remaining := (delay - (now - lastCall t))%Z in
  if (remaining <=? 0)%Z then
    {| lastCall := now; timeoutId := timeoutId t; scheduled := scheduled t;
       next_timer := next_timer t; invoked := invoked t ++ [(now, args)] |}
  else
    match timeoutId t with
    | None =>
        let id := next_timer t in
        {| lastCall := lastCall t; timeoutId := Some id;
           scheduled := <[id := ((now + remaining)%Z, args)]> (scheduled t);
           next_timer := Pos.succ id; invoked := invoked t |}
    | Some _ => t
    end.

(** The timer [id] fires at [now]: its callback runs. *)
Definition throttle_timer (now : Z) (id : positive) (t : Throttled)
  : Throttled :=
  match scheduled t !! id with
  | Some (_, args) =>
      {| lastCall := now; timeoutId := None;
         scheduled := delete id (scheduled t);
         next_timer := next_timer t; invoked := invoked t ++ [(now, args)] |}
  | None => t
  end.

Inductive throttle_event : Type :=
| Called (now : Z) (args : Args)
| Fired (now : Z) (id : positive).

Definition throttle_step (delay : Z) (t : Throttled) (e : throttle_event)
  : Throttled :=
  match e with
  | Called now args => throttle_call delay now args t
  | Fired now id => throttle_timer now id t
  end.

Definition throttle_run (delay : Z) (events : list throttle_event)
  : Throttled :=
  fold_left (throttle_step delay) events throttle_initial.

(** Every timer pending in [t] is due after [now]. *)
Definition none_due (now : Z) (t : Throttled) : bool :=
  forallb (fun entry => (now <? fst (snd entry))%Z) (map_to_list (scheduled t)).

(** A schedule in which the browser is on time: a timer fires at the time
    it is due, and before any call made at that time or later. *)
Fixpoint on_time (delay : Z) (t : Throttled) (events : list throttle_event)
  : bool :=
  match events with
  | [] => true
  | e :: rest =>
      match e with
      | Called now _ => none_due now t
      | Fired now id =>
          match scheduled t !! id with
          | Some (due, _) => (now =? due)%Z
          | None => false
          end
      end && on_time delay (throttle_step delay t e) rest
  end.

(** A schedule in which no timer fires before it is due. *)
Fixpoint never_early (delay : Z) (t : Throttled) (events : list throttle_event)
  : bool :=
  match events with
  | [] => true
  | e :: rest =>
      match e with
      | Called _ _ => true
      | Fired now id =>
          match scheduled t !! id with
          | Some (due, _) => (due <=? now)%Z
          | None => false
          end
      end && never_early delay (throttle_step delay t e) rest
  end.

(** The times of the calls of [fn]. *)
Definition invoked_at (t : Throttled) : list Z := map fst (invoked t).

End Throttle.

Arguments Throttled : clear implicits.
Arguments throttle_event : clear implicits.

(** Consecutive times are at least [delay] apart. *)
Fixpoint spaced (delay : Z) (times : list Z) : Prop :=
  match times with
  | [] => True
  | t1 :: rest =>
      match rest with
      | [] => True
      | t2 :: _ => (t1 + delay <= t2)%Z
      end /\ spaced delay rest
  end.

(** The timers pending are the one held in [timeoutId]. *)
Definition timer_tracked {Args : Type} (t : Throttled Args) : Prop :=
  forall id, is_Some (scheduled t !! id) -> timeoutId t = Some id.

(** What holds of the closure along a schedule that is on time: a pending
    timer is due [delay] after the last call of [fn], and the calls made so
    far are no later than [lastCall] and spaced. *)
Record throttle_inv {Args : Type} (delay : Z) (t : Throttled Args) : Prop := {
  inv_tracked : timer_tracked t;
  inv_due : forall id due args,
      scheduled t !! id = Some (due, args) -> due = (lastCall t + delay)%Z;
  inv_past : Forall (fun time => (time <= lastCall t)%Z) (invoked_at t);
  inv_spaced : spaced delay (invoked_at t)
}.

(** The handler of [visibilitychange] is throttled to 5000 ms. *)
Definition VISIBILITY_THROTTLE : Z := 5000.

(** The tab becomes visible at 10 s and at 12 s; the timer set by the second
    event is due at 15 s, and a third event arrives at that time, before the
    timer fires. *)
Definition late_schedule : list (throttle_event unit) :=
  [Called 10000 tt; Called 12000 tt; Called 15000 tt; Fired 15000 1].

(** The same events with the timer in time. *)
Definition punctual_schedule : list (throttle_event unit) :=
  [Called 10000 tt; Called 12000 tt; Fired 15000 1; Called 15000 tt].

(** ** Contexts, replies and queries used as examples *)

(** A profile that stores 5000 tokens, seen while the live balance fetched
    from the chain is 0. *)
Definition stale_profile : Profile :=
  {| id := "p1"; user_type := VStr "client";
     token_balance := VNum 5000; wallet_address := VStr "W1" |}.

Definition stale_state : State :=
  {| user := None; profile := Some stale_profile; isLoading := false;
     isProfileLoading := false; authError := None;
     localWalletAddress := Some "W1"; isWalletConnecting := false;
     liveTokenBalance := VNum 0 |}.

Definition funded_state : State :=
  {| user := None; profile := Some stale_profile; isLoading := false;
     isProfileLoading := false; authError := None;
     localWalletAddress := Some "W1"; isWalletConnecting := false;
     liveTokenBalance := VNum 12000 |}.

Definition poor_freelancer : State :=
  {| user := None;
     profile := Some {| id := "p2"; user_type := VStr "freelancer";
                        token_balance := VNum 2500; wallet_address := VNull |};
     isLoading := false; isProfileLoading := false; authError := None;
     localWalletAddress := None; isWalletConnecting := false;
     liveTokenBalance := VNum 0 |}.

Definition account_reply (tokenAmount : jsval) : jsval :=
  VObj [("pubkey", VStr "Acc");
        ("account",
         VObj [("data",
                VObj [("parsed",
                       VObj [("info", VObj [("tokenAmount", tokenAmount)]);
                             ("type", VStr "account")]);
                      ("program", VStr "spl-token")])])].


Definition network_error : Error :=
  {| name := Some "TypeError"; message := Some "TypeError: Failed to fetch";
     code := VUndefined |}.

Definition abort_error : Error :=
  {| name := Some "AbortError"; message := Some "signal is aborted without reason";
     code := VUndefined |}.

Definition missing_row : Error :=
  {| name := None;
     message := Some "JSON object requested, multiple (or no) rows returned";
     code := VStr "PGRST116" |}.

(** Two network failures, then the row. *)
Definition flaky_query (k : nat) : run QueryReply :=
  match k with
  | 0 => {| took := 120%N; outcome := Return (QError network_error) |}
  | 1 => {| took := 80%N; outcome := Return (QError network_error) |}
  | _ => {| took := 60%N; outcome := Return (QData stale_profile) |}
  end.

Definition aborted_query (k : nat) : run QueryReply :=
  {| took := 15%N; outcome := Throw abort_error |}.

Definition missing_query (k : nat) : run QueryReply :=
  {| took := 40%N; outcome := Return (QError missing_row) |}.

(** A wallet whose address has a profile row, and one that has none; the
    RPC endpoint is unreachable for both. *)
Definition known_wallet : WalletEnv :=
  {| phantom := Some (Return "W1");
     rpc := fun _ => FetchRejected network_error;
     wallet_query := fun _ _ =>
       {| took := 30%N; outcome := Return (QData stale_profile) |};
     update_reply := Throw network_error |}.

Definition unknown_wallet : WalletEnv :=
  {| phantom := Some (Return "W2");
     rpc := fun _ => FetchRejected network_error;
     wallet_query := fun _ _ => missing_query 0;
     update_reply := Throw network_error |}.

(** The context after a soft login with the known wallet. *)
Definition soft_login `{JsBuiltins} : Ctx :=
  fst (signInWithWallet known_wallet initial_Ctx).

Definition hosted_user : User := {| uid := "u1" |}.

Definition hosted_session : option Session :=
  Some {| session_user := Some hosted_user; expires_at := None |}.

(** Two subscriptions in a row: by the sign-in and by the SIGNED_IN event
    that follows it. *)
Definition subscribed_twice `{JsBuiltins} : Ctx :=
  apply_event
    (EvUpdateAuthStateSettle hosted_user default_update
       (Return (Some stale_profile)))
    (apply_event (EvSignInFetched hosted_user (Return (Some stale_profile)))
       initial_Ctx).

(** A query that answers only after 20 s. *)
Definition slow_query (k : nat) : run QueryReply :=
  {| took := 20000%N; outcome := Return (QData stale_profile) |}.

(** [updateAuthState] is called, the provider is unmounted while the profile
    fetch is awaited, and the fetch then times out. *)
Definition unmounted_while_fetching : Ctx :=
  unmount (fst (updateAuthState_begin hosted_session default_update initial_Ctx)).



(** Two runs of [updateAuthState] that overlap, as those of the
    initialisation and of the INITIAL_SESSION event do: both fetches time
    out, and a third run then starts. *)
Definition initial_update : UpdateOptions :=
  {| retryInBackground := None; isInitial := Some true |}.

Definition two_runs_timed_out : Ctx :=
  updateAuthState_settle hosted_user initial_update
    (Throw (new_Error "Profile fetch timeout"))
    (updateAuthState_settle hosted_user initial_update
       (Throw (new_Error "Profile fetch timeout"))
       (fst (updateAuthState_begin hosted_session initial_update
               (fst (updateAuthState_begin hosted_session initial_update
                       initial_Ctx))))).

Definition third_run_started : Ctx :=
  fst (updateAuthState_begin hosted_session default_update two_runs_timed_out).

(** ** Further example contexts *)

(** A wallet holding 12000 tokens is connected and its profile loaded. *)
Definition funded_ctx : Ctx := with_st (fun _ => funded_state) initial_Ctx.

(** A browser whose requests are answered after [latency] ms, unless the
    signal aborts them first. *)
Definition browser_fetch (latency : N) (init : RequestInit) : run string :=
  match req_signal init with
  | Some t =>
      if (latency <? t)%N
      then {| took := latency; outcome := Return "ok" |}
      else {| took := t; outcome := Throw abort_error |}
  | None => {| took := latency; outcome := Return "ok" |}
  end.

(** A [select] request: no body, the [Accept] header of [single()]. *)
Definition select_request : RequestInit :=
  {| req_body := VUndefined;
     req_headers := [("Accept", "application/vnd.pgrst.object+json")];
     req_signal := None |}.

(** The client's decoding of a settled request: an error of the request
    becomes the [error] of the reply. *)
Definition decode_row (c : completion string) : completion QueryReply :=
  match c with
  | Return _ => Return (QData stale_profile)
  | Throw e => Return (QError e)
  end.

(** A reply with an account of 1500.5 tokens and one without [account]. *)
Definition one_bad_account_reply : jsval :=
  VObj [("result",
         VObj [("value",
                VArr [account_reply (VObj [("uiAmount", VNum 1500.5)]);
                      VObj [("pubkey", VStr "Acc2")]])])].

(** A hosted user whose profile is loaded. *)
Definition loaded_ctx : Ctx :=
  setProfile (Some stale_profile) (setUser (Some hosted_user) initial_Ctx).

(** An auth client that holds no session, as after a soft login. *)
Definition no_session : AuthEnv :=
  {| getSession := Return {| reply_session := None; reply_error := None |};
     refreshSession := Return {| reply_session := None; reply_error := None |};
     signOut_reply := Return None |}.

(** A registration whose sign-up succeeds and whose last fetch times out. *)
Definition slow_registration : RegisterEnv :=
  {| lookup_query := missing_query;
     signUp_reply :=
       Return {| signUp_user := Some hosted_user; signUp_session := None;
                 signUp_error := None |};
     row_updated := None;
     row_query := slow_query |}.
(** ** Facts about binary64 comparison *)

Lemma SFleb_trans (x y z : spec_float) :
  SFleb x y = true -> SFleb y z = true -> SFleb x z = true.
Proof.
  unfold SFleb, SFcompare.
  destruct x as [sx|sx| |sx mx ex], y as [sy|sy| |sy my ey],
      z as [sz|sz| |sz mz ez];
    try discriminate; try reflexivity;
    repeat match goal with b : bool |- _ => destruct b end;
    try discriminate; try reflexivity.
  all: change (PosDef.Pos.compare_cont Eq) with Pos.compare.
  all: destruct (Z.compare_spec ex ey), (Z.compare_spec ey ez),
         (Z.compare_spec ex ez);
    try discriminate; try reflexivity; try lia.
  all: destruct (Pos.compare_spec mx my), (Pos.compare_spec my mz),
         (Pos.compare_spec mx mz);
    simpl; try discriminate; try reflexivity; try lia.
Qed.

Lemma float_leb_trans (x y z : float) :
  (x <=? y)%float = true -> (y <=? z)%float = true -> (x <=? z)%float = true.
Proof. rewrite !FloatAxioms.leb_spec. apply SFleb_trans. Qed.

(** "[a < r] is defined and false" is [r <= a]. *)
Lemma SF_not_lt_is_leb (a r : spec_float) :
  (if negb (SFeqb a a) || negb (SFeqb r r) then None else Some (SFltb a r))
    = Some false <-> SFleb r a = true.
Proof.
  unfold SFeqb, SFltb, SFleb, SFcompare.
  destruct a as [sa|sa| |sa ma ea], r as [sr|sr| |sr mr er];
    repeat match goal with b : bool |- _ => destruct b end;
    simpl; try (split; intro; congruence).
  all: change (PosDef.Pos.compare_cont Eq) with Pos.compare.
  all: rewrite ?Z.compare_refl, ?Pos.compare_refl; simpl;
    try (split; intro; congruence).
  all: destruct (Z.compare_spec ea er), (Z.compare_spec er ea);
    try lia; simpl; try (split; intro; congruence).
  all: destruct (Pos.compare_spec ma mr), (Pos.compare_spec mr ma);
    try lia; simpl; try (split; intro; congruence).
Qed.

Lemma float_not_lt_is_leb (a r : float) :
  match (if PrimFloat.is_nan a || PrimFloat.is_nan r then None
         else Some (a <? r)%float) with
  | Some false => true
  | _ => false
  end = (r <=? a)%float.
Proof.
  pose proof (SF_not_lt_is_leb (Prim2SF a) (Prim2SF r)) as E.
  unfold PrimFloat.is_nan.
  rewrite !FloatAxioms.eqb_spec, FloatAxioms.ltb_spec, FloatAxioms.leb_spec.
  destruct (SFleb (Prim2SF r) (Prim2SF a)).
  - rewrite (proj2 E eq_refl). reflexivity.
  - destruct E as [E _].
    destruct (negb (SFeqb (Prim2SF a) (Prim2SF a))
              || negb (SFeqb (Prim2SF r) (Prim2SF r))); [reflexivity|].
    destruct (SFltb (Prim2SF a) (Prim2SF r)); [reflexivity|].
    discriminate (E eq_refl).
Qed.

Section ComparisonFacts.
Context `{JsBuiltins}.

Lemma ToPrimitive_idem (v : jsval) : ToPrimitive (ToPrimitive v) = ToPrimitive v.
Proof. destruct v; reflexivity. Qed.

Lemma ToNumber_ToPrimitive (v : jsval) : ToNumber (ToPrimitive v) = ToNumber v.
Proof. unfold ToNumber. rewrite ToPrimitive_idem. reflexivity. Qed.

(** Against a number, [>=] is the binary64 comparison of the coerced value. *)
Lemma js_ge_num (t : jsval) (r : float) :
  js_ge t (VNum r) = (r <=? ToNumber t)%float.
Proof.
  rewrite <- float_not_lt_is_leb. unfold js_ge, js_lt.
  change (ToPrimitive (VNum r)) with (VNum r).
  change (ToNumber (VNum r)) with r.
  rewrite <- (ToNumber_ToPrimitive t).
  destruct (ToPrimitive t); reflexivity.
Qed.

End ComparisonFacts.

Lemma SFltb_right_not_nan (a b : spec_float) :
  SFltb a b = true -> SFeqb b b = true.
Proof.
  unfold SFltb, SFeqb. intros Hlt.
  destruct b as [sb|sb| |sb mb eb].
  - reflexivity.
  - destruct sb; reflexivity.
  - destruct a; discriminate.
  - unfold SFcompare. rewrite Z.compare_refl.
    change (PosDef.Pos.compare_cont Eq) with Pos.compare.
    rewrite Pos.compare_refl. destruct sb; reflexivity.
Qed.

Lemma float_ltb_not_nan (a b : float) :
  (a <? b)%float = true -> PrimFloat.is_nan b = false.
Proof.
  unfold PrimFloat.is_nan.
  rewrite FloatAxioms.ltb_spec, FloatAxioms.eqb_spec.
  intros Hlt. rewrite (SFltb_right_not_nan _ _ Hlt). reflexivity.
Qed.

Section BalanceFacts.
Context `{JsBuiltins}.

Lemma js_gt_pos (n : float) :
  (0 <? n)%float = true -> js_gt (VNum n) (VNum 0) = true.
Proof.
  intros Hpos. unfold js_gt, js_lt. cbn.
  change (ToNumber (VNum 0)) with 0%float. change (ToNumber (VNum n)) with n.
  rewrite (float_ltb_not_nan _ _ Hpos), Hpos. reflexivity.
Qed.

Lemma strict_eq_str_true (v : jsval) (lit : string) :
  strict_eq_str v lit = true <-> v = VStr lit.
Proof.
  destruct v; cbn; try (split; intro; congruence).
  rewrite String.eqb_eq. split; congruence.
Qed.

End BalanceFacts.

(** ** Facts about the balance lookup *)

Section FetchFacts.
Context `{JsBuiltins}.


Lemma sum_accounts_cons (total acc : jsval) (rest : list jsval) :
  sum_accounts total (acc :: rest) =
    (amount ← account_amount acc; sum_accounts (js_add total amount) rest).
Proof.
  unfold account_amount. cbn [sum_accounts].
  destruct (tokenAmount_of acc); reflexivity.
Qed.



End FetchFacts.

(** ** Facts about [withRetry] *)

Section WithRetryFacts.
Context {A : Type} (fn : nat -> run A) (retries : nat) (baseDelay : N)
        (shouldRetry : Error -> bool).

Record loop_spec (attempt : nat) (now : N) (r : retried A) : Prop := {
  ls_calls_lower : attempt < calls r;
  ls_calls_upper : calls r <= S retries;
  ls_delays_length : length (delays r) = calls r - S attempt;
  ls_delays_value :
    forall j d, delays r !! j = Some d ->
                d = (baseDelay * 2 ^ N.of_nat (attempt + j))%N;
  ls_retried :
    forall k, attempt <= k -> S k < calls r ->
      exists e, outcome (fn k) = Throw e /\ is_abort e = false /\
                shouldRetry e = true /\ k < retries;
  ls_last : settled r = outcome (fn (calls r - 1));
  ls_success_stops :
    forall k a, attempt <= k < calls r -> outcome (fn k) = Return a ->
      calls r = S k;
  ls_abort_stops :
    forall k e, attempt <= k < calls r -> outcome (fn k) = Throw e ->
      is_abort e = true -> calls r = S k;
  ls_elapsed :
    elapsed r = (now + time_in_calls fn attempt (calls r - attempt)
                 + N_sum (delays r))%N
}.

Lemma time_in_calls_one (attempt : nat) :
  time_in_calls fn attempt 1 = took (fn attempt).
Proof. unfold time_in_calls, N_sum. cbn. lia. Qed.

Lemma time_in_calls_S (attempt n : nat) :
  time_in_calls fn attempt (S n)
  = (took (fn attempt) + time_in_calls fn (S attempt) n)%N.
Proof. reflexivity. Qed.

Lemma loop_spec_stop (attempt : nat) (now : N) (last : completion A) :
  attempt <= retries ->
  last = outcome (fn attempt) ->
  loop_spec attempt now
    {| settled := last; elapsed := (now + took (fn attempt))%N;
       calls := S attempt; delays := [] |}.
Proof.
  intros Hle ->. constructor; cbn [settled elapsed calls delays].
  - lia.
  - lia.
  - cbn [length]. lia.
  - intros j d Hj. destruct j; discriminate.
  - intros k Hk Hlt. lia.
  - replace (S attempt - 1) with attempt by lia. reflexivity.
  - intros k a Hk _. lia.
  - intros k e Hk _ _. lia.
  - replace (S attempt - attempt) with 1 by lia.
    rewrite time_in_calls_one. change (N_sum []) with 0%N. lia.
Qed.

Lemma withRetry_loop_spec (n : nat) :
  forall (lastError : option Error) (attempt : nat) (now : N),
    attempt + n = S retries -> 0 < n ->
    loop_spec attempt now
      (withRetry_loop fn retries baseDelay shouldRetry lastError n attempt now).
Proof.
  induction n as [|n IH]; intros lastError attempt now Hsum Hpos; [lia|].
  cbn [withRetry_loop].
  destruct (outcome (fn attempt)) as [a|error] eqn:Eout.
  { apply loop_spec_stop; [lia | symmetry; exact Eout]. }
  destruct (is_abort error) eqn:Eabort.
  { apply loop_spec_stop; [lia | symmetry; exact Eout]. }
  destruct ((attempt <? retries)%nat && shouldRetry error) eqn:Eretry.
  2: { apply loop_spec_stop; [lia | symmetry; exact Eout]. }
  apply andb_true_iff in Eretry as [Hlt Hshould].
  apply Nat.ltb_lt in Hlt.
  specialize (IH (Some error) (S attempt)
                 (now + took (fn attempt) + baseDelay * 2 ^ N.of_nat attempt)%N
                 ltac:(lia) ltac:(lia)).
  cbv zeta.
  set (rest := withRetry_loop fn retries baseDelay shouldRetry (Some error) n
                 (S attempt)
                 (now + took (fn attempt) + baseDelay * 2 ^ N.of_nat attempt)%N)
    in *.
  destruct IH as [I1 I2 I3 I4 I5 I6 I7 I8 I9].
  constructor; cbn [settled elapsed calls delays].
  - lia.
  - exact I2.
  - cbn [length]. lia.
  - intros j d Hj. destruct j as [|j].
    + cbn in Hj. injection Hj as <-. rewrite Nat.add_0_r. reflexivity.
    + cbn in Hj. rewrite (I4 j d Hj). f_equal. f_equal. f_equal. lia.
  - intros k Hk Hlast. destruct (decide (k = attempt)) as [->|Hne].
    + exists error. auto.
    + apply I5; lia.
  - exact I6.
  - intros k a Hk Hret. destruct (decide (k = attempt)) as [->|Hne].
    + congruence.
    + apply (I7 k a); [lia | exact Hret].
  - intros k e Hk Hthrow Hab. destruct (decide (k = attempt)) as [->|Hne].
    + congruence.
    + apply (I8 k e); [lia | exact Hthrow | exact Hab].
  - rewrite I9. clearbody rest.
    replace (calls rest - attempt) with (S (calls rest - S attempt))
      by (clear - I1; lia).
    rewrite time_in_calls_S.
    generalize (baseDelay * 2 ^ N.of_nat attempt)%N. intros dly.
    change (N_sum (dly :: delays rest)) with (dly + N_sum (delays rest))%N.
    lia.
Qed.

Lemma withRetry_spec :
  loop_spec 0 0%N (withRetry fn retries baseDelay shouldRetry).
Proof. apply withRetry_loop_spec; lia. Qed.

Lemma once_spec : retries = 0 -> loop_spec 0 0%N (once fn).
Proof.
  intros ->. unfold once.
  change (took (fn 0)) with (0 + took (fn 0))%N.
  apply loop_spec_stop; [lia | reflexivity].
Qed.

End WithRetryFacts.

Lemma loop_spec_weaken {A : Type} (fn : nat -> run A)
    (retries retries' : nat) (baseDelay : N) (shouldRetry : Error -> bool)
    (attempt : nat) (now : N) (r : retried A) :
  retries <= retries' ->
  loop_spec fn retries baseDelay shouldRetry attempt now r ->
  loop_spec fn retries' baseDelay shouldRetry attempt now r.
Proof.
  intros Hle [I1 I2 I3 I4 I5 I6 I7 I8 I9].
  constructor; try assumption; [lia|].
  intros k Hk Hlt. destruct (I5 k Hk Hlt) as (e & He & Hab & Hsh & Hr).
  exists e. repeat split; try assumption. lia.
Qed.

Lemma fetchPromise_spec (query : nat -> run QueryReply) (options : FetchOptions) :
  loop_spec (fetchFn query) 2 1000%N shouldRetry_fetch 0 0%N
            (fetchPromise query options).
Proof.
  unfold fetchPromise. destruct (default true (useRetry options)).
  - apply withRetry_spec.
  - apply (loop_spec_weaken _ 0 2); [lia|]. apply once_spec. reflexivity.
Qed.


Lemma race_lost {A : Type} (p : retried A) (limit : N) (e : Error) :
  (limit <= elapsed p)%N -> race p limit e = Throw e.
Proof.
  intros Hle. unfold race.
  destruct (N.ltb_spec (elapsed p) limit); [lia | reflexivity].
Qed.

Lemma race_won {A : Type} (p : retried A) (limit : N) (e : Error) :
  (elapsed p < limit)%N -> race p limit e = settled p.
Proof.
  intros Hlt. unfold race.
  destruct (N.ltb_spec (elapsed p) limit); [reflexivity | lia].
Qed.

(** ** Facts about the realtime channels *)

Lemma channels_tracked_same (c c' : Ctx) :
  channels (world c') = channels (world c) ->
  profileSubscriptionRef (refs c') = profileSubscriptionRef (refs c) ->
  channels_tracked c -> channels_tracked c'.
Proof. unfold channels_tracked. intros -> ->. auto. Qed.

Lemma channels_tracked_none (c : Ctx) :
  channels_tracked c -> profileSubscriptionRef (refs c) = None ->
  channels (world c) = ∅.
Proof.
  intros Htr Hnone. apply map_empty. intros ch.
  destruct (channels (world c) !! ch) eqn:E; [|reflexivity].
  specialize (Htr ch ltac:(rewrite E; eauto)). congruence.
Qed.

Lemma channels_tracked_delete (c : Ctx) (ch : nat) :
  channels_tracked c -> profileSubscriptionRef (refs c) = Some ch ->
  delete ch (channels (world c)) = ∅.
Proof.
  intros Htr Href. apply map_empty. intros i.
  destruct (decide (i = ch)) as [->|Hne].
  - apply lookup_delete_eq.
  - rewrite lookup_delete_ne by congruence.
    destruct (channels (world c) !! i) eqn:E; [|reflexivity].
    specialize (Htr i ltac:(rewrite E; eauto)). congruence.
Qed.

(** What [subscribeToProfile] leaves: the old channel removed, one new
    channel, held by the ref. *)
Lemma subscribeToProfile_channels (userId : string) (c : Ctx) :
  channels (world (subscribeToProfile userId c))
  = <[next_id (world c) := profile_channel userId]>
      (match profileSubscriptionRef (refs c) with
       | Some ch => delete ch (channels (world c))
       | None => channels (world c)
       end) /\
  profileSubscriptionRef (refs (subscribeToProfile userId c))
  = Some (next_id (world c)).
Proof.
  unfold subscribeToProfile.
  destruct (profileSubscriptionRef (refs c)); split; reflexivity.
Qed.

Lemma subscribeToProfile_st (userId : string) (c : Ctx) :
  st (subscribeToProfile userId c) = st c.
Proof.
  unfold subscribeToProfile.
  destruct (profileSubscriptionRef (refs c)); reflexivity.
Qed.

Lemma subscribeToProfile_tracked (userId : string) (c : Ctx) :
  channels_tracked c -> channels_tracked (subscribeToProfile userId c).
Proof.
  intros Htr. destruct (subscribeToProfile_channels userId c) as [Hch Href].
  intros ch. rewrite Hch, Href.
  destruct (profileSubscriptionRef (refs c)) as [old|] eqn:Eold.
  - rewrite (channels_tracked_delete c old Htr Eold).
    destruct (decide (ch = next_id (world c))) as [->|Hne]; [reflexivity|].
    rewrite lookup_insert_ne by congruence. rewrite lookup_empty.
    intros [? [=]].
  - rewrite (channels_tracked_none c Htr Eold).
    destruct (decide (ch = next_id (world c))) as [->|Hne]; [reflexivity|].
    rewrite lookup_insert_ne by congruence. rewrite lookup_empty.
    intros [? [=]].
Qed.

Lemma cleanup_profile_subscription_channels (c : Ctx) :
  channels_tracked c ->
  channels (world (cleanup_profile_subscription c)) = ∅ /\
  profileSubscriptionRef (refs (cleanup_profile_subscription c)) = None.
Proof.
  intros Htr. unfold cleanup_profile_subscription.
  destruct (profileSubscriptionRef (refs c)) as [ch|] eqn:Eref; cbn.
  - split; [apply (channels_tracked_delete c ch Htr Eref) | reflexivity].
  - split; [apply (channels_tracked_none c Htr Eref) | exact Eref].
Qed.

Lemma tracked_of_empty (c : Ctx) :
  channels (world c) = ∅ -> channels_tracked c.
Proof. intros Hempty ch. rewrite Hempty, lookup_empty. intros [? [=]]. Qed.

Lemma cleanup_profile_subscription_tracked (c : Ctx) :
  channels_tracked c -> channels_tracked (cleanup_profile_subscription c).
Proof.
  intros Htr. apply tracked_of_empty.
  apply (cleanup_profile_subscription_channels c Htr).
Qed.

Lemma unmount_channels (c : Ctx) :
  channels_tracked c -> channels (world (unmount c)) = ∅.
Proof.
  intros Htr. unfold unmount. cbn.
  destruct (backgroundRetryRef (refs c)); cbn;
    destruct (profileSubscriptionRef (refs c)) as [ch|] eqn:Eref; cbn;
    first [ apply (channels_tracked_delete c ch Htr Eref)
          | apply (channels_tracked_none c Htr Eref) ].
Qed.

Lemma clear_background_retry_view (c : Ctx) :
  channels (world (clear_background_retry c)) = channels (world c) /\
  profileSubscriptionRef (refs (clear_background_retry c))
  = profileSubscriptionRef (refs c).
Proof.
  unfold clear_background_retry.
  destruct (backgroundRetryRef (refs c)); split; reflexivity.
Qed.

Lemma clear_background_retry_tracked (c : Ctx) :
  channels_tracked c -> channels_tracked (clear_background_retry c).
Proof.
  destruct (clear_background_retry_view c) as [Hch Href].
  apply channels_tracked_same; assumption.
Qed.

(** Steps that touch neither the channels nor the ref. *)
Ltac same_view :=
  match goal with
  | Htr : channels_tracked ?c |- channels_tracked _ =>
      apply (channels_tracked_same c); [reflexivity | reflexivity | exact Htr]
  end.

Lemma updateAuthState_begin_tracked (session : option Session)
    (options : UpdateOptions) (c : Ctx) :
  channels_tracked c ->
  channels_tracked (fst (updateAuthState_begin session options c)).
Proof.
  intros Htr. apply clear_background_retry_tracked in Htr.
  unfold updateAuthState_begin.
  destruct (user_of session); cbn [fst]; same_view.
Qed.

Lemma updateAuthState_settle_tracked (u : User) (options : UpdateOptions)
    (fetched : completion (option Profile)) (c : Ctx) :
  channels_tracked c ->
  channels_tracked (updateAuthState_settle u options fetched c).
Proof.
  intros Htr. unfold updateAuthState_settle.
  assert (Hfin : forall c', channels_tracked c' ->
            channels_tracked (if mountedRef (refs c')
                              then setIsProfileLoading false c' else c')).
  { intros c' Htr'. destruct (mountedRef (refs c')); [same_view | exact Htr']. }
  apply Hfin.
  destruct fetched as [[row|]|error]; destruct (mountedRef (refs c));
    try exact Htr.
  - apply subscribeToProfile_tracked. same_view.
  - destruct (message_includes error "timeout"
              && default true (retryInBackground options)); same_view.
Qed.

Lemma timer_fires_tracked (t : nat) (c : Ctx) :
  channels_tracked c -> channels_tracked (fst (timer_fires t c)).
Proof.
  intros Htr. unfold timer_fires.
  destruct (timers (world c) !! t) as [[d [userId]]|]; [|exact Htr].
  cbn. destruct (mountedRef (refs c)); cbn; same_view.
Qed.

Lemma background_retry_settle_tracked (userId : string)
    (fetched : completion (option Profile)) (c : Ctx) :
  channels_tracked c ->
  channels_tracked (background_retry_settle userId fetched c).
Proof.
  intros Htr. unfold background_retry_settle.
  destruct fetched as [[row|]|error]; try exact Htr.
  destruct (mountedRef (refs c)); [|exact Htr].
  apply subscribeToProfile_tracked. same_view.
Qed.

Lemma onAuthStateChange_begin_tracked (ev : auth_event)
    (session : option Session) (c : Ctx) :
  channels_tracked c ->
  channels_tracked (fst (onAuthStateChange_begin ev session c)).
Proof.
  intros Htr. unfold onAuthStateChange_begin.
  destruct (mountedRef (refs c)); [|exact Htr]. cbn [negb].
  pose proof (updateAuthState_begin_tracked session default_update c Htr) as Hd.
  pose proof (updateAuthState_begin_tracked session
                {| retryInBackground := None; isInitial := Some true |} c Htr)
    as Hi.
  pose proof (cleanup_profile_subscription_tracked c Htr) as Hcl.
  destruct ev, session as [s|]; cbn -[updateAuthState_begin];
    repeat match goal with
    | |- context [if ?b then _ else _] => destruct b
    | |- context [let '(_, _) := ?p in _] => destruct p eqn:?
    end; cbn [fst snd] in *; try assumption; try same_view.
Qed.

Lemma updateProfile_view (updates : ProfileUpdates)
    (reply : completion QueryReply) (c : Ctx) :
  channels (world (fst (updateProfile updates reply c))) = channels (world c) /\
  refs (fst (updateProfile updates reply c)) = refs c /\
  timers (world (fst (updateProfile updates reply c))) = timers (world c) /\
  next_id (world (fst (updateProfile updates reply c))) = next_id (world c) /\
  user (st (fst (updateProfile updates reply c))) = user (st c).
Proof.
  unfold updateProfile.
  destruct (user (st c)) eqn:Eu; [destruct reply as [[row|e]|e]|];
    cbn; rewrite ?Eu; repeat split; reflexivity.
Qed.

Section TransitionFacts.
Context `{JsBuiltins}.

Lemma connectWallet_view (env : WalletEnv) (c : Ctx) :
  channels (world (fst (connectWallet env c))) = channels (world c) /\
  refs (fst (connectWallet env c)) = refs c /\
  timers (world (fst (connectWallet env c))) = timers (world c) /\
  next_id (world (fst (connectWallet env c))) = next_id (world c).
Proof.
  unfold connectWallet.
  destruct (phantom env) as [[addr|err]|];
    cbn -[fetchTokenBalance fetchProfileByWallet updateProfile].
  - destruct (fetchProfileByWallet (wallet_query env addr) no_options)
      as [[row|]|e];
      cbn -[fetchTokenBalance updateProfile];
      destruct (user (st c)) as [u|] eqn:Eu;
      cbn -[fetchTokenBalance updateProfile];
      try (destruct (updateProfile_view [("wallet_address", VStr addr)]
                       (update_reply env)
                       (call (ProfilesSelectByWallet addr)
                          (setLiveTokenBalance (fetchTokenBalance (rpc env) addr)
                             (call (RpcGetTokenAccountsByOwner HELIUS_RPC_URL addr TOKEN_MINT)
                                (setLocalWalletAddress (Some addr)
                                   (call PhantomConnect
                                      (setIsWalletConnecting true c)))))))
             as (Hch & Hrefs & Htm & Hid & _));
      repeat split; try reflexivity; try assumption.
  - destruct (strict_eq_num (code err) 4001); [repeat split; reflexivity|].
    destruct (message_includes err "Unexpected error"); repeat split; reflexivity.
  - repeat split; reflexivity.
Qed.

Lemma signInWithWallet_view (env : WalletEnv) (c : Ctx) :
  channels (world (fst (signInWithWallet env c))) = channels (world c) /\
  refs (fst (signInWithWallet env c)) = refs c /\
  timers (world (fst (signInWithWallet env c))) = timers (world c) /\
  next_id (world (fst (signInWithWallet env c))) = next_id (world c).
Proof.
  unfold signInWithWallet, connectWallet.
  destruct (phantom env) as [[addr|err]|];
    cbn -[fetchTokenBalance fetchProfileByWallet updateProfile].
  - destruct (fetchProfileByWallet (wallet_query env addr) no_options)
      as [[row|]|e];
      cbn -[fetchTokenBalance updateProfile];
      destruct (user (st c)) as [u|] eqn:Eu;
      cbn -[fetchTokenBalance updateProfile];
      try (destruct (updateProfile_view [("wallet_address", VStr addr)]
                       (update_reply env)
                       (call (ProfilesSelectByWallet addr)
                          (setLiveTokenBalance (fetchTokenBalance (rpc env) addr)
                             (call (RpcGetTokenAccountsByOwner HELIUS_RPC_URL addr TOKEN_MINT)
                                (setLocalWalletAddress (Some addr)
                                   (call PhantomConnect
                                      (setIsWalletConnecting true
                                         (setIsWalletConnecting true
                                            (setAuthError None c)))))))))
             as (Hch & Hrefs & Htm & Hid & _));
      destruct (String.eqb addr ""); cbn -[fetchTokenBalance updateProfile];
      repeat split; try reflexivity; try assumption.
  - destruct (strict_eq_num (code err) 4001); [repeat split; reflexivity|].
    destruct (message_includes err "Unexpected error"); repeat split; reflexivity.
  - repeat split; reflexivity.
Qed.

Lemma apply_event_tracked (e : event) (c : Ctx) :
  channels_tracked c -> channels_tracked (apply_event e c).
Proof.
  intros Htr. destruct e; cbn [apply_event].
  - same_view.
  - same_view.
  - same_view.
  - apply tracked_of_empty. apply unmount_channels. exact Htr.
  - apply updateAuthState_begin_tracked. exact Htr.
  - apply updateAuthState_settle_tracked. exact Htr.
  - apply timer_fires_tracked. exact Htr.
  - apply background_retry_settle_tracked. exact Htr.
  - apply onAuthStateChange_begin_tracked. exact Htr.
  - destruct tail; same_view.
  - unfold on_profile_update. destruct (channels (world c) !! ch); [|exact Htr].
    destruct (mountedRef (refs c) && bool_decide (is_Some payload_new));
      [same_view | exact Htr].
  - same_view.
  - unfold signIn_authenticated.
    destruct reply as [[[u|]|err]|err]; cbn [fst]; same_view.
  - unfold signIn_fetched. cbn [fst].
    destruct fetched as [[row|]|err]; try exact Htr.
    apply subscribeToProfile_tracked. same_view.
  - unfold signOut_begin.
    apply (channels_tracked_same
             (clear_background_retry (cleanup_profile_subscription c)));
      [reflexivity | reflexivity |].
    apply clear_background_retry_tracked.
    apply cleanup_profile_subscription_tracked. exact Htr.
  - unfold signOut_settle. destruct reply as [[err|]|err]; cbn [fst];
      exact Htr.
  - destruct (updateProfile_view updates reply c) as (Hch & Hrefs & _).
    apply (channels_tracked_same c); [exact Hch | rewrite Hrefs; reflexivity | exact Htr].
  - destruct (connectWallet_view env c) as (Hch & Hrefs & _).
    apply (channels_tracked_same c); [exact Hch | rewrite Hrefs; reflexivity | exact Htr].
  - destruct (signInWithWallet_view env c) as (Hch & Hrefs & _).
    apply (channels_tracked_same c); [exact Hch | rewrite Hrefs; reflexivity | exact Htr].
Qed.

Lemma reachable_tracked (c : Ctx) : reachable c -> channels_tracked c.
Proof.
  induction 1 as [|e c _ IH].
  - apply tracked_of_empty. reflexivity.
  - apply apply_event_tracked. exact IH.
Qed.

End TransitionFacts.

Lemma tracked_at_most_one (c : Ctx) :
  channels_tracked c -> size (channels (world c)) <= 1.
Proof.
  intros Htr.
  destruct (profileSubscriptionRef (refs c)) as [ch|] eqn:Eref.
  - destruct (channels (world c) !! ch) as [x|] eqn:Ech.
    + assert (Heq : channels (world c) = {[ch := x]}).
      { apply map_eq. intros i.
        destruct (decide (i = ch)) as [->|Hne].
        - rewrite lookup_singleton_eq. exact Ech.
        - rewrite lookup_singleton_ne by congruence.
          destruct (channels (world c) !! i) eqn:E; [|reflexivity].
          specialize (Htr i ltac:(rewrite E; eauto)). congruence. }
      rewrite Heq, map_size_singleton. lia.
    + assert (Heq : channels (world c) = ∅).
      { rewrite <- (channels_tracked_delete c ch Htr Eref).
        symmetry. apply delete_id. exact Ech. }
      rewrite Heq, map_size_empty. lia.
  - rewrite (channels_tracked_none c Htr Eref), map_size_empty. lia.
Qed.

(** ** Facts about the background retry *)



Lemma updateAuthState_settle_timeout (u : User) (options : UpdateOptions)
    (error : Error) (c : Ctx) :
  message_includes error "timeout" = true ->
  default true (retryInBackground options) = true ->
  mountedRef (refs c) = true ->
  updateAuthState_settle u options (Throw error) c
  = setIsProfileLoading false
      (set_backgroundRetryRef (Some (next_id (world c)))
         (fst (setTimeout (BackgroundRetry (uid u)) 3000%N (setProfile None c)))).
Proof.
  intros Htimeout Hretry Hmounted. unfold updateAuthState_settle.
  rewrite Hmounted, Htimeout, Hretry. cbn. rewrite Hmounted. reflexivity.
Qed.

(** ** Facts about durable writes *)

Lemma durable_extends_same (c c' : Ctx) :
  durable (world c') = durable (world c) -> durable_extends c c'.
Proof.
  intros Heq. exists []. rewrite app_nil_r. split; [exact Heq | constructor].
Qed.

Lemma subscribeToProfile_durable (userId : string) (c : Ctx) :
  durable (world (subscribeToProfile userId c)) = durable (world c).
Proof.
  unfold subscribeToProfile.
  destruct (profileSubscriptionRef (refs c)); reflexivity.
Qed.

Lemma updateAuthState_begin_durable (session : option Session)
    (options : UpdateOptions) (c : Ctx) :
  durable (world (fst (updateAuthState_begin session options c)))
  = durable (world c).
Proof.
  unfold updateAuthState_begin, clear_background_retry.
  destruct (user_of session), (backgroundRetryRef (refs c)); reflexivity.
Qed.

Lemma updateAuthState_settle_durable (u : User) (options : UpdateOptions)
    (fetched : completion (option Profile)) (c : Ctx) :
  durable (world (updateAuthState_settle u options fetched c))
  = durable (world c).
Proof.
  unfold updateAuthState_settle. cbv zeta.
  match goal with
  | |- durable (world (if ?b then setIsProfileLoading false ?x else ?x)) = _ =>
      transitivity (durable (world x)); [destruct b; reflexivity|]
  end.
  destruct fetched as [[row|]|error]; destruct (mountedRef (refs c));
    try reflexivity.
  - rewrite subscribeToProfile_durable. reflexivity.
  - destruct (message_includes error "timeout"
              && default true (retryInBackground options)); reflexivity.
Qed.

Lemma updateAuthState_durable (session : option Session)
    (options : UpdateOptions) (query : nat -> run QueryReply) (c : Ctx) :
  durable (world (updateAuthState session options query c)) = durable (world c).
Proof.
  unfold updateAuthState.
  pose proof (updateAuthState_begin_durable session options c) as Hb.
  destruct (updateAuthState_begin session options c) as [c1 [request|]];
    cbn [fst] in Hb; destruct (user_of session) as [u|]; try exact Hb.
  rewrite updateAuthState_settle_durable. exact Hb.
Qed.

Lemma updateProfile_durable (updates : ProfileUpdates)
    (reply : completion QueryReply) (c : Ctx) :
  durable (world (fst (updateProfile updates reply c)))
  = match user (st c), reply with
    | Some _, Return (QData row) =>
        (durable (world c) ++ [ProfileRowWritten row])%list
    | _, _ => durable (world c)
    end.
Proof.
  unfold updateProfile.
  destruct (user (st c)); [destruct reply as [[row|e]|e]|]; reflexivity.
Qed.

Lemma signIn_durable (email : string) (u : User)
    (query : nat -> run QueryReply) (c : Ctx) :
  durable (world (fst (signIn email (Return (AuthOk (Some u))) query c)))
  = (durable (world c) ++ [SessionStored "pumpwork-auth" u])%list.
Proof.
  unfold signIn, signIn_authenticated, signIn_fetched. cbn [fst snd].
  destruct (fetchProfile query _) as [[row|]|e]; cbn [fst];
    rewrite ?subscribeToProfile_durable; reflexivity.
Qed.

Lemma signOut_durable (c : Ctx) :
  durable (world (fst (signOut (Return None) c)))
  = (durable (world c) ++ [SessionRemoved "pumpwork-auth"])%list.
Proof.
  unfold signOut, signOut_settle, signOut_begin, clear_background_retry,
    cleanup_profile_subscription. cbn [fst].
  destruct (profileSubscriptionRef (refs c)); cbn;
    destruct (backgroundRetryRef (refs c)); reflexivity.
Qed.

Section DurableFacts.
Context `{JsBuiltins}.

Lemma signInWithWallet_durable (env : WalletEnv) (c : Ctx) :
  user (st c) = None ->
  durable (world (fst (signInWithWallet env c))) = durable (world c).
Proof.
  intros Hnone. unfold signInWithWallet, connectWallet.
  destruct (phantom env) as [[addr|err]|];
    cbn -[fetchTokenBalance fetchProfileByWallet updateProfile].
  - rewrite Hnone.
    destruct (fetchProfileByWallet (wallet_query env addr) no_options)
      as [[row|]|e];
      cbn -[fetchTokenBalance];
      destruct (String.eqb addr ""); reflexivity.
  - destruct (strict_eq_num (code err) 4001); [reflexivity|].
    destruct (message_includes err "Unexpected error"); reflexivity.
  - reflexivity.
Qed.

Lemma connectWallet_extends (env : WalletEnv) (c : Ctx) :
  durable_extends c (fst (connectWallet env c)).
Proof.
  unfold connectWallet.
  destruct (phantom env) as [[addr|err]|];
    cbn -[fetchTokenBalance fetchProfileByWallet updateProfile].
  - destruct (fetchProfileByWallet (wallet_query env addr) no_options)
      as [[row|]|e];
      cbn -[fetchTokenBalance updateProfile];
      destruct (user (st c)) as [u|] eqn:Eu;
      cbn -[fetchTokenBalance updateProfile];
      try (apply durable_extends_same; reflexivity);
      unfold updateProfile; cbn -[fetchTokenBalance]; rewrite Eu;
      destruct (update_reply env) as [[row'|e']|e']; cbn -[fetchTokenBalance];
      first [ apply durable_extends_same; reflexivity
            | exists [ProfileRowWritten row'];
              split; [reflexivity | repeat constructor] ].
  - destruct (strict_eq_num (code err) 4001);
      [apply durable_extends_same; reflexivity|].
    destruct (message_includes err "Unexpected error");
      apply durable_extends_same; reflexivity.
  - apply durable_extends_same; reflexivity.
Qed.

Lemma signInWithWallet_extends (env : WalletEnv) (c : Ctx) :
  durable_extends c (fst (signInWithWallet env c)).
Proof.
  destruct (user (st c)) as [u|] eqn:Eu;
    [|apply durable_extends_same, signInWithWallet_durable; exact Eu].
  unfold signInWithWallet, connectWallet.
  destruct (phantom env) as [[addr|err]|];
    cbn -[fetchTokenBalance fetchProfileByWallet updateProfile].
  - rewrite Eu.
    destruct (fetchProfileByWallet (wallet_query env addr) no_options)
      as [[row|]|e];
      cbn -[fetchTokenBalance updateProfile].
    + destruct (String.eqb addr ""); apply durable_extends_same; reflexivity.
    + unfold updateProfile. cbn -[fetchTokenBalance]. rewrite Eu.
      destruct (update_reply env) as [[row|e]|e]; cbn -[fetchTokenBalance];
        destruct (String.eqb addr "");
        first [ apply durable_extends_same; reflexivity
              | exists [ProfileRowWritten row];
                split; [reflexivity | repeat constructor] ].
    + unfold updateProfile. cbn -[fetchTokenBalance]. rewrite Eu.
      destruct (update_reply env) as [[row|e']|e']; cbn -[fetchTokenBalance];
        destruct (String.eqb addr "");
        first [ apply durable_extends_same; reflexivity
              | exists [ProfileRowWritten row];
                split; [reflexivity | repeat constructor] ].
  - destruct (strict_eq_num (code err) 4001);
      [apply durable_extends_same; reflexivity|].
    destruct (message_includes err "Unexpected error");
      apply durable_extends_same; reflexivity.
  - apply durable_extends_same; reflexivity.
Qed.

Lemma apply_event_extends (e : event) (c : Ctx) :
  durable_extends c (apply_event e c).
Proof.
  destruct e; cbn [apply_event].
  - apply durable_extends_same. reflexivity.
  - apply durable_extends_same. reflexivity.
  - apply durable_extends_same. reflexivity.
  - apply durable_extends_same. unfold unmount. cbn.
    destruct (backgroundRetryRef (refs c)); cbn;
      destruct (profileSubscriptionRef (refs c)); reflexivity.
  - apply durable_extends_same, updateAuthState_begin_durable.
  - apply durable_extends_same, updateAuthState_settle_durable.
  - apply durable_extends_same. unfold timer_fires.
    destruct (timers (world c) !! t) as [[d [userId]]|]; [|reflexivity].
    cbn. destruct (mountedRef (refs c)); reflexivity.
  - apply durable_extends_same. unfold background_retry_settle.
    destruct fetched as [[row|]|err]; try reflexivity.
    destruct (mountedRef (refs c)); [|reflexivity].
    rewrite subscribeToProfile_durable. reflexivity.
  - apply durable_extends_same. unfold onAuthStateChange_begin.
    destruct (mountedRef (refs c)); [|reflexivity]. cbn [negb].
    pose proof (updateAuthState_begin_durable session default_update c) as Hd.
    pose proof (updateAuthState_begin_durable session
                  {| retryInBackground := None; isInitial := Some true |} c)
      as Hi.
    unfold cleanup_profile_subscription.
    destruct ev, session as [s|]; cbn -[updateAuthState_begin];
      repeat match goal with
      | |- context [if ?b then _ else _] => destruct b
      | |- context [let '(_, _) := ?p in _] => destruct p eqn:?
      | |- context [match profileSubscriptionRef ?r with _ => _ end] =>
          destruct (profileSubscriptionRef r)
      end; cbn [fst snd] in *; try assumption; try reflexivity.
  - apply durable_extends_same. destruct tail; reflexivity.
  - apply durable_extends_same. unfold on_profile_update.
    destruct (channels (world c) !! ch); [|reflexivity].
    destruct (mountedRef (refs c) && bool_decide (is_Some payload_new));
      reflexivity.
  - apply durable_extends_same. reflexivity.
  - unfold signIn_authenticated.
    destruct reply as [[[u|]|err]|err]; cbn [fst];
      try (apply durable_extends_same; reflexivity).
    exists [SessionStored "pumpwork-auth" u].
    split; [reflexivity | repeat constructor].
  - apply durable_extends_same. unfold signIn_fetched. cbn [fst].
    destruct fetched as [[row|]|err]; try reflexivity.
    rewrite subscribeToProfile_durable. reflexivity.
  - apply durable_extends_same. unfold signOut_begin, clear_background_retry,
      cleanup_profile_subscription.
    destruct (profileSubscriptionRef (refs c)); cbn;
      destruct (backgroundRetryRef (refs c)); reflexivity.
  - unfold signOut_settle. destruct reply as [[err|]|err]; cbn [fst];
      try (apply durable_extends_same; reflexivity).
    exists [SessionRemoved "pumpwork-auth"].
    split; [reflexivity | repeat constructor].
  - pose proof (updateProfile_durable updates reply c) as Hd.
    destruct (user (st c)); [destruct reply as [[row|err]|err]|];
      try (apply durable_extends_same; exact Hd).
    exists [ProfileRowWritten row]. split; [exact Hd | repeat constructor].
  - apply connectWallet_extends.
  - apply signInWithWallet_extends.
Qed.

End DurableFacts.

(** ** Timer ids are fresh in every reachable context *)

Lemma timers_fresh_same (c c' : Ctx) :
  timers (world c') = timers (world c) ->
  next_id (world c) <= next_id (world c') ->
  timers_fresh (world c) -> timers_fresh (world c').
Proof.
  unfold timers_fresh. intros -> Hle Hfresh t Ht.
  specialize (Hfresh t Ht). lia.
Qed.

Lemma timers_fresh_delete (c c' : Ctx) (t : nat) :
  timers (world c') = delete t (timers (world c)) ->
  next_id (world c) <= next_id (world c') ->
  timers_fresh (world c) -> timers_fresh (world c').
Proof.
  unfold timers_fresh. intros -> Hle Hfresh i Hi.
  destruct (decide (i = t)) as [->|Hne].
  - rewrite lookup_delete_eq in Hi. destruct Hi as [? [=]].
  - rewrite lookup_delete_ne in Hi by congruence.
    specialize (Hfresh i Hi). lia.
Qed.

Lemma timers_fresh_insert (c c' : Ctx) (x : Timer) :
  timers (world c') = <[next_id (world c) := x]> (timers (world c)) ->
  next_id (world c) < next_id (world c') ->
  timers_fresh (world c) -> timers_fresh (world c').
Proof.
  unfold timers_fresh. intros -> Hlt Hfresh i Hi.
  destruct (decide (i = next_id (world c))) as [->|Hne]; [exact Hlt|].
  rewrite lookup_insert_ne in Hi by congruence.
  specialize (Hfresh i Hi). lia.
Qed.

Ltac fresh_same :=
  match goal with
  | Hf : timers_fresh (world ?c) |- timers_fresh (world _) =>
      apply (timers_fresh_same c); [reflexivity | cbn; lia | exact Hf]
  end.

Lemma subscribeToProfile_fresh (userId : string) (c : Ctx) :
  timers_fresh (world c) ->
  timers_fresh (world (subscribeToProfile userId c)).
Proof.
  intros Hf. unfold subscribeToProfile.
  destruct (profileSubscriptionRef (refs c)); fresh_same.
Qed.

Lemma clear_background_retry_fresh (c : Ctx) :
  timers_fresh (world c) -> timers_fresh (world (clear_background_retry c)).
Proof.
  intros Hf. unfold clear_background_retry.
  destruct (backgroundRetryRef (refs c)) as [t|]; [|exact Hf].
  apply (timers_fresh_delete c _ t); [reflexivity | cbn; lia | exact Hf].
Qed.

Lemma cleanup_profile_subscription_fresh (c : Ctx) :
  timers_fresh (world c) ->
  timers_fresh (world (cleanup_profile_subscription c)).
Proof.
  intros Hf. unfold cleanup_profile_subscription.
  destruct (profileSubscriptionRef (refs c)); [fresh_same | exact Hf].
Qed.

Lemma updateAuthState_begin_fresh (session : option Session)
    (options : UpdateOptions) (c : Ctx) :
  timers_fresh (world c) ->
  timers_fresh (world (fst (updateAuthState_begin session options c))).
Proof.
  intros Hf. apply clear_background_retry_fresh in Hf.
  unfold updateAuthState_begin.
  destruct (user_of session); cbn [fst]; fresh_same.
Qed.

Lemma updateAuthState_settle_fresh (u : User) (options : UpdateOptions)
    (fetched : completion (option Profile)) (c : Ctx) :
  timers_fresh (world c) ->
  timers_fresh (world (updateAuthState_settle u options fetched c)).
Proof.
  intros Hf. unfold updateAuthState_settle. cbv zeta.
  match goal with
  | |- timers_fresh (world (if ?b then setIsProfileLoading false ?x else ?x)) =>
      assert (Hx : timers_fresh (world x)); [|destruct b; exact Hx]
  end.
  destruct fetched as [[row|]|error]; destruct (mountedRef (refs c));
    try exact Hf.
  - apply subscribeToProfile_fresh. exact Hf.
  - destruct (message_includes error "timeout"
              && default true (retryInBackground options)); [|exact Hf].
    apply (timers_fresh_insert c _
             {| delay_ms := 3000%N; callback_of := BackgroundRetry (uid u) |});
      [reflexivity | cbn; lia | exact Hf].
Qed.

Lemma unmount_timers (c : Ctx) :
  timers (world (unmount c))
  = match backgroundRetryRef (refs c) with
    | Some t => delete t (timers (world c))
    | None => timers (world c)
    end /\
  next_id (world (unmount c)) = next_id (world c).
Proof.
  unfold unmount. cbn.
  destruct (backgroundRetryRef (refs c)); cbn;
    destruct (profileSubscriptionRef (refs c)); split; reflexivity.
Qed.

Lemma timer_fires_timers (t : nat) (c : Ctx) :
  timers (world (fst (timer_fires t c))) = delete t (timers (world c)) /\
  next_id (world (fst (timer_fires t c))) = next_id (world c).
Proof.
  unfold timer_fires.
  destruct (timers (world c) !! t) as [[d [userId]]|] eqn:Et.
  - cbn. destruct (mountedRef (refs c)); split; reflexivity.
  - split; [|reflexivity]. cbn [fst]. symmetry. apply delete_id. exact Et.
Qed.

Section FreshFacts.
Context `{JsBuiltins}.

Lemma apply_event_fresh (e : event) (c : Ctx) :
  timers_fresh (world c) -> timers_fresh (world (apply_event e c)).
Proof.
  intros Hf. destruct e; cbn [apply_event].
  - exact Hf.
  - exact Hf.
  - exact Hf.
  - destruct (unmount_timers c) as [Htm Hid].
    destruct (backgroundRetryRef (refs c)) as [t|].
    + apply (timers_fresh_delete c _ t); [exact Htm | lia | exact Hf].
    + apply (timers_fresh_same c); [exact Htm | lia | exact Hf].
  - apply updateAuthState_begin_fresh. exact Hf.
  - apply updateAuthState_settle_fresh. exact Hf.
  - destruct (timer_fires_timers t c) as [Htm Hid].
    apply (timers_fresh_delete c _ t); [exact Htm | lia | exact Hf].
  - unfold background_retry_settle.
    destruct fetched as [[row|]|err]; try exact Hf.
    destruct (mountedRef (refs c)); [|exact Hf].
    apply subscribeToProfile_fresh. exact Hf.
  - unfold onAuthStateChange_begin.
    destruct (mountedRef (refs c)); [|exact Hf]. cbn [negb].
    pose proof (updateAuthState_begin_fresh session default_update c Hf) as Hd.
    pose proof (updateAuthState_begin_fresh session
                  {| retryInBackground := None; isInitial := Some true |} c Hf)
      as Hi.
    pose proof (cleanup_profile_subscription_fresh c Hf) as Hcl.
    destruct ev, session as [s|]; cbn -[updateAuthState_begin];
      repeat match goal with
      | |- context [if ?b then _ else _] => destruct b
      | |- context [let '(_, _) := ?p in _] => destruct p eqn:?
      end; cbn [fst snd] in *; try assumption.
  - destruct tail; exact Hf.
  - unfold on_profile_update. destruct (channels (world c) !! ch); [|exact Hf].
    destruct (mountedRef (refs c) && bool_decide (is_Some payload_new));
      exact Hf.
  - exact Hf.
  - unfold signIn_authenticated.
    destruct reply as [[[u|]|err]|err]; cbn [fst]; exact Hf.
  - unfold signIn_fetched. cbn [fst].
    destruct fetched as [[row|]|err]; try exact Hf.
    apply subscribeToProfile_fresh. exact Hf.
  - unfold signOut_begin.
    apply cleanup_profile_subscription_fresh, clear_background_retry_fresh in Hf.
    exact Hf.
  - unfold signOut_settle. destruct reply as [[err|]|err]; cbn [fst]; exact Hf.
  - destruct (updateProfile_view updates reply c) as (_ & _ & Htm & Hid & _).
    apply (timers_fresh_same c); [exact Htm | lia | exact Hf].
  - destruct (connectWallet_view env c) as (_ & _ & Htm & Hid).
    apply (timers_fresh_same c); [exact Htm | lia | exact Hf].
  - destruct (signInWithWallet_view env c) as (_ & _ & Htm & Hid).
    apply (timers_fresh_same c); [exact Htm | lia | exact Hf].
Qed.

Lemma reachable_timers_fresh (c : Ctx) : reachable c -> timers_fresh (world c).
Proof.
  induction 1 as [|e c _ IH].
  - intros t [x Hx]. discriminate Hx.
  - apply apply_event_fresh. exact IH.
Qed.

End FreshFacts.

(** ** Facts about the computed values *)

Lemma SFltb_not_eqb (a b : spec_float) :
  SFltb a b = true -> SFeqb b a = false.
Proof.
  unfold SFltb, SFeqb, SFcompare.
  destruct a as [sa|sa| |sa ma ea], b as [sb|sb| |sb mb eb];
    repeat match goal with s : bool |- _ => destruct s end;
    try discriminate; try reflexivity.
  all: change (PosDef.Pos.compare_cont Eq) with Pos.compare.
  all: destruct (Z.compare_spec ea eb), (Z.compare_spec eb ea);
    try discriminate; try reflexivity; try lia.
  all: destruct (Pos.compare_spec ma mb), (Pos.compare_spec mb ma);
    simpl; try discriminate; try reflexivity; try lia.
Qed.

Lemma float_ltb_not_eqb (a b : float) :
  (a <? b)%float = true -> (b =? a)%float = false.
Proof.
  rewrite FloatAxioms.ltb_spec, FloatAxioms.eqb_spec. apply SFltb_not_eqb.
Qed.

Section ComputedFacts.
Context `{JsBuiltins}.

(** The three cases of the effective role. *)
Lemma effectiveRole_cases (s : State) :
  let cv := computedValues s in
  (storedRole cv = VStr "freelancer" /\ canBeFreelancer cv = false /\
   canBeClient cv = true /\ effectiveRole cv = VStr "client") \/
  ((storedRole cv = VStr "freelancer" /\ canBeFreelancer cv = false \/
    storedRole cv = VStr "client") /\
   canBeClient cv = false /\ effectiveRole cv = VNull) \/
  (effectiveRole cv = storedRole cv /\
   (storedRole cv = VStr "freelancer" -> canBeFreelancer cv = true) /\
   (storedRole cv = VStr "client" -> canBeClient cv = true)).
Proof.
  cbv zeta. unfold computedValues; cbn -[js_ge js_gt js_or].
  set (tb := if js_gt _ _ then _ else _).
  set (role := opt_field user_type (profile s)).
  destruct (strict_eq_str role "freelancer") eqn:Ef.
  - apply strict_eq_str_true in Ef.
    destruct (js_ge tb (VNum 10000)) eqn:Eg; cbn.
    + right. right. rewrite Ef. cbn. split; [reflexivity|].
      split; [reflexivity | discriminate].
    + destruct (js_ge tb (VNum 1000)) eqn:Ec.
      * left. auto.
      * right. left. auto.
  - cbn. destruct (strict_eq_str role "client") eqn:Ec.
    + apply strict_eq_str_true in Ec.
      destruct (js_ge tb (VNum 1000)) eqn:Eg; cbn.
      * right. right. rewrite Ec. split; [reflexivity|].
        split; [discriminate | reflexivity].
      * right. left. auto.
    + right. right. split; [reflexivity|].
      split; intros Hrole; rewrite Hrole in *; discriminate.
Qed.

(** A number greater than 0 is truthy. *)
Lemma positive_is_truthy (n : float) :
  (0 <? n)%float = true -> ToBoolean (VNum n) = true.
Proof.
  intros Hpos. cbn.
  rewrite (float_ltb_not_eqb _ _ Hpos), (float_ltb_not_nan _ _ Hpos).
  reflexivity.
Qed.

(** With a live balance that is a number, the computed balance is truthy or
    the number 0. *)
Lemma tokenBalance_or_zero (s : State) :
  is_num (liveTokenBalance s) = true ->
  js_or (tokenBalance (computedValues s)) (VNum 0)
  = tokenBalance (computedValues s).
Proof.
  intros Hnum. cbn -[js_gt js_or].
  destruct (liveTokenBalance s) as [| | |n| | |] eqn:Elive; try discriminate.
  destruct (js_gt (VNum n) (VNum 0)) eqn:Egt.
  - unfold js_or. rewrite (positive_is_truthy n); [reflexivity|].
    unfold js_gt, js_lt in Egt. cbn in Egt.
    destruct (PrimFloat.is_nan n); [discriminate|].
    change (ToNumber (VNum 0)) with 0%float in Egt.
    change (ToNumber (VNum n)) with n in Egt.
    destruct (0 <? n)%float; [reflexivity | discriminate].
  - unfold js_or at 1.
    destruct (ToBoolean (js_or (opt_field token_balance (profile s)) (VNum 0)))
      eqn:Et; [reflexivity|].
    unfold js_or in *.
    destruct (ToBoolean (opt_field token_balance (profile s))) eqn:Es;
      [congruence | reflexivity].
Qed.

End ComputedFacts.

Section RoleFacts.
Context `{JsBuiltins}.

(** Roles need the tokens, or the admin role, and a profile. *)
Lemma roles_need_tokens (s : State) :
  let cv := computedValues s in
  (isClient cv = true -> isAdmin cv = true \/ canBeClient cv = true) /\
  (isFreelancer cv = true -> isAdmin cv = true \/ canBeFreelancer cv = true) /\
  (isClient cv = true \/ isFreelancer cv = true -> profile s <> None).
Proof.
  cbv zeta. pose proof (effectiveRole_cases s) as Hcases. cbv zeta in Hcases.
  assert (Hclient : isClient (computedValues s)
                    = strict_eq_str (effectiveRole (computedValues s)) "client"
                      || isAdmin (computedValues s)) by reflexivity.
  assert (Hfree : isFreelancer (computedValues s)
                  = strict_eq_str (effectiveRole (computedValues s)) "freelancer"
                    || isAdmin (computedValues s)) by reflexivity.
  assert (Hprofile : profile s = None ->
            isClient (computedValues s) = false /\
            isFreelancer (computedValues s) = false).
  { intros Hnone. unfold computedValues. rewrite Hnone. split; reflexivity. }
  split; [|split].
  - rewrite Hclient. destruct (isAdmin (computedValues s)); [auto|].
    rewrite orb_false_r. intros He. apply strict_eq_str_true in He. right.
    destruct Hcases as [(_ & _ & Hc & _) | [(_ & _ & Hn) | (Heq & _ & Hc)]];
      [exact Hc | congruence |].
    apply Hc. congruence.
  - rewrite Hfree. destruct (isAdmin (computedValues s)); [auto|].
    rewrite orb_false_r. intros He. apply strict_eq_str_true in He. right.
    destruct Hcases as [(_ & _ & _ & Hc) | [(_ & _ & Hn) | (Heq & Hf & _)]];
      [congruence | congruence |].
    apply Hf. congruence.
  - intros Hrole Hnone. destruct (Hprofile Hnone) as [Hc Hf].
    destruct Hrole; congruence.
Qed.

End RoleFacts.

Section TierFacts.
Context `{JsBuiltins}.

(** Enough tokens for a threshold are enough for a lower one. *)
Lemma hasMinTokens_antitone (s : State) (r r' : float) :
  hasMinTokens s (VNum r) = true -> (r' <=? r)%float = true ->
  hasMinTokens s (VNum r') = true.
Proof.
  unfold hasMinTokens. rewrite !js_ge_num.
  intros Hr Hle. exact (float_leb_trans _ _ _ Hle Hr).
Qed.

End TierFacts.

(** ** More facts about [withRetry] *)

(** The delays of a backoff add up to a geometric sum. *)
Lemma backoff_sum (baseDelay : N) (n : nat) :
  N_sum (map (fun j => (baseDelay * 2 ^ N.of_nat j)%N) (seq 0 n))
  = (baseDelay * (2 ^ N.of_nat n - 1))%N.
Proof.
  induction n as [|n IH].
  - cbn. lia.
  - rewrite seq_S, map_app. cbn [map Nat.add].
    assert (Happ : forall l d, N_sum (l ++ [d]) = (N_sum l + d)%N).
    { induction l as [|x l IHl]; intros d; cbn; [lia|].
      unfold N_sum in IHl. rewrite IHl. lia. }
    rewrite Happ, IH.
    rewrite Nat2N.inj_succ, N.pow_succ_r'.
    assert (Hpos : (1 <= 2 ^ N.of_nat n)%N).
    { pose proof (N.pow_nonzero 2 (N.of_nat n)). lia. }
    nia.
Qed.

(** A list is known by its length and its elements. *)
Lemma list_by_lookup {X : Type} (l : list X) (f : nat -> X) :
  (forall j x, l !! j = Some x -> x = f j) ->
  l = map f (seq 0 (length l)).
Proof.
  intros Hl. apply list_eq. intros j.
  destruct (l !! j) as [x|] eqn:Ej.
  - rewrite (Hl j x Ej). symmetry.
    apply lookup_lt_Some in Ej.
    rewrite list_lookup_fmap, lookup_seq_lt by exact Ej. reflexivity.
  - symmetry. apply lookup_ge_None. apply lookup_ge_None in Ej.
    rewrite length_map, length_seq. exact Ej.
Qed.

Section ExhaustionFacts.
Context {A : Type} (fn : nat -> run A) (retries : nat) (baseDelay : N)
        (shouldRetry : Error -> bool).

(** While the calls keep failing with errors worth a retry, the loop goes
    on to the last attempt. *)
Lemma withRetry_loop_exhausts (n : nat) :
  forall (lastError : option Error) (attempt : nat) (now : N),
    attempt + n = S retries -> 0 < n ->
    (forall k, attempt <= k < retries ->
       exists e, outcome (fn k) = Throw e /\ is_abort e = false /\
                 shouldRetry e = true) ->
    calls (withRetry_loop fn retries baseDelay shouldRetry lastError n attempt now)
    = S retries.
Proof.
  induction n as [|n IH]; intros lastError attempt now Hsum Hpos Hfail; [lia|].
  cbn [withRetry_loop].
  destruct (decide (attempt < retries)) as [Hlt|Hge].
  - destruct (Hfail attempt ltac:(lia)) as (e & He & Hab & Hsr).
    rewrite He, Hab, Hsr.
    assert (Hltb : (attempt <? retries)%nat = true) by (apply Nat.ltb_lt; exact Hlt).
    rewrite Hltb. cbn [andb calls].
    apply IH; [lia | lia |]. intros k Hk. apply Hfail. lia.
  - assert (Hltb : (attempt <? retries)%nat = false) by (apply Nat.ltb_ge; lia).
    rewrite Hltb. cbn [andb].
    destruct (outcome (fn attempt)) as [a|e]; [cbn; lia|].
    destruct (is_abort e); cbn; lia.
Qed.

End ExhaustionFacts.

Section ClosedForm.
Context {A : Type} (fn : nat -> run A) (retries : nat) (baseDelay : N)
        (shouldRetry : Error -> bool).

(** The time at which a retried call settles, in closed form. *)
Lemma loop_spec_elapsed (r : retried A) :
  loop_spec fn retries baseDelay shouldRetry 0 0%N r ->
  delays r
  = map (fun j => (baseDelay * 2 ^ N.of_nat j)%N) (seq 0 (calls r - 1)) /\
  elapsed r
  = (time_in_calls fn 0 (calls r)
     + baseDelay * (2 ^ N.of_nat (calls r - 1) - 1))%N.
Proof.
  intros [Hlo Hup Hlen Hval _ _ _ _ Hel].
  assert (Hdelays :
            delays r
            = map (fun j => (baseDelay * 2 ^ N.of_nat j)%N)
                  (seq 0 (calls r - 1))).
  { rewrite (list_by_lookup _ (fun j => (baseDelay * 2 ^ N.of_nat j)%N)).
    - rewrite Hlen. reflexivity.
    - intros j x Hj. exact (Hval j x Hj). }
  split; [exact Hdelays|].
  rewrite Hel, Hdelays, backoff_sum, Nat.sub_0_r. lia.
Qed.

End ClosedForm.

(** ** Facts about the client's fetch *)

Lemma headers_has_get (headers : list (string * string)) (name : string) :
  headers_has headers name = bool_decide (is_Some (headers_get headers name)).
Proof.
  induction headers as [|[k v] rest IH]; [reflexivity|].
  cbn. destruct (String.eqb (lowercase k) (lowercase name)); cbn.
  - reflexivity.
  - exact IH.
Qed.

Lemma headers_get_app (headers : list (string * string)) (k v name : string) :
  headers_get (headers ++ [(k, v)]) name
  = match headers_get headers name with
    | Some x => Some x
    | None => if String.eqb (lowercase k) (lowercase name) then Some v else None
    end.
Proof.
  induction headers as [|[k' v'] rest IH]; [reflexivity|].
  cbn. destruct (String.eqb (lowercase k') (lowercase name)); [reflexivity|].
  exact IH.
Qed.

Lemma controller_aborts_in_time (options : RequestInit) :
  (controller_aborts_at options <= REQUEST_TIMEOUT)%N.
Proof.
  unfold controller_aborts_at. destruct (req_signal options); lia.
Qed.

(** A request made through [fetchWithTimeout] goes as it would without any
    signal when it settles before the controller aborts, and is aborted
    then otherwise. *)
Lemma fetchWithTimeout_cases {A : Type} (fetch : RequestInit -> run A)
    (options : RequestInit) :
  honours_signal fetch ->
  let plain := fetch {| req_body := req_body options;
                        req_headers := merged_headers options;
                        req_signal := None |} in
  ((took plain < controller_aborts_at options)%N /\
   fetchWithTimeout fetch options = plain) \/
  ((controller_aborts_at options <= took plain)%N /\
   took (fetchWithTimeout fetch options) = controller_aborts_at options /\
   exists e, outcome (fetchWithTimeout fetch options) = Throw e /\
             is_abort e = true).
Proof.
  intros Hfetch. cbv zeta. unfold fetchWithTimeout.
  pose proof (Hfetch {| req_body := req_body options;
                        req_headers := merged_headers options;
                        req_signal := Some (controller_aborts_at options) |}
                     (controller_aborts_at options) eq_refl) as Hs.
  unfold unsignalled in Hs. cbn [req_body req_headers] in Hs.
  destruct (N.ltb_spec
              (took (fetch {| req_body := req_body options;
                              req_headers := merged_headers options;
                              req_signal := None |}))
              (controller_aborts_at options)) as [Hlt|Hge].
  - left. split; [exact Hlt | exact Hs].
  - right. destruct Hs as (Htook & e & He & Hname).
    split; [exact Hge|]. split; [exact Htook|].
    exists e. split; [exact He|]. unfold is_abort. rewrite Hname.
    reflexivity.
Qed.

Lemma browser_fetch_honours_signal (latency : N) :
  honours_signal (browser_fetch latency).
Proof.
  intros init t Hsignal. unfold browser_fetch, unsignalled.
  rewrite Hsignal. cbn [req_signal took].
  destruct (latency <? t)%N; [reflexivity|].
  split; [reflexivity|]. exists abort_error. split; reflexivity.
Qed.

(** A retried call settles no sooner than its first call. *)
Lemma first_call_elapsed {A : Type} (fn : nat -> run A) (retries : nat)
    (baseDelay : N) (shouldRetry : Error -> bool) (r : retried A) :
  loop_spec fn retries baseDelay shouldRetry 0 0%N r ->
  (took (fn 0%nat) <= elapsed r)%N.
Proof.
  intros [Hlo _ _ _ _ _ _ _ Hel]. rewrite Hel, Nat.sub_0_r.
  destruct (calls r) as [|n]; [lia|].
  rewrite time_in_calls_S. lia.
Qed.

(** The profile a fetch function returns is the row of its query. *)
Lemma fetchFn_row (query : nat -> run QueryReply) (k : nat) (row : Profile) :
  outcome (fetchFn query k) = Return (Some row) ->
  outcome (query k) = Return (QData row).
Proof.
  unfold fetchFn. cbn [outcome].
  destruct (outcome (query k)) as [[data|e]|e]; cbn.
  - intros [= ->]. reflexivity.
  - destruct (strict_eq_str (code e) "PGRST116"); discriminate.
  - discriminate.
Qed.

Lemma ignore_abort_found (c : completion (option Profile)) (row : Profile) :
  ignore_abort c = Return (Some row) -> c = Return (Some row).
Proof.
  destruct c as [data|e]; cbn; [auto|].
  destruct (is_abort e); discriminate.
Qed.

Section MoreFetchFacts.
Context `{JsBuiltins}.

(** The loop over the accounts throws as soon as one account cannot be
    read. *)
Lemma sum_accounts_throws (accs : list jsval) (acc : jsval) (e : Error) :
  In acc accs -> account_amount acc = Throw e ->
  forall total, exists e', sum_accounts total accs = Throw e'.
Proof.
  intros Hin Hbad. induction accs as [|a rest IH]; [destruct Hin|].
  intros total. rewrite sum_accounts_cons.
  destruct Hin as [-> | Hin].
  - rewrite Hbad. exists e. reflexivity.
  - destruct (account_amount a) as [amount|e'']; cbn.
    + apply (IH Hin).
    + exists e''. reflexivity.
Qed.

(** A character of a string is no account. *)
Lemma character_is_no_account (ch : string) :
  exists e, account_amount (VStr ch) = Throw e.
Proof. eexists. reflexivity. Qed.

End MoreFetchFacts.

(** ** More facts about the profile fetch and the provider *)

(** A first query that is aborted before the timer fires makes
    [fetchProfile] resolve to [null]. *)
Lemma fetchProfile_aborted (query : nat -> run QueryReply)
    (options : FetchOptions) (e : Error) :
  outcome (query 0) = Throw e -> is_abort e = true ->
  (took (query 0%nat) < default 5000 (timeout options))%N ->
  fetchProfile query options = Return None.
Proof.
  intros Hthrow Habort Hfast.
  destruct (fetchPromise_spec query options)
    as [Hlo _ Hlen _ _ Hlast _ Hstops Hel].
  assert (Hfn : outcome (fetchFn query 0) = Throw e).
  { unfold fetchFn. cbn [outcome]. rewrite Hthrow. reflexivity. }
  assert (Hcalls : calls (fetchPromise query options) = 1).
  { apply (Hstops 0 e); [lia | exact Hfn | exact Habort]. }
  rewrite Hcalls in *.
  destruct (delays (fetchPromise query options)) as [|d l] eqn:Ed;
    [|discriminate].
  cbn [Nat.sub] in Hel, Hlast. rewrite time_in_calls_one in Hel.
  cbn [N_sum fold_right fetchFn took] in Hel.
  unfold fetchProfile. rewrite race_won by lia.
  rewrite Hlast, Hfn. cbn. rewrite Habort. reflexivity.
Qed.

Lemma subscribeToProfile_mounted (userId : string) (c : Ctx) :
  mountedRef (refs (subscribeToProfile userId c)) = mountedRef (refs c).
Proof.
  unfold subscribeToProfile.
  destruct (profileSubscriptionRef (refs c)); reflexivity.
Qed.

Lemma updateAuthState_begin_mounted (session : option Session)
    (options : UpdateOptions) (c : Ctx) :
  mountedRef (refs (fst (updateAuthState_begin session options c)))
  = mountedRef (refs c).
Proof.
  unfold updateAuthState_begin, clear_background_retry.
  destruct (backgroundRetryRef (refs c)), (user_of session); reflexivity.
Qed.

Lemma updateAuthState_settle_mounted (u : User) (options : UpdateOptions)
    (fetched : completion (option Profile)) (c : Ctx) :
  mountedRef (refs (updateAuthState_settle u options fetched c))
  = mountedRef (refs c).
Proof.
  unfold updateAuthState_settle.
  set (c1 := match fetched with Return _ => _ | Throw _ => _ end).
  assert (H1 : mountedRef (refs c1) = mountedRef (refs c)).
  { subst c1. destruct fetched as [[row|]|error];
      destruct (mountedRef (refs c)) eqn:Hm;
      rewrite ?subscribeToProfile_mounted; cbn; try exact Hm.
    destruct (message_includes error "timeout"
              && default true (retryInBackground options)); cbn; exact Hm. }
  clearbody c1.
  destruct (mountedRef (refs c1)) eqn:Hm1; cbn; congruence.
Qed.

Lemma updateAuthState_mounted (session : option Session)
    (options : UpdateOptions) (query : nat -> run QueryReply) (c : Ctx) :
  mountedRef (refs (updateAuthState session options query c))
  = mountedRef (refs c).
Proof.
  unfold updateAuthState.
  pose proof (updateAuthState_begin_mounted session options c) as Hb.
  destruct (updateAuthState_begin session options c) as [c1 request].
  cbn [fst] in Hb.
  destruct request as [request|], (user_of session) as [u|];
    rewrite ?updateAuthState_settle_mounted; exact Hb.
Qed.

Lemma updateAuthState_settle_user (u : User) (options : UpdateOptions)
    (fetched : completion (option Profile)) (c : Ctx) :
  user (st (updateAuthState_settle u options fetched c)) = user (st c).
Proof.
  unfold updateAuthState_settle.
  set (c1 := match fetched with Return _ => _ | Throw _ => _ end).
  assert (H1 : user (st c1) = user (st c)).
  { subst c1. destruct fetched as [[row|]|error];
      destruct (mountedRef (refs c)) eqn:Hm;
      rewrite ?subscribeToProfile_st; cbn; try reflexivity.
    destruct (message_includes error "timeout"
              && default true (retryInBackground options)); reflexivity. }
  clearbody c1.
  destruct (mountedRef (refs c1)); cbn; exact H1.
Qed.

(** When the session has a user, a run of [updateAuthState] leaves that
    user, whatever comes of the fetch. *)
Lemma updateAuthState_user (session : option Session) (u : User)
    (options : UpdateOptions) (query : nat -> run QueryReply) (c : Ctx) :
  user_of session = Some u ->
  user (st (updateAuthState session options query c)) = Some u.
Proof.
  intros Hu. unfold updateAuthState, updateAuthState_begin. rewrite Hu.
  cbn [fst snd]. rewrite updateAuthState_settle_user. reflexivity.
Qed.

Lemma quiet_signOut_view (reply : completion (option Error)) (c : Ctx) :
  st (quiet_signOut reply c) = st c /\
  refs (quiet_signOut reply c) = refs c.
Proof.
  unfold quiet_signOut. destruct reply as [[e|]|e]; split; reflexivity.
Qed.

Lemma substring_prefix (prefix rest : string) :
  String.substring 0 (String.length prefix) (prefix ++ rest) = prefix.
Proof.
  induction prefix as [|ch prefix IH].
  - destruct rest; reflexivity.
  - change (String ch (String.substring 0 (String.length prefix)
                                        (prefix ++ rest))
            = String ch prefix).
    f_equal. exact IH.
Qed.

(** ** Facts about [throttle] *)

Lemma spaced_app (delay : Z) (times : list Z) (x : Z) :
  spaced delay times ->
  Forall (fun time => (time + delay <= x)%Z) times ->
  spaced delay (times ++ [x]).
Proof.
  induction times as [|t1 rest IH]; intros Hsp Hall; [cbn; auto|].
  destruct Hsp as [Hhead Hrest]. inversion Hall as [|? ? Ht1 Hothers]; subst.
  change (spaced delay (t1 :: (rest ++ [x])%list)).
  split; [|exact (IH Hrest Hothers)].
  destruct rest as [|t2 rest']; [exact Ht1 | exact Hhead].
Qed.

Section ThrottleFacts.
Context {Args : Type}.
Implicit Types t : Throttled Args.

Lemma none_due_spec (now : Z) t :
  none_due now t = true ->
  forall id due args, scheduled t !! id = Some (due, args) -> (now < due)%Z.
Proof.
  unfold none_due. rewrite forallb_forall. intros Hall id due args Hlookup.
  apply Z.ltb_lt.
  apply (Hall (id, (due, args))).
  apply list_elem_of_In, elem_of_map_to_list. exact Hlookup.
Qed.

Lemma timer_tracked_none t :
  timer_tracked t -> timeoutId t = None -> scheduled t = ∅.
Proof.
  intros Htr Hnone. apply map_empty. intros id.
  destruct (scheduled t !! id) as [x|] eqn:Ex; [|reflexivity].
  specialize (Htr id ltac:(eauto)). congruence.
Qed.

Lemma timer_tracked_delete t (id : positive) :
  timer_tracked t -> is_Some (scheduled t !! id) ->
  delete id (scheduled t) = ∅.
Proof.
  intros Htr Hid. apply map_empty. intros id'.
  destruct (decide (id' = id)) as [->|Hne]; [apply lookup_delete_eq|].
  rewrite lookup_delete_ne by congruence.
  destruct (scheduled t !! id') as [x|] eqn:Ex; [|reflexivity].
  pose proof (Htr id' ltac:(eauto)) as H1. pose proof (Htr id Hid) as H2.
  congruence.
Qed.

Lemma throttle_step_tracked (delay : Z) t (e : throttle_event Args) :
  timer_tracked t -> timer_tracked (throttle_step delay t e).
Proof.
  intros Htr. destruct e as [now args|now id]; cbn [throttle_step].
  - unfold throttle_call.
    destruct (delay - (now - lastCall t) <=? 0)%Z; [exact Htr|].
    destruct (timeoutId t) as [pending|] eqn:Et; [exact Htr|].
    intros id. cbn [scheduled timeoutId].
    rewrite (timer_tracked_none t Htr Et).
    intros [x Hx]. apply lookup_insert_Some in Hx.
    destruct Hx as [[<- _] | [_ Hx]]; [reflexivity|].
    rewrite lookup_empty in Hx. discriminate.
  - unfold throttle_timer.
    destruct (scheduled t !! id) as [[due args]|] eqn:Ei; [|exact Htr].
    intros id'. cbn [scheduled timeoutId].
    rewrite (timer_tracked_delete t id Htr ltac:(eauto)), lookup_empty.
    intros [x Hx]. discriminate.
Qed.

Lemma throttle_run_tracked (delay : Z) (events : list (throttle_event Args)) :
  forall t, timer_tracked t ->
            timer_tracked (fold_left (throttle_step delay) events t).
Proof.
  induction events as [|e rest IH]; intros t Htr; [exact Htr|].
  cbn [fold_left]. apply IH, throttle_step_tracked, Htr.
Qed.

Lemma timer_tracked_size t : timer_tracked t -> size (scheduled t) <= 1.
Proof.
  intros Htr. destruct (timeoutId t) as [id|] eqn:Et.
  - assert (Hsub : delete id (scheduled t) = ∅).
    { apply map_empty. intros id'.
      destruct (decide (id' = id)) as [->|Hne]; [apply lookup_delete_eq|].
      rewrite lookup_delete_ne by congruence.
      destruct (scheduled t !! id') as [x|] eqn:Ex; [|reflexivity].
      specialize (Htr id' ltac:(eauto)). congruence. }
    destruct (scheduled t !! id) as [x|] eqn:Ex.
    + rewrite <- (insert_delete_id (scheduled t) id x Ex), Hsub.
      rewrite insert_empty, map_size_singleton. lia.
    + rewrite <- (delete_id (scheduled t) id Ex), Hsub, map_size_empty. lia.
  - rewrite (timer_tracked_none t Htr Et), map_size_empty. lia.
Qed.

Lemma throttle_step_inv (delay : Z) t (e : throttle_event Args) :
  (0 <= delay)%Z -> throttle_inv delay t ->
  on_time delay t [e] = true ->
  throttle_inv delay (throttle_step delay t e).
Proof.
  intros Hdelay [Htr Hdue Hpast Hsp] Htime.
  cbn [on_time] in Htime. rewrite andb_true_r in Htime.
  destruct e as [now args|now id]; cbn [throttle_step].
  - pose proof (none_due_spec now t Htime) as Hnone.
    unfold throttle_call.
    destruct (Z.leb_spec (delay - (now - lastCall t)) 0) as [Hle|Hgt].
    + assert (Hempty : forall id due a,
                scheduled t !! id = Some (due, a) -> False).
      { intros id due a Hl. pose proof (Hdue id due a Hl).
        pose proof (Hnone id due a Hl). lia. }
      split; cbn [scheduled timeoutId lastCall invoked_at invoked].
      * exact Htr.
      * intros id due a Hl. destruct (Hempty id due a Hl).
      * unfold invoked_at. cbn [invoked]. rewrite map_app. cbn [map fst].
        apply Forall_app. split; [|repeat constructor; lia].
        eapply Forall_impl; [exact Hpast|]. cbn. intros time Ht. lia.
      * unfold invoked_at. cbn [invoked]. rewrite map_app. cbn [map fst].
        apply spaced_app; [exact Hsp|].
        eapply Forall_impl; [exact Hpast|]. cbn. intros time Ht. lia.
    + destruct (timeoutId t) as [pending|] eqn:Et;
        [split; assumption|].
      split; cbn [scheduled timeoutId lastCall invoked_at invoked].
      * intros id. cbn [scheduled timeoutId].
        rewrite (timer_tracked_none t Htr Et).
        intros [x Hx]. apply lookup_insert_Some in Hx.
        destruct Hx as [[<- _] | [_ Hx]]; [reflexivity|].
        rewrite lookup_empty in Hx. discriminate.
      * intros id due a. rewrite (timer_tracked_none t Htr Et).
        intros Hx. apply lookup_insert_Some in Hx.
        destruct Hx as [[_ [= <- _]] | [_ Hx]]; [lia|].
        rewrite lookup_empty in Hx. discriminate.
      * exact Hpast.
      * exact Hsp.
  - unfold throttle_timer.
    destruct (scheduled t !! id) as [[due args]|] eqn:Ei; [|discriminate].
    apply Z.eqb_eq in Htime. subst due.
    pose proof (Hdue id now args Ei) as Hnow.
    split; cbn [scheduled timeoutId lastCall invoked_at invoked].
    + intros id'. cbn [scheduled timeoutId].
      rewrite (timer_tracked_delete t id Htr ltac:(eauto)), lookup_empty.
      intros [x Hx]. discriminate.
    + intros id' due a.
      rewrite (timer_tracked_delete t id Htr ltac:(eauto)), lookup_empty.
      discriminate.
    + unfold invoked_at. cbn [invoked]. rewrite map_app. cbn [map fst].
      apply Forall_app. split; [|repeat constructor; lia].
      eapply Forall_impl; [exact Hpast|]. cbn. intros time Ht. lia.
    + unfold invoked_at. cbn [invoked]. rewrite map_app. cbn [map fst].
      apply spaced_app; [exact Hsp|].
      eapply Forall_impl; [exact Hpast|]. cbn. intros time Ht. lia.
Qed.

Lemma throttle_run_inv (delay : Z) (events : list (throttle_event Args)) :
  (0 <= delay)%Z ->
  forall t, throttle_inv delay t -> on_time delay t events = true ->
            throttle_inv delay (fold_left (throttle_step delay) events t).
Proof.
  intros Hdelay. induction events as [|e rest IH]; intros t Hinv Htime;
    [exact Hinv|].
  cbn [fold_left]. cbn [on_time] in Htime.
  apply andb_true_iff in Htime. destruct Htime as [He Hrest].
  apply IH; [|exact Hrest].
  apply throttle_step_inv; [exact Hdelay | exact Hinv |].
  cbn [on_time]. rewrite He. reflexivity.
Qed.

Lemma throttle_initial_inv (delay : Z) :
  throttle_inv delay (@throttle_initial Args).
Proof.
  split.
  - intros id [x Hx]. cbn in Hx. rewrite lookup_empty in Hx. discriminate.
  - intros id due args Hx. cbn in Hx. rewrite lookup_empty in Hx.
    discriminate.
  - constructor.
  - exact I.
Qed.

End ThrottleFacts.

(** * The claims *)


(** ** Token-gated flags (C1, C8) and the effective role (C2) *)

(** C1 as stated fails: with a fetched on-chain balance of 0 and a stored
    balance of 5000, [canBeClient] holds although the fetched balance is
    below 1000. *)
Lemma C1_stored_balance_grants_client :
  (forall B : JsBuiltins, canBeClient (computedValues stale_state) = true) /\
  (forall B : JsBuiltins,
     js_ge (liveTokenBalance stale_state) (CLIENT TOKEN_THRESHOLDS) = false).
Proof. split; intros B; reflexivity. Qed.

(** C1, amended: the three flags (and [hasMinTokens]) compare the effective
    balance [tokenBalance] against 1000, 10000 and 50000; the effective
    balance is the fetched on-chain balance when that is greater than 0, and
    otherwise the profile's stored [token_balance], or 0 when there is no
    profile or the stored value is falsy. *)
Theorem C1_flags_compare_effective_balance `{JsBuiltins} (s : State) :
  let cv := computedValues s in
  tokenBalance cv =
    (if js_gt (liveTokenBalance s) (VNum 0) then liveTokenBalance s
     else js_or (opt_field token_balance (profile s)) (VNum 0)) /\
  canBeClient cv = (1000 <=? ToNumber (tokenBalance cv))%float /\
  canBeFreelancer cv = (10000 <=? ToNumber (tokenBalance cv))%float /\
  isBoostedFreelancer cv = (50000 <=? ToNumber (tokenBalance cv))%float /\
  (forall r : float,
     hasMinTokens s (VNum r) = (r <=? ToNumber (tokenBalance cv))%float) /\
  (forall n : float,
     liveTokenBalance s = VNum n -> (0 <? n)%float = true ->
     tokenBalance cv = VNum n /\
     canBeClient cv = (1000 <=? n)%float /\
     canBeFreelancer cv = (10000 <=? n)%float /\
     isBoostedFreelancer cv = (50000 <=? n)%float).
Proof.
  cbv zeta. split; [reflexivity|].
  split; [apply js_ge_num|]. split; [apply js_ge_num|].
  split; [apply js_ge_num|]. split; [intros r; apply js_ge_num|].
  intros n Hlive Hpos.
  assert (Htb : tokenBalance (computedValues s) = VNum n).
  { cbn. rewrite Hlive, (js_gt_pos n Hpos). reflexivity. }
  split; [exact Htb|].
  unfold computedValues in *. cbn in *. rewrite Htb.
  repeat split; apply js_ge_num.
Qed.

(** The amended C1 at a state whose live balance is 12000. *)
Lemma C1_witness :
  (forall B : JsBuiltins, tokenBalance (computedValues funded_state) = VNum 12000) /\
  (forall B : JsBuiltins, canBeFreelancer (computedValues funded_state) = true) /\
  (forall B : JsBuiltins, isBoostedFreelancer (computedValues funded_state) = false).
Proof.
  pose (W := fun B : JsBuiltins =>
    proj2 (proj2 (proj2 (proj2 (proj2
      (@C1_flags_compare_effective_balance B funded_state)))))
      12000%float eq_refl eq_refl).
  split; [|split]; intros B; destruct (W B) as (Ht & Hc & Hf & Hb).
  - exact Ht.
  - rewrite Hf. reflexivity.
  - rewrite Hb. reflexivity.
Defined.

(** C2: the effective role is a function of the current profile and balance
    only; it is the profile's stored role, except that a stored 'freelancer'
    without [canBeFreelancer] becomes 'client' when [canBeClient] holds and
    no role otherwise, and a stored 'client' without [canBeClient] becomes no
    role; a stored 'admin' grants [isClient], [isFreelancer] and [isAdmin]
    whatever the balance. *)
Theorem C2_effective_role `{JsBuiltins} (s : State) :
  let cv := computedValues s in
  effectiveRole cv = role_of (profile s) (liveTokenBalance s) /\
  storedRole cv = opt_field user_type (profile s) /\
  (storedRole cv = VStr "freelancer" -> canBeFreelancer cv = false ->
   effectiveRole cv = if canBeClient cv then VStr "client" else VNull) /\
  (storedRole cv = VStr "client" -> canBeClient cv = false ->
   effectiveRole cv = VNull) /\
  (~ (storedRole cv = VStr "freelancer" /\ canBeFreelancer cv = false) ->
   ~ (storedRole cv = VStr "client" /\ canBeClient cv = false) ->
   effectiveRole cv = storedRole cv) /\
  (storedRole cv = VStr "admin" ->
   effectiveRole cv = VStr "admin" /\
   isClient cv = true /\ isFreelancer cv = true /\ isAdmin cv = true).
Proof.
  cbv zeta. split; [reflexivity|]. split; [reflexivity|].
  unfold computedValues; cbn -[js_ge js_gt js_or].
  set (tb := if js_gt _ _ then _ else _).
  set (role := opt_field user_type (profile s)).
  split; [|split; [|split]].
  - intros -> ->. reflexivity.
  - intros -> ->. reflexivity.
  - intros Hf Hc.
    destruct (strict_eq_str role "freelancer") eqn:Ef.
    + apply strict_eq_str_true in Ef.
      destruct (js_ge tb (VNum 10000)) eqn:Eg; cbn.
      * destruct (strict_eq_str role "client") eqn:Ec; [|reflexivity].
        apply strict_eq_str_true in Ec. congruence.
      * exfalso. apply Hf. split; [exact Ef | reflexivity].
    + cbn. destruct (strict_eq_str role "client") eqn:Ec; [|reflexivity].
      apply strict_eq_str_true in Ec.
      destruct (js_ge tb (VNum 1000)) eqn:Eg; cbn; [reflexivity|].
      exfalso. apply Hc. split; [exact Ec | reflexivity].
  - intros ->. cbn. auto.
Qed.

(** C2 at a stored freelancer holding 2500 tokens: downgraded to client. *)
Lemma C2_witness :
  (forall B : JsBuiltins, storedRole (computedValues poor_freelancer) = VStr "freelancer") /\
  (forall B : JsBuiltins, canBeFreelancer (computedValues poor_freelancer) = false) /\
  (forall B : JsBuiltins, effectiveRole (computedValues poor_freelancer) = VStr "client").
Proof.
  split; [|split]; intros B; [reflexivity | reflexivity |].
  exact (proj1 (proj2 (proj2 (@C2_effective_role B poor_freelancer)))
           eq_refl eq_refl).
Defined.

(** C8: the tiers are nested, and [hasMinTokens] is antitone in the
    threshold it is asked about. *)
Theorem C8_tiers_nested `{JsBuiltins} (s : State) :
  let cv := computedValues s in
  (isBoostedFreelancer cv = true -> canBeFreelancer cv = true) /\
  (canBeFreelancer cv = true -> canBeClient cv = true) /\
  (forall r r' : float,
     hasMinTokens s (VNum r) = true -> (r' <=? r)%float = true ->
     hasMinTokens s (VNum r') = true).
Proof.
  cbv zeta.
  assert (Hmono : forall r r' : float,
            hasMinTokens s (VNum r) = true -> (r' <=? r)%float = true ->
            hasMinTokens s (VNum r') = true).
  { intros r r'. unfold hasMinTokens. rewrite !js_ge_num.
    intros Hr Hle. exact (float_leb_trans _ _ _ Hle Hr). }
  split; [|split].
  - intros Hb. exact (Hmono 50000%float 10000%float Hb eq_refl).
  - intros Hf. exact (Hmono 10000%float 1000%float Hf eq_refl).
  - exact Hmono.
Qed.

(** C8 at a balance of 12000: enough for 10000, hence for 2500.5. *)
Lemma C8_witness :
  (forall B : JsBuiltins, hasMinTokens funded_state (VNum 10000) = true) /\
  (forall B : JsBuiltins, hasMinTokens funded_state (VNum 2500.5) = true).
Proof.
  split; intros B; [reflexivity|].
  exact (proj2 (proj2 (@C8_tiers_nested B funded_state))
           10000%float 2500.5%float eq_refl eq_refl).
Defined.

(** ** The balance lookup (C9) *)



(** ** Profile fetches (C4) *)



(** ** Acting without a hosted user (C10) *)

(** C10: while the hosted-auth user is null, however authenticated the
    identity is through a wallet-matched profile, [updateProfile] answers
    [{ data: null, error: 'No user logged in' }], makes no call to the
    database and leaves the profile, as all of the context, as it was. *)
Theorem C10_updateProfile_needs_user (updates : ProfileUpdates)
    (reply : completion QueryReply) (c : Ctx) :
  user (st c) = None ->
  let c' := fst (updateProfile updates reply c) in
  let result := snd (updateProfile updates reply c) in
  data result = None /\
  error result = Some (new_Error "No user logged in") /\
  calls_made (world c') = calls_made (world c) /\
  Forall (fun v => writes_database v = false)
         (drop (length (calls_made (world c))) (calls_made (world c'))) /\
  durable (world c') = durable (world c) /\
  profile (st c') = profile (st c) /\
  c' = c.
Proof.
  intros Hnone. cbv zeta. unfold updateProfile. rewrite Hnone. cbn [fst snd].
  rewrite drop_all.
  split; [reflexivity|]. split; [reflexivity|]. split; [reflexivity|].
  split; [constructor|]. split; [reflexivity|]. split; reflexivity.
Qed.

(** C10 at the context a soft login leaves: authenticated, with no hosted
    user. *)
Lemma C10_witness :
  (forall B : JsBuiltins,
     user (st soft_login) = None /\
     isAuthenticated (computedValues (st soft_login)) = true) /\
  (forall B : JsBuiltins,
     updateProfile [("nickname", VStr "neo")] (Return (QData stale_profile))
                   soft_login
     = (soft_login,
        {| data := None; error := Some (new_Error "No user logged in") |})).
Proof.
  split; intros B; [split; reflexivity|].
  destruct (C10_updateProfile_needs_user [("nickname", VStr "neo")]
              (Return (QData stale_profile)) soft_login eq_refl)
    as (Hdata & Herror & _ & _ & _ & _ & Hctx).
  apply injective_projections; cbn [fst snd].
  - exact Hctx.
  - destruct (snd (updateProfile _ _ _)) as [d e]. cbn in Hdata, Herror.
    rewrite Hdata, Herror. reflexivity.
Defined.

(** ** Soft login (C3) *)

(** C3, amended: after a wallet connection, when the lookup by wallet finds
    a row, [signInWithWallet] makes that row the current profile and returns
    it with [isNewUser] false; it calls neither the auth client nor the
    wallet's signing, writes nothing durable, leaves the hosted user as it was
    and the identity is authenticated.  When the lookup finds no row it
    returns [isNewUser] true with a null profile, and the identity is
    authenticated exactly when it was before the call: not at all when the
    call started with neither user nor profile. *)
Theorem C3_soft_login `{JsBuiltins} (env : WalletEnv) (c : Ctx) (addr : string) :
  phantom env = Some (Return addr) -> addr <> "" ->
  let lookup := fetchProfileByWallet (wallet_query env addr) no_options in
  let c' := fst (signInWithWallet env c) in
  let result := snd (signInWithWallet env c) in
  (forall row,
     lookup = Return (Some row) ->
     profile (st c') = Some row /\
     result = {| data := Some {| signed_profile := Some row;
                                 signed_address := addr;
                                 isNewUser := false |};
                 error := None |} /\
     user (st c') = user (st c) /\
     calls_made (world c') = (calls_made (world c) ++ connection_calls addr)%list /\
     Forall (fun v => creates_session v = false /\ asks_signature v = false)
            (connection_calls addr) /\
     durable (world c') = durable (world c) /\
     isAuthenticated (computedValues (st c')) = true) /\
  ((forall row, lookup <> Return (Some row)) ->
   result = {| data := Some {| signed_profile := None;
                               signed_address := addr;
                               isNewUser := true |};
               error := None |} /\
   user (st c') = user (st c) /\
   isAuthenticated (computedValues (st c'))
     = isAuthenticated (computedValues (st c)) /\
   (user (st c) = None ->
    profile (st c') = profile (st c) /\
    calls_made (world c') = (calls_made (world c) ++ connection_calls addr)%list /\
    durable (world c') = durable (world c)) /\
   (user (st c) = None -> profile (st c) = None ->
    isAuthenticated (computedValues (st c')) = false)).
Proof.
  intros Hphantom Haddr. cbv zeta.
  assert (Hne : String.eqb addr "" = false) by (apply String.eqb_neq; exact Haddr).
  unfold signInWithWallet, connectWallet. cbn -[fetchTokenBalance fetchProfileByWallet updateProfile].
  rewrite Hphantom. cbn -[fetchTokenBalance fetchProfileByWallet updateProfile].
  destruct (fetchProfileByWallet (wallet_query env addr) no_options)
    as [[row|]|e] eqn:Elookup.
  - split.
    + intros row' [= <-].
      destruct (user (st c)) as [u|] eqn:Eu;
        cbn -[fetchTokenBalance]; rewrite Hne; cbn -[fetchTokenBalance];
        (repeat split; try reflexivity; try assumption;
         try (rewrite <- !app_assoc; reflexivity);
         try (repeat constructor); try (rewrite ?orb_true_r; reflexivity)).
    + intros Hno. exfalso. apply (Hno row). reflexivity.
  - split; [intros row' [=]|]. intros _.
    destruct (user (st c)) as [u|] eqn:Eu.
    + unfold updateProfile. cbn -[fetchTokenBalance]. rewrite Eu.
      destruct (update_reply env) as [[row|e]|e];
        cbn -[fetchTokenBalance]; rewrite Hne; cbn -[fetchTokenBalance];
        rewrite ?Eu; (repeat split; try reflexivity; try discriminate).
    + cbn -[fetchTokenBalance]. rewrite Hne. cbn -[fetchTokenBalance].
      rewrite ?Eu.
      repeat split; try reflexivity; try (rewrite <- !app_assoc; reflexivity).
      intros _ ->. reflexivity.
  - split; [intros row' [=]|]. intros _.
    destruct (user (st c)) as [u|] eqn:Eu.
    + unfold updateProfile. cbn -[fetchTokenBalance]. rewrite Eu.
      destruct (update_reply env) as [[row|e']|e'];
        cbn -[fetchTokenBalance]; rewrite Hne; cbn -[fetchTokenBalance];
        rewrite ?Eu; (repeat split; try reflexivity; try discriminate).
    + cbn -[fetchTokenBalance]. rewrite Hne. cbn -[fetchTokenBalance].
      rewrite ?Eu.
      repeat split; try reflexivity; try (rewrite <- !app_assoc; reflexivity).
      intros _ ->. reflexivity.
Qed.

(** C3 as stated fails: after a soft login with one wallet, signing in with
    a wallet that has no row returns [isNewUser] true with a null profile,
    and the identity is still authenticated (as the first wallet's profile). *)
Lemma C3_new_wallet_stays_authenticated :
  (forall B : JsBuiltins,
     snd (signInWithWallet unknown_wallet soft_login)
     = {| data := Some {| signed_profile := None; signed_address := "W2";
                          isNewUser := true |};
          error := None |}) /\
  (forall B : JsBuiltins,
     user (st (fst (signInWithWallet unknown_wallet soft_login))) = None /\
     isAuthenticated
       (computedValues (st (fst (signInWithWallet unknown_wallet soft_login))))
     = true).
Proof. split; intros B; [reflexivity | split; reflexivity]. Qed.

(** The amended C3 at a wallet with a row and at a wallet without, both
    from the initial context. *)
Lemma C3_witness :
  (forall B : JsBuiltins,
     snd (signInWithWallet known_wallet initial_Ctx)
     = {| data := Some {| signed_profile := Some stale_profile;
                          signed_address := "W1"; isNewUser := false |};
          error := None |}) /\
  (forall B : JsBuiltins,
     user (st soft_login) = None /\
     isAuthenticated (computedValues (st soft_login)) = true) /\
  (forall B : JsBuiltins,
     isAuthenticated
       (computedValues (st (fst (signInWithWallet unknown_wallet initial_Ctx))))
     = false).
Proof.
  split; [|split]; intros B.
  - destruct (C3_soft_login known_wallet initial_Ctx "W1" eq_refl ltac:(discriminate))
      as [Hfound _].
    destruct (Hfound stale_profile eq_refl) as (_ & Hresult & _).
    exact Hresult.
  - destruct (C3_soft_login known_wallet initial_Ctx "W1" eq_refl ltac:(discriminate))
      as [Hfound _].
    destruct (Hfound stale_profile eq_refl) as (_ & _ & Huser & _ & _ & _ & Hauth).
    split; [exact Huser | exact Hauth].
  - destruct (C3_soft_login unknown_wallet initial_Ctx "W2" eq_refl ltac:(discriminate))
      as [_ Hnew].
    destruct (Hnew ltac:(discriminate)) as (_ & _ & _ & _ & Hout).
    exact (Hout eq_refl eq_refl).
Defined.

(** ** The realtime channel (C7) *)

(** C7: in every context the provider can reach, at most one profile
    channel is registered with the client, and it is the one held in
    [profileSubscriptionRef]: [subscribeToProfile] removes the channel it
    holds before it creates the next, the SIGNED_OUT and USER_DELETED events
    remove it (and clear the identity), and [signOut] removes it in its first
    segment, before the one that clears the identity. *)
Theorem C7_one_profile_channel `{JsBuiltins} :
  (forall c, reachable c ->
     size (channels (world c)) <= 1 /\ channels_tracked c) /\
  (forall userId c,
     channels (world (subscribeToProfile userId c))
     = <[next_id (world c) := profile_channel userId]>
         (match profileSubscriptionRef (refs c) with
          | Some ch => delete ch (channels (world c))
          | None => channels (world c)
          end) /\
     profileSubscriptionRef (refs (subscribeToProfile userId c))
     = Some (next_id (world c))) /\
  (forall ev session c,
     ev = SIGNED_OUT \/ ev = USER_DELETED -> mountedRef (refs c) = true ->
     let c' := fst (onAuthStateChange_begin ev session c) in
     profileSubscriptionRef (refs c') = None /\
     (forall ch, profileSubscriptionRef (refs c) = Some ch ->
                 channels (world c') = delete ch (channels (world c))) /\
     user (st c') = None /\ profile (st c') = None) /\
  (forall c,
     let c' := signOut_begin c in
     profileSubscriptionRef (refs c') = None /\
     (forall ch, profileSubscriptionRef (refs c) = Some ch ->
                 channels (world c') = delete ch (channels (world c))) /\
     st c' = st c /\
     user (st (fst (signOut_settle (Return None) c'))) = None /\
     profile (st (fst (signOut_settle (Return None) c'))) = None).
Proof.
  split; [|split; [|split]].
  - intros c Hreach. pose proof (reachable_tracked c Hreach) as Htr.
    split; [apply tracked_at_most_one|]; exact Htr.
  - intros userId c. apply subscribeToProfile_channels.
  - intros ev session c Hev Hmounted. cbv zeta.
    unfold onAuthStateChange_begin. rewrite Hmounted. cbn [negb].
    unfold cleanup_profile_subscription.
    destruct Hev as [-> | ->], session as [s|];
      destruct (profileSubscriptionRef (refs c)) as [ch|] eqn:Eref; cbn;
      repeat split; try reflexivity; try (intros ch' [= <-]; reflexivity);
      try (intros ch' [=]); try exact Eref.
  - intros c. cbv zeta. unfold signOut_begin, cleanup_profile_subscription,
      clear_background_retry.
    destruct (profileSubscriptionRef (refs c)) as [ch|] eqn:Eref; cbn;
      destruct (backgroundRetryRef (refs c)) as [t|] eqn:Eretry; cbn;
      repeat split; try reflexivity; try (intros ch' [= <-]; reflexivity);
      try (intros ch' [=]); try exact Eref.
Qed.

(** C7 after two subscriptions in a row: only the second channel is left. *)
Lemma C7_witness :
  (forall B : JsBuiltins, size (channels (world subscribed_twice)) <= 1) /\
  (forall B : JsBuiltins,
     channels (world subscribed_twice) !! 1 = Some (profile_channel "u1") /\
     channels (world subscribed_twice) !! 0 = None /\
     profileSubscriptionRef (refs subscribed_twice) = Some 1).
Proof.
  split; intros B.
  - apply (proj1 C7_one_profile_channel).
    unfold subscribed_twice. do 2 apply reachable_step. apply reachable_initial.
  - repeat split; reflexivity.
Defined.

(** ** Background retry of the profile fetch (C5) *)



(** Only the retry held in [backgroundRetryRef] is cancelled: when two runs
    overlap and both schedule a retry, the ref holds the second, and the
    first is still pending after the next run has started. *)
Lemma overlapping_runs_leave_a_retry_pending :
  timers (world two_runs_timed_out) !! 0
  = Some {| delay_ms := 3000%N; callback_of := BackgroundRetry "u1" |} /\
  timers (world two_runs_timed_out) !! 1
  = Some {| delay_ms := 3000%N; callback_of := BackgroundRetry "u1" |} /\
  backgroundRetryRef (refs two_runs_timed_out) = Some 1 /\
  timers (world third_run_started) !! 0
  = Some {| delay_ms := 3000%N; callback_of := BackgroundRetry "u1" |} /\
  timers (world third_run_started) !! 1 = None /\
  backgroundRetryRef (refs third_run_started) = None.
Proof. repeat split; reflexivity. Qed.


(** ** Durable state (C6) *)

(** C6 as stated fails: a sign-in leaves the session in browser storage
    under 'pumpwork-auth', and [updateProfile] by a hosted user writes the
    profile row to the hosted table. *)
Lemma C6_identity_reaches_durable_storage :
  durable (world (fst (signIn "neo@example.org"
                         (Return (AuthOk (Some hosted_user)))
                         missing_query initial_Ctx)))
  = [SessionStored "pumpwork-auth" hosted_user] /\
  durable (world (fst (updateProfile [("nickname", VStr "neo")]
                         (Return (QData stale_profile))
                         (setUser (Some hosted_user) initial_Ctx))))
  = [ProfileRowWritten stale_profile].
Proof. split; reflexivity. Qed.

(** C6, amended: the provider has no persistence format of its own and its
    React state is in memory only, but identity state does reach durable
    storage through the vendor client it configures and calls.  The client
    is created with [persistSession] and the storage key 'pumpwork-auth', so
    a successful [signIn] stores the session under that key and a successful
    [signOut] removes it; [updateProfile] by a hosted user writes the profile
    row.  Every step of the provider leaves the earlier durable writes in
    place and adds only such vendor writes; a state update, [updateAuthState],
    and [updateProfile] and the soft login [signInWithWallet] without a
    hosted user add none. *)
Theorem C6_durable_writes `{JsBuiltins} :
  (persistSession supabase_auth = true /\
   storageKey supabase_auth = "pumpwork-auth") /\
  (forall e c, exists written,
     durable (world (apply_event e c)) = (durable (world c) ++ written)%list /\
     Forall vendor_write written) /\
  (forall f c, durable (world (with_st f c)) = durable (world c)) /\
  (forall session options query c,
     durable (world (updateAuthState session options query c))
     = durable (world c)) /\
  (forall updates reply c,
     user (st c) = None ->
     durable (world (fst (updateProfile updates reply c))) = durable (world c)) /\
  (forall env c,
     user (st c) = None ->
     durable (world (fst (signInWithWallet env c))) = durable (world c)) /\
  (forall email u query c,
     durable (world (fst (signIn email (Return (AuthOk (Some u))) query c)))
     = (durable (world c) ++ [SessionStored "pumpwork-auth" u])%list) /\
  (forall c,
     durable (world (fst (signOut (Return None) c)))
     = (durable (world c) ++ [SessionRemoved "pumpwork-auth"])%list) /\
  (forall updates row u c,
     user (st c) = Some u ->
     durable (world (fst (updateProfile updates (Return (QData row)) c)))
     = (durable (world c) ++ [ProfileRowWritten row])%list).
Proof.
  split; [split; reflexivity|].
  split; [exact apply_event_extends|].
  split; [reflexivity|].
  split; [exact updateAuthState_durable|].
  split.
  { intros updates reply c Hnone. rewrite updateProfile_durable, Hnone.
    reflexivity. }
  split; [exact signInWithWallet_durable|].
  split; [exact signIn_durable|].
  split; [exact signOut_durable|].
  intros updates row u c Hsome. rewrite updateProfile_durable, Hsome.
  reflexivity.
Qed.

(** The amended C6: a soft login writes nothing durable; a profile update
    by a hosted user writes the row. *)
Lemma C6_witness :
  (forall B : JsBuiltins, durable (world soft_login) = []) /\
  (forall B : JsBuiltins,
     durable (world (fst (updateProfile [("nickname", VStr "neo")]
                            (Return (QData stale_profile))
                            (setUser (Some hosted_user) soft_login))))
     = [ProfileRowWritten stale_profile]).
Proof.
  split; intros B.
  - exact (proj1 (proj2 (proj2 (proj2 (proj2 (proj2 C6_durable_writes)))))
             known_wallet initial_Ctx eq_refl).
  - exact (proj2 (proj2 (proj2 (proj2 (proj2 (proj2 (proj2 (proj2
             C6_durable_writes)))))))
             [("nickname", VStr "neo")] stale_profile hosted_user
             (setUser (Some hosted_user) soft_login) eq_refl).
Defined.

(** * Further properties of the code *)

(** ** Roles, gates and navigation *)

(** X1: the roles the context reports never exceed the token tier: a
    non-admin is a client only with [canBeClient] and a freelancer only with
    [canBeFreelancer]; only an admin is both; the effective role is the
    stored role, 'client' or null; and a role is reported only with a
    profile. *)
Theorem X1_roles_within_tokens `{JsBuiltins} (s : State) :
  let cv := computedValues s in
  (isClient cv = true -> isAdmin cv = true \/ canBeClient cv = true) /\
  (isFreelancer cv = true -> isAdmin cv = true \/ canBeFreelancer cv = true) /\
  (isClient cv = true -> isFreelancer cv = true -> isAdmin cv = true) /\
  (effectiveRole cv = storedRole cv \/ effectiveRole cv = VStr "client" \/
   effectiveRole cv = VNull) /\
  (isClient cv = true \/ isFreelancer cv = true -> profile s <> None).
Proof.
  cbv zeta. pose proof (effectiveRole_cases s) as Hcases. cbv zeta in Hcases.
  destruct (roles_need_tokens s) as (Hc & Hf & Hp).
  split; [exact Hc|]. split; [exact Hf|]. split; [|split; [|exact Hp]].
  - assert (Hclient : isClient (computedValues s)
                      = strict_eq_str (effectiveRole (computedValues s)) "client"
                        || isAdmin (computedValues s)) by reflexivity.
    assert (Hfree : isFreelancer (computedValues s)
                    = strict_eq_str (effectiveRole (computedValues s)) "freelancer"
                      || isAdmin (computedValues s)) by reflexivity.
    rewrite Hclient, Hfree. destruct (isAdmin (computedValues s)); [auto|].
    rewrite !orb_false_r. intros Hc' Hf'.
    apply strict_eq_str_true in Hc', Hf'. congruence.
  - destruct Hcases as [(_ & _ & _ & He) | [(_ & _ & He) | (He & _)]]; auto.
Qed.

(** X1 at a stored freelancer holding 2500 tokens: reported as a client, and
    entitled to it. *)
Lemma X1_witness :
  (forall B : JsBuiltins, isClient (computedValues poor_freelancer) = true) /\
  (forall B : JsBuiltins,
     isAdmin (computedValues poor_freelancer) = true \/
     canBeClient (computedValues poor_freelancer) = true).
Proof.
  split; intros B; [reflexivity|].
  exact (proj1 (X1_roles_within_tokens poor_freelancer) eq_refl).
Defined.


(** X3: the first effect of the login page navigates as soon as a profile is
    loaded, with or without a hosted user, to the dashboard of the stored
    role; its second effect, meant for wallet-based profiles, never
    navigates, a profile being enough to be authenticated. *)
Theorem X3_login_effects `{JsBuiltins} (s : State) :
  Login_navigate_soft s = None /\
  Login_navigate s
  = match profile s with
    | Some p => Some (dashboardPath (user_type p))
    | None => None
    end /\
  (forall path, Login_navigate s = Some path ->
     path = "/dashboard/client" \/ path = "/dashboard/admin" \/
     path = "/dashboard/freelancer").
Proof.
  unfold Login_navigate_soft, Login_navigate.
  destruct (profile s) as [p|] eqn:Ep.
  - assert (Hauth : isAuthenticated (computedValues s) = true).
    { unfold computedValues; cbn. rewrite Ep. apply orb_true_r. }
    rewrite Hauth. split; [reflexivity|]. split; [reflexivity|].
    intros path [= <-]. unfold dashboardPath.
    destruct (strict_eq_str _ "client"); [auto|].
    destruct (strict_eq_str _ "admin"); auto.
  - split; [reflexivity|]. split; [reflexivity | discriminate].
Qed.

(** X4: the login page picks the dashboard by the stored role, the
    navigation bar by the effective one.  They agree when the role is not
    downgraded; a stored client without the client's tokens is sent to the
    client dashboard while the bar links to the freelancer's, and a stored
    freelancer downgraded to client is sent to the freelancer dashboard
    while the bar links to the client's. *)
Theorem X4_dashboard_links `{JsBuiltins} (s : State) :
  let cv := computedValues s in
  (forall path, Login_navigate s = Some path ->
     path = dashboardPath (storedRole cv)) /\
  (effectiveRole cv = storedRole cv ->
   getDashboardLink cv = dashboardPath (storedRole cv)) /\
  (storedRole cv = VStr "client" -> canBeClient cv = false ->
   dashboardPath (storedRole cv) = "/dashboard/client" /\
   getDashboardLink cv = "/dashboard/freelancer") /\
  (storedRole cv = VStr "freelancer" -> canBeFreelancer cv = false ->
   canBeClient cv = true ->
   dashboardPath (storedRole cv) = "/dashboard/freelancer" /\
   getDashboardLink cv = "/dashboard/client").
Proof.
  cbv zeta. pose proof (effectiveRole_cases s) as Hcases. cbv zeta in Hcases.
  assert (Hclient : isClient (computedValues s)
                    = strict_eq_str (effectiveRole (computedValues s)) "client"
                      || isAdmin (computedValues s)) by reflexivity.
  assert (Hadmin : isAdmin (computedValues s)
                   = strict_eq_str (storedRole (computedValues s)) "admin")
    by reflexivity.
  split; [|split; [|split]].
  - intros path. unfold Login_navigate.
    assert (Hstored : storedRole (computedValues s)
                      = opt_field user_type (profile s)) by reflexivity.
    rewrite Hstored. destruct (profile s) as [p|]; [|discriminate].
    destruct (isAuthenticated _); [|discriminate]. intros [= <-]. reflexivity.
  - intros Heq. unfold getDashboardLink, dashboardPath.
    rewrite Hclient, Hadmin, Heq.
    destruct (storedRole (computedValues s)) as [| | | |r| |]; try reflexivity.
    cbn. destruct (String.eqb r "admin") eqn:Ea.
    + apply String.eqb_eq in Ea. subst r. reflexivity.
    + rewrite orb_false_r. reflexivity.
  - intros Hstored Hno. unfold getDashboardLink, dashboardPath.
    rewrite Hclient, Hadmin.
    destruct Hcases as [(Hs & _) | [(_ & _ & He) | (_ & _ & Hc)]].
    + congruence.
    + rewrite He, Hstored. split; reflexivity.
    + rewrite (Hc Hstored) in Hno. discriminate.
  - intros Hstored Hno Hyes. unfold getDashboardLink, dashboardPath.
    rewrite Hclient, Hadmin.
    destruct Hcases as [(_ & _ & _ & He) | [(_ & Hc & _) | (_ & Hf & _)]].
    + rewrite He, Hstored. split; reflexivity.
    + congruence.
    + rewrite (Hf Hstored) in Hno. discriminate.
Qed.

(** X5: with a live balance that is a number, the role the registration
    page determines is the tier of the context: 'freelancer' with
    [canBeFreelancer], else 'client' with [canBeClient], else none, so the
    page refuses to register exactly without [canBeClient]; and a profile
    registered with that role at a positive live balance is reported with
    that very role, whatever balance the row stores. *)
Theorem X5_determinedRole `{JsBuiltins} (c : Ctx) :
  is_num (liveTokenBalance (st c)) = true ->
  let cv := computedValues (st c) in
  determinedRole (st c)
  = (if canBeFreelancer cv then VStr "freelancer"
     else if canBeClient cv then VStr "client" else VNull) /\
  ToBoolean (determinedRole (st c)) = canBeClient cv /\
  (forall p : Profile,
     js_gt (liveTokenBalance (st c)) (VNum 0) = true ->
     user_type p = determinedRole (st c) ->
     effectiveRole (computedValues (st (setProfile (Some p) c)))
     = determinedRole (st c)).
Proof.
  intros Hnum. cbv zeta.
  assert (Hrole : determinedRole (st c)
                  = (if canBeFreelancer (computedValues (st c))
                     then VStr "freelancer"
                     else if canBeClient (computedValues (st c))
                          then VStr "client" else VNull)).
  { unfold determinedRole. cbv zeta. rewrite (tokenBalance_or_zero _ Hnum).
    reflexivity. }
  split; [exact Hrole|]. split.
  { rewrite Hrole.
    destruct (canBeFreelancer (computedValues (st c))) eqn:Ef.
    - symmetry.
      exact (hasMinTokens_antitone (st c) 10000%float 1000%float Ef eq_refl).
    - destruct (canBeClient (computedValues (st c))); reflexivity. }
  intros p Hpos Htype. rewrite Hrole in *.
  unfold computedValues in *. cbn -[js_ge js_gt js_or] in *.
  rewrite Hpos in *. rewrite Htype.
  destruct (js_ge (liveTokenBalance (st c)) (VNum 10000)) eqn:Ef; cbn.
  - reflexivity.
  - destruct (js_ge (liveTokenBalance (st c)) (VNum 1000)) eqn:Ec; cbn;
      rewrite ?Ec; reflexivity.
Qed.

(** X5 at a wallet holding 12000 tokens: the page determines 'freelancer'. *)
Lemma X5_witness :
  (forall B : JsBuiltins, is_num (liveTokenBalance (st funded_ctx)) = true) /\
  (forall B : JsBuiltins, determinedRole (st funded_ctx) = VStr "freelancer").
Proof.
  split; intros B; [reflexivity|].
  exact (eq_trans (proj1 (X5_determinedRole funded_ctx eq_refl)) eq_refl).
Defined.

(** X6: [canAccessRole] looks at the tokens, not at the role: whoever is
    reported as a client or a freelancer without being an admin has access
    to that role, access to a tier gives access to the tiers below, 'admin'
    is open to admins only, and any other name is refused. *)
Theorem X6_canAccessRole `{JsBuiltins} (s : State) :
  let cv := computedValues s in
  (isAdmin cv = false -> isClient cv = true -> canAccessRole s "client" = true) /\
  (isAdmin cv = false -> isFreelancer cv = true ->
   canAccessRole s "freelancer" = true) /\
  (canAccessRole s "boosted" = true -> canAccessRole s "freelancer" = true) /\
  (canAccessRole s "freelancer" = true -> canAccessRole s "client" = true) /\
  canAccessRole s "client" = hasMinTokens s (VNum 1000) /\
  canAccessRole s "admin" = strict_eq_str (opt_field user_type (profile s)) "admin" /\
  (forall role : string,
     role <> "client" -> role <> "freelancer" -> role <> "boosted" ->
     role <> "admin" -> canAccessRole s role = false).
Proof.
  cbv zeta. destruct (roles_need_tokens s) as (Hc & Hf & _).
  split; [|split; [|split; [|split; [|split; [|split]]]]].
  - intros Hadmin Hclient. destruct (Hc Hclient) as [Ha|Hcan]; [congruence|].
    exact Hcan.
  - intros Hadmin Hfree. destruct (Hf Hfree) as [Ha|Hcan]; [congruence|].
    exact Hcan.
  - intros Hb.
    exact (hasMinTokens_antitone s 50000%float 10000%float Hb eq_refl).
  - intros Hfr.
    exact (hasMinTokens_antitone s 10000%float 1000%float Hfr eq_refl).
  - reflexivity.
  - reflexivity.
  - intros role H1 H2 H3 H4. unfold canAccessRole.
    apply String.eqb_neq in H1, H2, H3, H4. rewrite H1, H2, H3, H4.
    reflexivity.
Qed.

(** ** Retrying and timing out *)

(** X7: the function [withRetry] runs is called at least once and at most
    [retries + 1] times; what [withRetry] settles with is the settlement of
    the last call (the [throw lastError] after the loop is never reached);
    the sleeps between [n] calls add up to [baseDelay * (2 ^ (n - 1) - 1)];
    and when the calls keep failing with errors worth a retry, all
    [retries + 1] calls are made and the error thrown is the last one. *)
Theorem X7_withRetry_backoff {A : Type} (fn : nat -> run A) (retries : nat)
    (baseDelay : N) (shouldRetry : Error -> bool) :
  let r := withRetry fn retries baseDelay shouldRetry in
  1 <= calls r <= S retries /\
  settled r = outcome (fn (calls r - 1)) /\
  delays r
  = map (fun j => (baseDelay * 2 ^ N.of_nat j)%N) (seq 0 (calls r - 1)) /\
  elapsed r
  = (time_in_calls fn 0 (calls r)
     + baseDelay * (2 ^ N.of_nat (calls r - 1) - 1))%N /\
  ((forall k, k < retries ->
      exists e, outcome (fn k) = Throw e /\ is_abort e = false /\
                shouldRetry e = true) ->
   calls r = S retries /\ settled r = outcome (fn retries)).
Proof.
  cbv zeta.
  destruct (withRetry_spec fn retries baseDelay shouldRetry)
    as [Hlo Hup Hlen Hval _ Hlast _ _ Hel].
  assert (Hdelays :
            delays (withRetry fn retries baseDelay shouldRetry)
            = map (fun j => (baseDelay * 2 ^ N.of_nat j)%N)
                  (seq 0 (calls (withRetry fn retries baseDelay shouldRetry) - 1))).
  { rewrite (list_by_lookup _ (fun j => (baseDelay * 2 ^ N.of_nat j)%N)).
    - rewrite Hlen. reflexivity.
    - intros j x Hj. exact (Hval j x Hj). }
  split; [lia|]. split; [exact Hlast|]. split; [exact Hdelays|].
  split.
  - rewrite Hel, Hdelays, backoff_sum, Nat.sub_0_r. lia.
  - intros Hfail.
    assert (Hcalls : calls (withRetry fn retries baseDelay shouldRetry)
                     = S retries).
    { unfold withRetry. apply withRetry_loop_exhausts; [lia | lia |].
      intros k Hk. apply Hfail. lia. }
    split; [exact Hcalls|]. rewrite Hlast, Hcalls.
    replace (S retries - 1) with retries by lia. reflexivity.
Qed.

(** X8: a request made through [fetchWithTimeout], by a browser that
    honours abort signals, settles within 15000 ms: it goes as it would
    without a signal when it settles before the controller aborts, and is
    rejected with an abort at that time otherwise; the headers found in the
    options keep their values, and [Content-Type: application/json] is
    added exactly when the request has a body and no such header. *)
Theorem X8_fetchWithTimeout {A : Type} (fetch : RequestInit -> run A)
    (options : RequestInit) :
  honours_signal fetch ->
  let r := fetchWithTimeout fetch options in
  let plain := fetch {| req_body := req_body options;
                        req_headers := merged_headers options;
                        req_signal := None |} in
  (took r <= 15000)%N /\
  ((took plain < controller_aborts_at options)%N -> r = plain) /\
  ((controller_aborts_at options <= took plain)%N ->
   took r = controller_aborts_at options /\
   exists e, outcome r = Throw e /\ is_abort e = true) /\
  (req_signal options = None -> controller_aborts_at options = 15000%N) /\
  (forall name v,
     headers_get (req_headers options) name = Some v ->
     headers_get (merged_headers options) name = Some v) /\
  headers_get (merged_headers options) "Content-Type"
  = match headers_get (req_headers options) "Content-Type" with
    | Some v => Some v
    | None => if ToBoolean (req_body options)
              then Some "application/json" else None
    end.
Proof.
  intros Hfetch. cbv zeta.
  pose proof (fetchWithTimeout_cases fetch options Hfetch) as Hcases.
  cbv zeta in Hcases.
  pose proof (controller_aborts_in_time options) as Hin.
  unfold REQUEST_TIMEOUT in Hin.
  split; [|split; [|split; [|split; [|split]]]].
  - destruct Hcases as [(Hlt & ->) | (_ & -> & _)]; lia.
  - intros Hlt. destruct Hcases as [(_ & Heq) | (Hge & _)]; [exact Heq | lia].
  - intros Hge. destruct Hcases as [(Hlt & _) | (_ & Htook & He)];
      [lia | split; assumption].
  - intros Hnone. unfold controller_aborts_at. rewrite Hnone. reflexivity.
  - intros name v Hget. unfold merged_headers.
    destruct (ToBoolean (req_body options) && _); [|exact Hget].
    rewrite headers_get_app, Hget. reflexivity.
  - unfold merged_headers. rewrite headers_has_get.
    destruct (headers_get (req_headers options) "Content-Type") as [v|] eqn:Eg.
    + rewrite andb_false_r. exact Eg.
    + cbn [bool_decide negb]. rewrite bool_decide_eq_false_2
        by (intros [x Hx]; discriminate).
      cbn [negb]. rewrite andb_true_r.
      destruct (ToBoolean (req_body options)); [|exact Eg].
      rewrite headers_get_app, Eg. reflexivity.
Qed.

(** X8 at a request the browser would answer after 20 s: aborted at 15 s,
    its [Accept] header untouched. *)
Lemma X8_witness :
  honours_signal (browser_fetch 20000) /\
  (took (fetchWithTimeout (browser_fetch 20000) select_request) <= 15000)%N /\
  outcome (fetchWithTimeout (browser_fetch 20000) select_request)
  = Throw abort_error.
Proof.
  split; [apply browser_fetch_honours_signal|].
  split; [|reflexivity].
  exact (proj1 (X8_fetchWithTimeout (browser_fetch 20000) select_request
                  (browser_fetch_honours_signal 20000))).
Defined.

(** X9: the queries of a client that fetches through [fetchWithTimeout]
    take at most 15000 ms each, and no timeout the provider gives to
    [fetchProfile] is longer.  So when the first request is still pending
    after 15 s and the client aborts it, [fetchProfile] and
    [fetchProfileByWallet] have already failed with 'Profile fetch timeout':
    the abort is not turned into [null], and [updateAuthState] on a mounted
    provider schedules its background retry. *)
Theorem X9_client_abort_is_a_timeout {A : Type} (fetch : RequestInit -> run A)
    (request : nat -> RequestInit)
    (decode : completion A -> completion QueryReply)
    (options : FetchOptions) (u : User) (c : Ctx) :
  honours_signal fetch ->
  provider_timeout options ->
  (forall k, req_signal (request k) = None) ->
  let query := client_query fetch request decode in
  let pending := fetch {| req_body := req_body (request 0);
                          req_headers := merged_headers (request 0);
                          req_signal := None |} in
  (forall k, (took (query k) <= 15000)%N) /\
  ((15000 <= took pending)%N ->
   took (query 0) = 15000%N /\
   (exists e, outcome (fetchWithTimeout fetch (request 0)) = Throw e /\
              is_abort e = true) /\
   fetchProfile query options = Throw (new_Error "Profile fetch timeout") /\
   fetchProfileByWallet query options
   = Throw (new_Error "Profile fetch timeout") /\
   (mountedRef (refs c) = true ->
    let c' := updateAuthState_settle u default_update
                (fetchProfile query options) c in
    profile (st c') = None /\
    backgroundRetryRef (refs c') = Some (next_id (world c)) /\
    timers (world c') !! next_id (world c)
    = Some {| delay_ms := 3000%N; callback_of := BackgroundRetry (uid u) |})).
Proof.
  intros Hfetch Hlimit Hsignal. cbv zeta.
  assert (Hat : forall k, controller_aborts_at (request k) = 15000%N).
  { intros k. unfold controller_aborts_at. rewrite (Hsignal k). reflexivity. }
  split.
  - intros k. cbn [client_query took].
    pose proof (fetchWithTimeout_cases fetch (request k) Hfetch) as Hcases.
    cbv zeta in Hcases. rewrite (Hat k) in Hcases.
    destruct Hcases as [(Hlt & ->) | (_ & -> & _)]; lia.
  - intros Hpending.
    pose proof (fetchWithTimeout_cases fetch (request 0) Hfetch) as Hcases.
    cbv zeta in Hcases. rewrite (Hat 0) in Hcases.
    destruct Hcases as [(Hlt & _) | (_ & Htook & He)]; [lia|].
    assert (Hquery : took (client_query fetch request decode 0) = 15000%N)
      by exact Htook.
    assert (Hle : (default 5000%N (timeout options) <= 15000)%N).
    { destruct Hlimit as [-> | [-> | [-> | ->]]]; cbn; lia. }
    assert (Hprofile : fetchProfile (client_query fetch request decode) options
                       = Throw (new_Error "Profile fetch timeout")).
    { unfold fetchProfile. rewrite race_lost; [reflexivity|].
      pose proof (first_call_elapsed _ _ _ _ _
                    (fetchPromise_spec (client_query fetch request decode)
                                       options)) as Hfirst.
      cbn [fetchFn took] in Hfirst. lia. }
    split; [exact Hquery|]. split; [exact He|]. split; [exact Hprofile|].
    split.
    + unfold fetchProfileByWallet. rewrite race_lost; [reflexivity|].
      cbn [once elapsed fetchFn took]. lia.
    + intros Hmounted. rewrite Hprofile.
      rewrite updateAuthState_settle_timeout by (reflexivity || exact Hmounted).
      cbn. split; [reflexivity|]. split; [reflexivity|].
      apply lookup_insert_eq.
Qed.

(** X9 at a request the browser would answer after 20 s. *)
Lemma X9_witness :
  (honours_signal (browser_fetch 20000) /\
   provider_timeout background_retry_options /\
   (15000 <= took (browser_fetch 20000 select_request))%N) /\
  fetchProfile (client_query (browser_fetch 20000) (fun _ => select_request)
                             decode_row)
               background_retry_options
  = Throw (new_Error "Profile fetch timeout").
Proof.
  split.
  - split; [apply browser_fetch_honours_signal|].
    split; [right; right; right; reflexivity | vm_compute; discriminate].
  - refine (proj1 (proj2 (proj2
      (proj2 (X9_client_abort_is_a_timeout (browser_fetch 20000)
                (fun _ => select_request) decode_row background_retry_options
                hosted_user initial_Ctx
                (browser_fetch_honours_signal 20000) _ (fun _ => eq_refl))
             _)))).
    + right; right; right; reflexivity.
    + vm_compute; discriminate.
Defined.

(** X10: when [fetchProfile] gives a profile, the time spent in its calls
    and in the sleeps between them, [1000 * (2 ^ (calls - 1) - 1)] ms, is
    below the timeout, and the row is the one the last query returned; so a
    third call can only give the profile under a timeout above 3000 ms, and
    a second one under a timeout above 1000 ms. *)
Theorem X10_fetchProfile_budget (query : nat -> run QueryReply)
    (options : FetchOptions) (row : Profile) :
  fetchProfile query options = Return (Some row) ->
  let p := fetchPromise query options in
  let limit := default 5000%N (timeout options) in
  (time_in_calls (fetchFn query) 0 (calls p)
   + 1000 * (2 ^ N.of_nat (calls p - 1) - 1) < limit)%N /\
  outcome (query (calls p - 1)) = Return (QData row) /\
  (calls p = 3 -> (3000 < limit)%N /\
                  (time_in_calls (fetchFn query) 0 3 < limit - 3000)%N) /\
  (calls p = 2 -> (1000 < limit)%N) /\
  ((limit <= 1000)%N -> calls p = 1).
Proof.
  intros Hfound. cbv zeta.
  pose proof (fetchPromise_spec query options) as Hspec.
  destruct (loop_spec_elapsed _ _ _ _ _ Hspec) as [_ Hel].
  destruct Hspec as [Hlo Hup _ _ _ Hlast _ _ _].
  unfold fetchProfile in Hfound. apply ignore_abort_found in Hfound.
  assert (Hwon : (elapsed (fetchPromise query options)
                  < default 5000%N (timeout options))%N).
  { unfold race in Hfound.
    destruct (N.ltb_spec (elapsed (fetchPromise query options))
                         (default 5000%N (timeout options))); [assumption|].
    discriminate. }
  rewrite race_won in Hfound by exact Hwon.
  rewrite Hel in Hwon.
  split; [exact Hwon|]. split.
  - apply fetchFn_row. rewrite <- Hlast. exact Hfound.
  - split; [|split].
    + intros H3. rewrite H3 in Hwon.
      replace (2 ^ N.of_nat (3 - 1))%N with 4%N in Hwon by reflexivity. lia.
    + intros H2. rewrite H2 in Hwon.
      replace (2 ^ N.of_nat (2 - 1))%N with 2%N in Hwon by reflexivity. lia.
    + intros Hsmall.
      destruct (calls (fetchPromise query options)) as [|[|n]] eqn:Ec;
        [lia | reflexivity |].
      exfalso. cbn [Nat.sub] in Hwon.
      assert (Hpow : (2 <= 2 ^ N.of_nat (S n - 0))%N).
      { replace (S n - 0) with (S n) by lia.
        rewrite Nat2N.inj_succ, N.pow_succ_r'.
        pose proof (N.pow_nonzero 2 (N.of_nat n)). lia. }
      replace (S n - 0) with (S n) in * by lia. nia.
Qed.

(** X10 at a query that fails twice on the network and then answers. *)
Lemma X10_witness :
  fetchProfile flaky_query no_options = Return (Some stale_profile) /\
  (time_in_calls (fetchFn flaky_query) 0 3 < 5000 - 3000)%N.
Proof.
  split; [reflexivity|].
  exact (proj2 (proj1 (proj2 (proj2
           (X10_fetchProfile_budget flaky_query no_options stale_profile
                                    eq_refl))) eq_refl)).
Defined.

(** ** The token balance *)

(** X11: [fetchTokenBalance] gives a balance other than 0 only for a reply
    whose result value is an array of accounts that can all be read: one
    account without [account.data.parsed.info.tokenAmount] makes the whole
    balance 0, whatever the other accounts hold, and so does a result value
    that is not an array. *)
Theorem X11_unreadable_account_zeroes_balance `{JsBuiltins}
    (rpc : string -> rpc_reply) (walletAddress : string) :
  (forall json accs acc e,
     rpc walletAddress = JsonBody json ->
     result_value json = Return (VArr accs) ->
     In acc accs -> account_amount acc = Throw e ->
     fetchTokenBalance rpc walletAddress = VNum 0) /\
  (forall json value,
     rpc walletAddress = JsonBody json ->
     result_value json = Return value ->
     (forall accs, value <> VArr accs) ->
     fetchTokenBalance rpc walletAddress = VNum 0) /\
  (forall json,
     rpc walletAddress = JsonBody json ->
     result_value json = Return (VArr []) ->
     fetchTokenBalance rpc walletAddress = VNum 0).
Proof.
  split; [|split].
  - intros json accs acc e Hreply Hvalue Hin Hbad.
    unfold fetchTokenBalance, fetchTokenBalance_try.
    rewrite Hreply, Hvalue. cbn.
    destruct (sum_accounts_throws accs acc e Hin Hbad (VNum 0)) as [e' ->].
    reflexivity.
  - intros json value Hreply Hvalue Hnot.
    unfold fetchTokenBalance, fetchTokenBalance_try.
    rewrite Hreply, Hvalue. cbn [mbind completion_bind].
    destruct (ToBoolean value) eqn:Etruthy; cbn [negb]; [|reflexivity].
    destruct value as [| |b|n|s|l|kv]; try reflexivity.
    + destruct s as [|ch rest]; [discriminate|].
      cbn [iterate mbind completion_bind String.list_ascii_of_string map].
      destruct (sum_accounts_throws
                  (VStr (String ch "")
                   :: map (fun c => VStr (String c ""))
                          (String.list_ascii_of_string rest))
                  (VStr (String ch ""))
                  (TypeError "Cannot read properties of undefined (reading 'data')")
                  (or_introl eq_refl) eq_refl (VNum 0)) as [e' ->].
      reflexivity.
    + exfalso. exact (Hnot l eq_refl).
  - intros json Hreply Hvalue.
    unfold fetchTokenBalance, fetchTokenBalance_try.
    rewrite Hreply, Hvalue. reflexivity.
Qed.

(** X11 at a reply with an account of 1500.5 tokens and an unreadable
    one. *)
Lemma X11_witness :
  (forall B : JsBuiltins,
     result_value one_bad_account_reply
     = Return (VArr [account_reply (VObj [("uiAmount", VNum 1500.5)]);
                     VObj [("pubkey", VStr "Acc2")]])) /\
  (forall B : JsBuiltins,
     fetchTokenBalance (fun _ => JsonBody one_bad_account_reply) "W1" = VNum 0).
Proof.
  split; intros B; [reflexivity|].
  exact (proj1 (X11_unreadable_account_zeroes_balance
                  (fun _ => JsonBody one_bad_account_reply) "W1")
               one_bad_account_reply _ (VObj [("pubkey", VStr "Acc2")])
               (TypeError "Cannot read properties of undefined (reading 'data')")
               eq_refl eq_refl (or_intror (or_introl eq_refl)) eq_refl).
Defined.

(** ** The provider after an unmount, and around a sign-out *)

(** X12: once the provider is unmounted, the continuations that check
    [mountedRef] change nothing at all: the end of [updateAuthState] after
    its fetch, the end of the background retry, the handler of the realtime
    channel and the listener of auth events; a timer that fires is only
    removed and starts no fetch. *)
Theorem X12_unmounted_changes_nothing (c : Ctx) :
  mountedRef (refs c) = false ->
  (forall u options fetched, updateAuthState_settle u options fetched c = c) /\
  (forall userId fetched, background_retry_settle userId fetched c = c) /\
  (forall ch payload_new, on_profile_update ch payload_new c = c) /\
  (forall ev session, onAuthStateChange_begin ev session c = (c, None)) /\
  (forall t,
     snd (timer_fires t c) = None /\
     st (fst (timer_fires t c)) = st c /\
     refs (fst (timer_fires t c)) = refs c /\
     calls_made (world (fst (timer_fires t c))) = calls_made (world c)).
Proof.
  intros Hun. split; [|split; [|split; [|split]]].
  - intros u options fetched. unfold updateAuthState_settle.
    destruct fetched as [profileData|error]; rewrite !Hun; reflexivity.
  - intros userId fetched. unfold background_retry_settle.
    destruct fetched as [[row|]|error]; rewrite ?Hun; reflexivity.
  - intros ch payload_new. unfold on_profile_update.
    destruct (channels (world c) !! ch); [|reflexivity].
    rewrite Hun. reflexivity.
  - intros ev session. unfold onAuthStateChange_begin. rewrite Hun.
    reflexivity.
  - intros t. unfold timer_fires.
    destruct (timers (world c) !! t) as [timer|]; [|repeat split].
    destruct (callback_of timer) as [userId]. cbn [refs set_timers with_world].
    rewrite Hun. repeat split.
Qed.

(** X12 at the provider unmounted while its first fetch was awaited. *)
Lemma X12_witness :
  mountedRef (refs unmounted_while_fetching) = false /\
  updateAuthState_settle hosted_user default_update
    (Return (Some stale_profile)) unmounted_while_fetching
  = unmounted_while_fetching.
Proof.
  split; [reflexivity|].
  exact (proj1 (X12_unmounted_changes_nothing unmounted_while_fetching eq_refl)
               hosted_user default_update (Return (Some stale_profile))).
Defined.

(** X13: when the auth client fails to sign out, [signOut] returns the
    error and the identity stays as it was, user and profile included; but
    the realtime channel and the pending background retry are gone already,
    and nothing durable was written. *)
Theorem X13_failed_signOut (reply : completion (option Error)) (e : Error)
    (c : Ctx) :
  reply = Return (Some e) \/ reply = Throw e ->
  let c' := fst (signOut reply c) in
  snd (signOut reply c) = Some e /\
  st c' = st c /\
  profileSubscriptionRef (refs c') = None /\
  backgroundRetryRef (refs c') = None /\
  (channels_tracked c -> channels (world c') = ∅) /\
  (forall t, backgroundRetryRef (refs c) = Some t ->
             timers (world c') !! t = None) /\
  durable (world c') = durable (world c) /\
  calls_made (world c') = (calls_made (world c) ++ [AuthSignOut])%list.
Proof.
  intros Hreply. cbv zeta.
  assert (Hsame : signOut reply c = (signOut_begin c, Some e)).
  { unfold signOut, signOut_settle. destruct Hreply as [-> | ->]; reflexivity. }
  rewrite Hsame. cbn [fst snd]. unfold signOut_begin.
  split; [reflexivity|].
  unfold cleanup_profile_subscription, clear_background_retry.
  destruct (profileSubscriptionRef (refs c)) as [ch|] eqn:Ech;
    cbn [refs set_profileSubscriptionRef removeChannel set_channels
         with_world with_refs backgroundRetryRef];
    destruct (backgroundRetryRef (refs c)) as [t|] eqn:Et; cbn.
  all: rewrite ?Ech, ?Et.
  all: repeat split; try reflexivity.
  all: try (intros Htr;
            first [ exact (channels_tracked_delete c _ Htr Ech)
                  | exact (channels_tracked_none c Htr Ech) ]).
  all: try (intros t' [= <-]; apply lookup_delete_eq).
  all: try discriminate.
Qed.

(** X13 at a provider holding a channel, whose sign-out is refused. *)
Lemma X13_witness :
  (forall B : JsBuiltins,
     user (st (fst (signOut (Throw network_error) subscribed_twice)))
     = user (st subscribed_twice)) /\
  (forall B : JsBuiltins,
     profile (st (fst (signOut (Throw network_error) subscribed_twice)))
     = Some stale_profile) /\
  (forall B : JsBuiltins,
     profileSubscriptionRef
       (refs (fst (signOut (Throw network_error) subscribed_twice))) = None).
Proof.
  split; [|split]; intros B.
  - exact (f_equal user
             (proj1 (proj2 (X13_failed_signOut (Throw network_error)
                              network_error subscribed_twice
                              (or_intror eq_refl))))).
  - reflexivity.
  - reflexivity.
Defined.

(** X14: a TOKEN_REFRESHED event without session clears user and profile
    but leaves the realtime channel in place, so the next update of the row
    brings the profile back, and with it an authenticated identity without
    user; after SIGNED_OUT or USER_DELETED no channel is left, and no update
    of any row changes the context. *)
Theorem X14_channel_outlives_failed_refresh `{JsBuiltins} (c : Ctx) :
  mountedRef (refs c) = true ->
  let refreshed := fst (onAuthStateChange_begin TOKEN_REFRESHED None c) in
  (user (st refreshed) = None /\ profile (st refreshed) = None /\
   isAuthenticated (computedValues (st refreshed)) = false /\
   channels (world refreshed) = channels (world c) /\
   refs refreshed = refs c) /\
  (forall ch row,
     is_Some (channels (world c) !! ch) ->
     let c' := on_profile_update ch (Some row) refreshed in
     profile (st c') = Some row /\ user (st c') = None /\
     isAuthenticated (computedValues (st c')) = true) /\
  (forall ev session ch payload_new,
     ev = SIGNED_OUT \/ ev = USER_DELETED -> channels_tracked c ->
     let c' := fst (onAuthStateChange_begin ev session c) in
     channels (world c') = ∅ /\
     on_profile_update ch payload_new c' = c').
Proof.
  intros Hm. cbv zeta.
  assert (Href : onAuthStateChange_begin TOKEN_REFRESHED None c
                 = (setIsLoading false (setProfile None (setUser None c)), None)).
  { unfold onAuthStateChange_begin. rewrite Hm. reflexivity. }
  rewrite Href. cbn [fst].
  split; [|split].
  - repeat split.
  - intros ch row [channel Hch]. unfold on_profile_update.
    cbn [world setIsLoading setProfile setUser with_st refs].
    rewrite Hch, Hm. cbn. repeat split.
  - intros ev session ch payload_new Hev Htr.
    assert (Hout : onAuthStateChange_begin ev session c
                   = (setIsLoading false
                        (setProfile None
                           (setUser None (cleanup_profile_subscription c))),
                      None)).
    { unfold onAuthStateChange_begin. rewrite Hm.
      destruct Hev as [-> | ->]; destruct session; reflexivity. }
    rewrite Hout. cbn [fst].
    destruct (cleanup_profile_subscription_channels c Htr) as [Hempty _].
    assert (Hch : channels
                    (world (setIsLoading false
                              (setProfile None
                                 (setUser None (cleanup_profile_subscription c)))))
                  = ∅) by exact Hempty.
    split; [exact Hch|].
    unfold on_profile_update. rewrite Hch, lookup_empty. reflexivity.
Qed.

(** X14 at a provider holding the channel of its user's row. *)
Lemma X14_witness :
  (forall B : JsBuiltins, mountedRef (refs subscribed_twice) = true) /\
  (forall B : JsBuiltins,
     isAuthenticated
       (computedValues
          (st (on_profile_update 1 (Some stale_profile)
                 (fst (onAuthStateChange_begin TOKEN_REFRESHED None
                         subscribed_twice)))))
     = true).
Proof.
  split; intros B; [reflexivity|].
  refine (proj2 (proj2 (proj1 (proj2
            (X14_channel_outlives_failed_refresh subscribed_twice eq_refl))
            1 stale_profile _))).
  exists (profile_channel "u1"). reflexivity.
Defined.

(** ** The wallet actions *)

(** X15: [connectWallet] and [signInWithWallet] always end with
    [isWalletConnecting] false; [connectWallet] never touches [authError],
    and when it fails it changes no other state; [signInWithWallet] leaves
    in [authError] exactly the error it returns, and returns data exactly
    when it returns no error. *)
Theorem X15_wallet_actions_settle `{JsBuiltins} (env : WalletEnv) (c : Ctx) :
  let connected := connectWallet env c in
  let signed := signInWithWallet env c in
  isWalletConnecting (st (fst connected)) = false /\
  authError (st (fst connected)) = authError (st c) /\
  (forall e, connect_error (snd connected) = Some e ->
     st (fst connected) = st (setIsWalletConnecting false c) /\
     address (snd connected) = None /\
     found_profile (snd connected) = None) /\
  isWalletConnecting (st (fst signed)) = false /\
  authError (st (fst signed)) = error (snd signed) /\
  (error (snd signed) = None <-> is_Some (data (snd signed))).
Proof.
  cbv zeta.
  assert (Hconnect :
            isWalletConnecting (st (fst (connectWallet env c))) = false /\
            (forall c0, authError (st c0) = None ->
               authError (st (fst (connectWallet env c0))) = None) /\
            authError (st (fst (connectWallet env c))) = authError (st c) /\
            (forall e, connect_error (snd (connectWallet env c)) = Some e ->
               st (fst (connectWallet env c)) = st (setIsWalletConnecting false c) /\
               address (snd (connectWallet env c)) = None /\
               found_profile (snd (connectWallet env c)) = None)).
  { assert (Hgen : forall c0,
              isWalletConnecting (st (fst (connectWallet env c0))) = false /\
              authError (st (fst (connectWallet env c0))) = authError (st c0) /\
              (forall e, connect_error (snd (connectWallet env c0)) = Some e ->
                 st (fst (connectWallet env c0))
                 = st (setIsWalletConnecting false c0) /\
                 address (snd (connectWallet env c0)) = None /\
                 found_profile (snd (connectWallet env c0)) = None)).
    { intros c0. unfold connectWallet, updateProfile.
      destruct (phantom env) as [[addr|err]|]; cbn.
      - destruct (user (st c0)) as [u|] eqn:Eu; cbn;
          destruct (fetchProfileByWallet (wallet_query env addr) no_options)
            as [[row|]|err]; cbn; rewrite ?Eu; cbn;
          try (destruct (update_reply env) as [[row'|err']|err']; cbn);
          repeat split; congruence.
      - destruct (strict_eq_num (code err) 4001); cbn;
          [repeat split|].
        destruct (message_includes err "Unexpected error"); cbn; repeat split.
      - repeat split. }
    destruct (Hgen c) as (H1 & H2 & H3).
    split; [exact H1|]. split; [|split; [exact H2 | exact H3]].
    intros c0 Hnone. destruct (Hgen c0) as (_ & -> & _). exact Hnone. }
  destruct Hconnect as (Hflag & Hnone & Herr & Hfail).
  split; [exact Hflag|]. split; [exact Herr|]. split; [exact Hfail|].
  unfold signInWithWallet.
  pose proof (Hnone (setIsWalletConnecting true (setAuthError None c)) eq_refl)
    as Hclean.
  destruct (connectWallet env (setIsWalletConnecting true (setAuthError None c)))
    as [c1 connected] eqn:Econn.
  cbn [fst] in Hclean.
  destruct (connect_error connected) as [connectError|]; cbn.
  - split; [reflexivity|]. split; [reflexivity|].
    split; [discriminate | intros [x Hx]; discriminate].
  - destruct (address connected) as [addr|]; cbn.
    + destruct (String.eqb addr ""); cbn.
      * split; [reflexivity|]. split; [reflexivity|].
        split; [discriminate | intros [x Hx]; discriminate].
      * destruct (found_profile connected) as [walletProfile|]; cbn;
          (split; [reflexivity|]); (split; [exact Hclean|]);
          (split; [eauto | reflexivity]).
    + split; [reflexivity|]. split; [reflexivity|].
      split; [discriminate | intros [x Hx]; discriminate].
Qed.

(** X16: when the provider is unmounted, whatever it has done before, no
    realtime channel is left with the client, the state is as it was, and
    the timers left are those of runs of [updateAuthState] that were
    overtaken: all but the one held in [backgroundRetryRef]. *)
Theorem X16_unmount_releases `{JsBuiltins} (c : Ctx) :
  reachable c ->
  let c' := unmount c in
  channels (world c') = ∅ /\
  mountedRef (refs c') = false /\
  st c' = st c /\
  timers (world c')
  = match backgroundRetryRef (refs c) with
    | Some t => delete t (timers (world c))
    | None => timers (world c)
    end /\
  (forall t, snd (timer_fires t c') = None).
Proof.
  intros Hreach. cbv zeta.
  pose proof (reachable_tracked c Hreach) as Htr.
  assert (Hm : mountedRef (refs (unmount c)) = false).
  { unfold unmount. cbn.
    destruct (backgroundRetryRef (refs c)); cbn;
      destruct (profileSubscriptionRef (refs c)); reflexivity. }
  split; [exact (unmount_channels c Htr)|]. split; [exact Hm|].
  split; [|split].
  - unfold unmount. cbn.
    destruct (backgroundRetryRef (refs c)); cbn;
      destruct (profileSubscriptionRef (refs c)); reflexivity.
  - exact (proj1 (unmount_timers c)).
  - intros t. unfold timer_fires.
    destruct (timers (world (unmount c)) !! t) as [timer|]; [|reflexivity].
    destruct (callback_of timer) as [userId].
    cbn [refs set_timers with_world]. rewrite Hm. reflexivity.
Qed.

(** X16 at a provider that holds a channel. *)
Lemma X16_witness :
  (forall B : JsBuiltins, reachable subscribed_twice) /\
  (forall B : JsBuiltins, channels (world (unmount subscribed_twice)) = ∅).
Proof.
  assert (Hreach : forall B : JsBuiltins, reachable subscribed_twice).
  { intros B. unfold subscribed_twice.
    apply reachable_step, reachable_step, reachable_initial. }
  split; [exact Hreach|]. intros B.
  exact (proj1 (X16_unmount_releases subscribed_twice (Hreach B))).
Defined.

(** ** Refreshing the profile, and the wallet's events *)

(** X17: [refreshProfile] does nothing without a hosted user (so the retry
    of [RequireProfile] changes nothing for an identity without user); with
    one it ends with [isProfileLoading] false, keeps the user and creates no
    channel; a failed fetch leaves the profile as it was, a fetch that gives
    [null] erases it; in particular a first query aborted within the 10 s
    erases the loaded profile and reports no error. *)
Theorem X17_refreshProfile (query : nat -> run QueryReply) (c : Ctx) :
  let c' := fst (refreshProfile query c) in
  let result := snd (refreshProfile query c) in
  let fetched :=
    fetchProfile query {| timeout := Some 10000%N; useRetry := None |} in
  (user (st c) = None ->
   refreshProfile query c
   = (c, {| data := None; error := Some (new_Error "No user logged in") |}) /\
   RequireProfile_retry query c = c) /\
  (forall u, user (st c) = Some u ->
     isProfileLoading (st c') = false /\
     user (st c') = Some u /\
     channels (world c') = channels (world c) /\
     refs c' = refs c /\
     (forall e, fetched = Throw e ->
        profile (st c') = profile (st c) /\
        result = {| data := None; error := Some e |}) /\
     (forall p, fetched = Return p ->
        profile (st c') = p /\ result = {| data := p; error := None |}) /\
     (forall e, outcome (query 0) = Throw e -> is_abort e = true ->
        (took (query 0%nat) < 10000)%N ->
        profile (st c') = None /\ error result = None)).
Proof.
  cbv zeta. split.
  - intros Hnone. unfold RequireProfile_retry, refreshProfile.
    rewrite Hnone. split; reflexivity.
  - intros u Hu.
    assert (Hcases :
              forall fetched,
                fetchProfile query {| timeout := Some 10000%N; useRetry := None |}
                = fetched ->
                refreshProfile query c
                = match fetched with
                  | Return profileData =>
                      (setIsProfileLoading false
                         (setProfile profileData
                            (call (ProfilesSelectById (uid u))
                                  (setIsProfileLoading true c))),
                       {| data := profileData; error := None |})
                  | Throw e =>
                      (setIsProfileLoading false
                         (call (ProfilesSelectById (uid u))
                               (setIsProfileLoading true c)),
                       {| data := None; error := Some e |})
                  end).
    { intros fetched <-. unfold refreshProfile. rewrite Hu. reflexivity. }
    split; [|split; [|split; [|split; [|split; [|split]]]]].
    + rewrite (Hcases _ eq_refl). destruct (fetchProfile query _); reflexivity.
    + rewrite (Hcases _ eq_refl).
      destruct (fetchProfile query _); cbn; exact Hu.
    + rewrite (Hcases _ eq_refl). destruct (fetchProfile query _); reflexivity.
    + rewrite (Hcases _ eq_refl). destruct (fetchProfile query _); reflexivity.
    + intros e He. rewrite (Hcases _ He). split; reflexivity.
    + intros p Hp. rewrite (Hcases _ Hp). split; reflexivity.
    + intros e Hthrow Habort Hfast.
      rewrite (Hcases _ (fetchProfile_aborted query
                           {| timeout := Some 10000%N; useRetry := None |}
                           e Hthrow Habort Hfast)).
      split; reflexivity.
Qed.

(** X17 at a hosted user with a loaded profile, whose refresh is aborted. *)
Lemma X17_witness :
  (outcome (aborted_query 0) = Throw abort_error /\
   is_abort abort_error = true /\ (took (aborted_query 0%nat) < 10000)%N /\
   profile (st loaded_ctx) = Some stale_profile) /\
  profile (st (fst (refreshProfile aborted_query loaded_ctx))) = None.
Proof.
  split; [repeat split|].
  exact (proj1 (proj2 (proj2 (proj2 (proj2 (proj2 (proj2
           (proj2 (X17_refreshProfile aborted_query loaded_ctx)
                  hosted_user eq_refl))))))
           abort_error eq_refl eq_refl eq_refl)).
Defined.

(** X18: [disconnectWallet] reports an error only when the wallet's own
    [disconnect] fails, and has changed nothing then; otherwise it reports
    success and forgets the local address, whatever comes of the update of
    the row: when that update fails, or when there is no hosted user to make
    it for, the profile keeps its wallet, and an identity made of a wallet's
    profile alone stays authenticated and connected. *)
Theorem X18_disconnectWallet `{JsBuiltins}
    (disconnected : option (completion unit))
    (update_reply : completion QueryReply) (c : Ctx) :
  let c' := fst (disconnectWallet disconnected update_reply c) in
  let err := snd (disconnectWallet disconnected update_reply c) in
  (forall e, disconnected = Some (Throw e) -> err = Some e /\ st c' = st c) /\
  ((forall e, disconnected <> Some (Throw e)) ->
   err = None /\
   localWalletAddress (st c') = None /\
   user (st c') = user (st c) /\
   liveTokenBalance (st c') = liveTokenBalance (st c) /\
   (user (st c) = None ->
    profile (st c') = profile (st c) /\
    durable (world c') = durable (world c) /\
    isAuthenticated (computedValues (st c'))
    = isAuthenticated (computedValues (st c)) /\
    isWalletConnected (computedValues (st c'))
    = ToBoolean (opt_field wallet_address (profile (st c)))) /\
   ((forall row, update_reply <> Return (QData row)) ->
    profile (st c') = profile (st c)) /\
   (forall row, update_reply = Return (QData row) -> is_Some (user (st c)) ->
      profile (st c') = Some row)).
Proof.
  cbv zeta. split.
  - intros e ->. split; reflexivity.
  - intros Hok.
    assert (Hrest :
              exists c0, st c0 = st c /\ durable (world c0) = durable (world c) /\
                disconnectWallet disconnected update_reply c
                = (match user (st c0) with
                   | Some _ =>
                       fst (updateProfile [("wallet_address", VNull)]
                              update_reply (setLocalWalletAddress None c0))
                   | None => setLocalWalletAddress None c0
                   end, None)).
    { unfold disconnectWallet. destruct disconnected as [[[]|e]|].
      - exists (call PhantomDisconnect c). repeat split.
      - exfalso. exact (Hok e eq_refl).
      - exists c. repeat split. }
    destruct Hrest as (c0 & Hst & Hdur & ->). cbn [fst snd].
    rewrite Hst. unfold updateProfile.
    cbn [st setLocalWalletAddress with_st user].
    destruct (user (st c0)) as [u|] eqn:Eu; rewrite Hst in Eu; rewrite Eu.
    + destruct update_reply as [[row|e]|e]; cbn; rewrite ?Hst, ?Eu;
        repeat split; try discriminate; try reflexivity.
      all: try (intros Hno; exfalso; exact (Hno row eq_refl)).
      all: try (intros row' [= <-] _; reflexivity).
      all: try (intros row' [=]).
    + cbn. rewrite ?Hst, ?Hdur. repeat split; try reflexivity.
      * exact Eu.
      * intros row _ [u Hu]. discriminate.
Qed.

(** X18 at the identity a soft login leaves: still authenticated and
    connected after the wallet was disconnected. *)
Lemma X18_witness :
  (forall B : JsBuiltins, user (st soft_login) = None) /\
  (forall B : JsBuiltins,
     isAuthenticated
       (computedValues
          (st (fst (disconnectWallet (Some (Return tt)) (Throw network_error)
                      soft_login)))) = true) /\
  (forall B : JsBuiltins,
     isWalletConnected
       (computedValues
          (st (fst (disconnectWallet (Some (Return tt)) (Throw network_error)
                      soft_login)))) = true).
Proof.
  split; [intros B; reflexivity|]. split; intros B.
  - exact (eq_trans
             (proj1 (proj2 (proj2 (proj1 (proj2 (proj2 (proj2 (proj2
                (proj2 (X18_disconnectWallet (Some (Return tt))
                          (Throw network_error) soft_login)
                       ltac:(discriminate)))))) eq_refl))))
             eq_refl).
  - reflexivity.
Defined.

(** X19: when the wallet reports another account, or a disconnection, the
    provider changes the local address and nothing else: the balance, the
    tiers and the roles are still those found for the former account, and
    after a disconnection the address shown falls back to the one stored in
    the profile. *)
Theorem X19_account_changed `{JsBuiltins} (publicKey : option string)
    (c : Ctx) :
  let c' := handleAccountChanged publicKey c in
  let cv := computedValues (st c) in
  let cv' := computedValues (st c') in
  (liveTokenBalance (st c') = liveTokenBalance (st c) /\
   tokenBalance cv' = tokenBalance cv /\
   canBeClient cv' = canBeClient cv /\
   canBeFreelancer cv' = canBeFreelancer cv /\
   isBoostedFreelancer cv' = isBoostedFreelancer cv /\
   effectiveRole cv' = effectiveRole cv /\
   isClient cv' = isClient cv /\ isFreelancer cv' = isFreelancer cv /\
   isAuthenticated cv' = isAuthenticated cv) /\
  (forall addr, publicKey = Some addr -> addr <> "" ->
     walletAddress cv' = VStr addr /\ isWalletConnected cv' = true) /\
  (publicKey = None ->
   c' = handleDisconnect c /\
   walletAddress cv' = js_or (opt_field wallet_address (profile (st c))) VNull /\
   isWalletConnected cv'
   = ToBoolean (opt_field wallet_address (profile (st c)))).
Proof.
  cbv zeta. split; [repeat split|]. split.
  - intros addr -> Hne. unfold computedValues. cbn.
    destruct addr as [|ch rest]; [congruence|]. split; reflexivity.
  - intros ->. split; [reflexivity|]. unfold computedValues. cbn.
    split; reflexivity.
Qed.

(** ** Refreshing the session, initialising, registering *)

(** X20: [forceRefreshAuth] always ends with [isLoading] false; whenever it
    returns an error, user and profile are null; without a session at the
    auth client it answers 'No active session', calls nothing and clears
    user and profile, so an identity made of a wallet's profile alone is no
    longer authenticated; a refresh that gives neither session nor error
    clears the identity too, yet returns no error; and a refreshed session
    makes its user the current one. *)
Theorem X20_forceRefreshAuth `{JsBuiltins} (env : AuthEnv)
    (query : nat -> run QueryReply) (c : Ctx) :
  let c' := fst (forceRefreshAuth env query c) in
  let err := snd (forceRefreshAuth env query c) in
  isLoading (st c') = false /\
  (is_Some err -> user (st c') = None /\ profile (st c') = None) /\
  (forall got,
     getSession env = Return got -> reply_error got = None ->
     user_of (reply_session got) = None ->
     err = Some (new_Error "No active session") /\
     user (st c') = None /\ profile (st c') = None /\
     authError (st c') = None /\
     calls_made (world c') = calls_made (world c) /\
     isAuthenticated (computedValues (st c')) = false) /\
  (forall got refreshed,
     getSession env = Return got -> reply_error got = None ->
     is_Some (user_of (reply_session got)) ->
     refreshSession env = Return refreshed -> reply_error refreshed = None ->
     (reply_session refreshed = None ->
      err = None /\ user (st c') = None /\ profile (st c') = None /\
      authError (st c') = None) /\
     (forall u, user_of (reply_session refreshed) = Some u ->
        err = None /\ user (st c') = Some u)).
Proof.
  cbv zeta.
  assert (Hfailed : forall e c0,
            isLoading (st (fst (forceRefreshAuth_failed env e c0))) = false /\
            user (st (fst (forceRefreshAuth_failed env e c0))) = None /\
            profile (st (fst (forceRefreshAuth_failed env e c0))) = None /\
            authError (st (fst (forceRefreshAuth_failed env e c0))) = e /\
            snd (forceRefreshAuth_failed env e c0) = e).
  { intros e c0. unfold forceRefreshAuth_failed. repeat split. }
  split; [|split; [|split]].
  - unfold forceRefreshAuth.
    destruct (getSession env) as [got|e]; [|apply Hfailed].
    destruct (reply_error got) as [e|]; [apply Hfailed|].
    destruct (user_of (reply_session got)); [|reflexivity].
    destruct (refreshSession env) as [refreshed|e]; [|apply Hfailed].
    destruct (bool_decide _ || negb _); [apply Hfailed | reflexivity].
  - unfold forceRefreshAuth.
    destruct (getSession env) as [got|e]; [|intros _; split; apply Hfailed].
    destruct (reply_error got) as [e|]; [intros _; split; apply Hfailed|].
    destruct (user_of (reply_session got)); [|intros _; split; reflexivity].
    destruct (refreshSession env) as [refreshed|e];
      [|intros _; split; apply Hfailed].
    destruct (bool_decide _ || negb _); [intros _; split; apply Hfailed|].
    cbn [snd]. intros [x Hx]. discriminate.
  - intros got Hget Herr Huser. unfold forceRefreshAuth.
    rewrite Hget, Herr, Huser. repeat split.
  - intros got refreshed Hget Herr [u0 Huser] Href Hrerr.
    unfold forceRefreshAuth. rewrite Hget, Herr, Huser, Href, Hrerr.
    split.
    + intros ->. cbn. repeat split.
    + intros u Hu.
      destruct (reply_session refreshed) as [session|] eqn:Es; [|discriminate].
      cbn [bool_decide orb negb fst snd]. split; [reflexivity|].
      cbn [st setIsLoading with_st user].
      apply updateAuthState_user. exact Hu.
Qed.

(** X20 at the identity a soft login leaves: the recovery of
    [AuthReadyGate] signs it out. *)
Lemma X20_witness :
  (forall B : JsBuiltins,
     isAuthenticated (computedValues (st soft_login)) = true) /\
  (forall B : JsBuiltins,
     isAuthenticated
       (computedValues (st (handleRecovery no_session missing_query soft_login)))
     = false).
Proof.
  split; intros B; [reflexivity|].
  exact (proj2 (proj2 (proj2 (proj2 (proj2
           (proj1 (proj2 (proj2
              (X20_forceRefreshAuth no_session missing_query
                 (setAuthError None soft_login))))
              _ eq_refl eq_refl eq_refl)))))).
Defined.

(** X21: on a mounted provider every path through [initializeAuth] ends
    with [isLoading] false and [initCompleteRef] set, so that the fallback
    timer finds nothing to do; on an unmounted one it changes neither state
    nor refs; the fallback timer completes a mounted provider that is not
    complete yet, but does nothing once an INITIAL_SESSION event without
    user has set [initCompleteRef], which leaves [isLoading] as it was; and
    a session without [expires_at] counts as expiring soon, one with it
    when it expires less than 60 s after now. *)
Theorem X21_initializeAuth (env : AuthEnv) (now : N)
    (query : nat -> run QueryReply) (c : Ctx) :
  let c' := initializeAuth env now query c in
  (mountedRef (refs c) = true ->
   isLoading (st c') = false /\ initCompleteRef (refs c') = true /\
   fallback_timeout c' = c') /\
  (mountedRef (refs c) = false -> st c' = st c /\ refs c' = refs c) /\
  (mountedRef (refs c) = true ->
   initCompleteRef (refs (fallback_timeout c)) = true /\
   (initCompleteRef (refs c) = false ->
    isLoading (st (fallback_timeout c)) = false) /\
   (forall session,
      initCompleteRef (refs c) = false -> user_of session = None ->
      let c1 := fst (onAuthStateChange_begin INITIAL_SESSION session c) in
      fallback_timeout c1 = c1 /\ isLoading (st c1) = isLoading (st c))) /\
  (forall session,
     expires_at session = None -> isExpiringSoon session now = true) /\
  (forall session seconds,
     expires_at session = Some seconds ->
     isExpiringSoon session now = (seconds * 1000 <? now + 60000)%N).
Proof.
  cbv zeta.
  assert (Hdone : forall c0,
            isLoading (st c0) = false -> initCompleteRef (refs c0) = true ->
            isLoading (st c0) = false /\ initCompleteRef (refs c0) = true /\
            fallback_timeout c0 = c0).
  { intros c0 Hl Hi. split; [exact Hl|]. split; [exact Hi|].
    unfold fallback_timeout. rewrite Hi, andb_false_r. reflexivity. }
  assert (Hfailed : forall clear e,
            (mountedRef (refs c) = true ->
             isLoading (st (initializeAuth_failed env clear e c)) = false /\
             initCompleteRef (refs (initializeAuth_failed env clear e c)) = true) /\
            (mountedRef (refs c) = false ->
             st (initializeAuth_failed env clear e c) = st c /\
             refs (initializeAuth_failed env clear e c) = refs c)).
  { intros clear e. unfold initializeAuth_failed.
    destruct (quiet_signOut_view (signOut_reply env) c) as [Hst Hrefs].
    rewrite Hrefs. split; intros Hm; rewrite Hm.
    - destruct clear; split; reflexivity.
    - split; assumption. }
  assert (Hfinish : forall session,
            let updated :=
              if mountedRef (refs c)
              then updateAuthState session
                     {| retryInBackground := None; isInitial := Some true |}
                     query c
              else c in
            let finished :=
              if mountedRef (refs updated)
              then setIsLoading false (set_initCompleteRef true updated)
              else updated in
            (mountedRef (refs c) = true ->
             isLoading (st finished) = false /\
             initCompleteRef (refs finished) = true) /\
            (mountedRef (refs c) = false ->
             st finished = st c /\ refs finished = refs c)).
  { intros session. cbv zeta. split; intros Hm; rewrite Hm.
    - rewrite updateAuthState_mounted, Hm. split; reflexivity.
    - rewrite Hm. split; reflexivity. }
  assert (Hplain :
            (mountedRef (refs c) = true ->
             isLoading (st (if mountedRef (refs c)
                            then setIsLoading false (set_initCompleteRef true c)
                            else c)) = false /\
             initCompleteRef (refs (if mountedRef (refs c)
                            then setIsLoading false (set_initCompleteRef true c)
                            else c)) = true) /\
            (mountedRef (refs c) = false ->
             st (if mountedRef (refs c)
                 then setIsLoading false (set_initCompleteRef true c)
                 else c) = st c /\
             refs (if mountedRef (refs c)
                   then setIsLoading false (set_initCompleteRef true c)
                   else c) = refs c)).
  { split; intros Hm; rewrite Hm; split; reflexivity. }
  assert (Hall :
            (mountedRef (refs c) = true ->
             isLoading (st (initializeAuth env now query c)) = false /\
             initCompleteRef (refs (initializeAuth env now query c)) = true) /\
            (mountedRef (refs c) = false ->
             st (initializeAuth env now query c) = st c /\
             refs (initializeAuth env now query c) = refs c)).
  { unfold initializeAuth.
    destruct (getSession env) as [got|e]; [|apply Hfailed].
    destruct (reply_error got) as [e|]; [apply Hfailed|].
    destruct (reply_session got) as [session|]; [|exact Hplain].
    destruct (session_user session); [|exact Hplain].
    destruct (isExpiringSoon session now); [|apply Hfinish].
    destruct (refreshSession env) as [refreshed|e]; [|apply Hfailed].
    destruct (bool_decide _ || negb _); [apply Hfailed | apply Hfinish]. }
  destruct Hall as [Hmounted Hunmounted].
  split; [|split; [|split; [|split]]].
  - intros Hm. destruct (Hmounted Hm) as [Hl Hi]. exact (Hdone _ Hl Hi).
  - exact Hunmounted.
  - intros Hm. split; [|split].
    + unfold fallback_timeout. rewrite Hm.
      destruct (initCompleteRef (refs c)) eqn:Ei; [exact Ei | reflexivity].
    + intros Hi. unfold fallback_timeout. rewrite Hm, Hi. reflexivity.
    + intros session Hi Hnone. cbv zeta.
      unfold onAuthStateChange_begin. rewrite Hm, Hi, Hnone.
      destruct session as [session|]; cbn [fst]; (split; [|reflexivity]);
        unfold fallback_timeout; cbn; rewrite andb_false_r; reflexivity.
  - intros session Hexp. unfold isExpiringSoon, expiresAt. rewrite Hexp.
    apply Z.ltb_lt. lia.
  - intros session seconds Hexp. unfold isExpiringSoon, expiresAt.
    rewrite Hexp.
    destruct (N.ltb_spec (seconds * 1000) (now + 60000));
      [apply Z.ltb_lt | apply Z.ltb_ge]; lia.
Qed.

(** X22: [registerWithWallet] never sets the user.  For a wallet that has a
    profile it refuses with 'This wallet is already registered' before any
    sign-up.  When the sign-up succeeds and the fetch of the new profile
    then fails, it reports that error although the account has been
    created and its row updated.  The e-mail address of the account is made
    of the first 8 characters of the wallet's address, so that two wallets
    that share them get the same address. *)
Theorem X22_registerWithWallet (env : RegisterEnv)
    (walletAddress nickname : string) (userType : jsval) (c : Ctx) :
  let c' := fst (registerWithWallet env walletAddress nickname userType c) in
  let result := snd (registerWithWallet env walletAddress nickname userType c) in
  user (st c') = user (st c) /\
  (forall row,
     fetchProfileByWallet (lookup_query env) no_options = Return (Some row) ->
     result = {| data := None;
                 error := Some (new_Error "This wallet is already registered") |} /\
     calls_made (world c')
     = (calls_made (world c) ++ [ProfilesSelectByWallet walletAddress])%list /\
     authError (st c') = None /\
     durable (world c') = durable (world c)) /\
  (forall reply u e,
     fetchProfileByWallet (lookup_query env) no_options = Return None ->
     signUp_reply env = Return reply -> signUp_error reply = None ->
     signUp_user reply = Some u ->
     fetchProfile (row_query env) no_options = Throw e ->
     result = {| data := None; error := Some e |} /\
     authError (st c') = Some e /\
     profile (st c') = profile (st c) /\
     calls_made (world c')
     = (calls_made (world c)
        ++ [ProfilesSelectByWallet walletAddress;
            AuthSignUp (tempEmail walletAddress);
            ProfilesUpdate (uid u)
              [("wallet_address", VStr walletAddress);
               ("nickname", VStr nickname); ("user_type", userType)];
            ProfilesSelectById (uid u)])%list) /\
  (forall prefix rest rest',
     String.length prefix = 8 ->
     tempEmail (prefix ++ rest) = tempEmail (prefix ++ rest') /\
     tempEmail (prefix ++ rest) = prefix ++ "@wallet.pumpwork.local").
Proof.
  cbv zeta. split; [|split; [|split]].
  - unfold registerWithWallet.
    destruct (fetchProfileByWallet (lookup_query env) no_options)
      as [[row|]|e]; try reflexivity.
    destruct (signUp_reply env) as [reply|e]; [|reflexivity].
    destruct (signUp_error reply) as [e|].
    { destruct (message_includes e "already registered"); reflexivity. }
    destruct (user_of (signUp_session reply)), (signUp_user reply);
      try reflexivity;
      destruct (row_updated env), (fetchProfile (row_query env) no_options);
      reflexivity.
  - intros row Hfound. unfold registerWithWallet. rewrite Hfound.
    repeat split.
  - intros reply u e Hnone Hreply Herr Huser Hfetch.
    unfold registerWithWallet. rewrite Hnone, Hreply, Herr, Huser, Hfetch.
    destruct (user_of (signUp_session reply)), (row_updated env); cbn;
      rewrite <- ?app_assoc; repeat split.
  - intros prefix rest rest' Hlen. unfold tempEmail. rewrite <- Hlen.
    rewrite !substring_prefix. split; reflexivity.
Qed.

(** X22 at a registration whose last fetch times out, and at two
    addresses that begin alike. *)
Lemma X22_witness :
  snd (registerWithWallet slow_registration "W3" "neo" (VStr "client")
         initial_Ctx)
  = {| data := None; error := Some (new_Error "Profile fetch timeout") |} /\
  In (AuthSignUp "W3@wallet.pumpwork.local")
     (calls_made
        (world (fst (registerWithWallet slow_registration "W3" "neo"
                       (VStr "client") initial_Ctx)))) /\
  tempEmail "7xKXtg2CW87d97TXJSDpbD5jBkheTqA83TZRuJosgAsU"
  = tempEmail "7xKXtg2CZZZZZZZZZZZZZZZZZZZZZZZZZZZZZZZZZZZZ".
Proof.
  split; [|split].
  - exact (proj1 (proj1 (proj2 (proj2
             (X22_registerWithWallet slow_registration "W3" "neo"
                (VStr "client") initial_Ctx)))
             _ hosted_user (new_Error "Profile fetch timeout")
             eq_refl eq_refl eq_refl eq_refl eq_refl)).
  - right. left. reflexivity.
  - reflexivity.
Defined.

(** ** The throttle of the visibility handler *)

(** X23: whatever the calls and the timers do, the closure [throttle]
    returns has at most one timer pending, the one held in [timeoutId].
    When the browser is on time (a timer fires when it is due, and before a
    call made at that time), the calls of the throttled function are at
    least [delay] apart.  When a timer fires late they need not be: a call
    that arrives when the timer is due and before it fires goes through at
    once, and the timer's call follows in the same millisecond. *)
Theorem X23_throttle {Args : Type} (delay : Z)
    (events : list (throttle_event Args)) :
  let t := throttle_run delay events in
  size (scheduled t) <= 1 /\
  timer_tracked t /\
  ((0 <= delay)%Z -> on_time delay throttle_initial events = true ->
   spaced delay (invoked_at t)) /\
  (never_early VISIBILITY_THROTTLE throttle_initial late_schedule = true /\
   invoked_at (throttle_run VISIBILITY_THROTTLE late_schedule)
   = [10000; 15000; 15000]%Z /\
   ~ spaced VISIBILITY_THROTTLE
       (invoked_at (throttle_run VISIBILITY_THROTTLE late_schedule))).
Proof.
  cbv zeta.
  assert (Htr : timer_tracked (throttle_run delay events)).
  { apply throttle_run_tracked. exact (inv_tracked _ _ (throttle_initial_inv delay)). }
  split; [exact (timer_tracked_size _ Htr)|]. split; [exact Htr|]. split.
  - intros Hdelay Htime.
    exact (inv_spaced _ _
             (throttle_run_inv delay events Hdelay throttle_initial
                (throttle_initial_inv delay) Htime)).
  - split; [vm_compute; reflexivity|]. split; [vm_compute; reflexivity|].
    assert (Hrun : invoked_at (throttle_run VISIBILITY_THROTTLE late_schedule)
                   = [10000; 15000; 15000]%Z) by (vm_compute; reflexivity).
    rewrite Hrun. cbn. unfold VISIBILITY_THROTTLE. lia.
Qed.

(** X23 at the same events with the timer in time: the three calls are
    5 s apart. *)
Lemma X23_witness :
  (0 <= VISIBILITY_THROTTLE)%Z /\
  on_time VISIBILITY_THROTTLE throttle_initial punctual_schedule = true /\
  spaced VISIBILITY_THROTTLE
    (invoked_at (throttle_run VISIBILITY_THROTTLE punctual_schedule)).
Proof.
  assert (Hdelay : (0 <= VISIBILITY_THROTTLE)%Z) by (vm_compute; discriminate).
  assert (Htime : on_time VISIBILITY_THROTTLE throttle_initial punctual_schedule
                  = true) by (vm_compute; reflexivity).
  split; [exact Hdelay|]. split; [exact Htime|].
  exact (proj1 (proj2 (proj2
           (X23_throttle VISIBILITY_THROTTLE punctual_schedule)))
           Hdelay Htime).
Defined.

(** ** Signing in and up, and coming back to the tab *)

(** X24: [signIn] and [signUp] never set the user (the listener of auth
    events does) and leave in [authError] the error they return; [signIn]
    returns no error exactly when the auth client accepted the credentials,
    turns 'Email not confirmed' into its own error, and does not fail when
    only the fetch of the profile does; [signUp] creates no realtime
    channel, whatever it finds. *)
Theorem X24_signIn_signUp (email : string) (reply : completion AuthReply)
    (signedUp : completion SignUpReply) (query : nat -> run QueryReply)
    (c : Ctx) :
  let r := signIn email reply query c in
  let r' := signUp email signedUp query c in
  (user (st (fst r)) = user (st c) /\
   authError (st (fst r)) = error (snd r) /\
   (error (snd r) = None <-> exists data_user, reply = Return (AuthOk data_user)) /\
   (forall e, reply = Return (AuthError e) ->
      message_includes e "Email not confirmed" = true ->
      error (snd r) = Some email_not_confirmed) /\
   (forall u e, reply = Return (AuthOk (Some u)) ->
      fetchProfile query {| timeout := Some 5000%N; useRetry := None |}
      = Throw e ->
      snd r = {| data := Some u; error := None |} /\
      profile (st (fst r)) = profile (st c) /\
      channels (world (fst r)) = channels (world c))) /\
  (user (st (fst r')) = user (st c) /\
   authError (st (fst r')) = error (snd r') /\
   channels (world (fst r')) = channels (world c) /\
   refs (fst r') = refs c).
Proof.
  cbv zeta. split.
  - unfold signIn, signIn_authenticated, signIn_begin, signIn_fetched.
    destruct reply as [[[u|]|e]|e]; cbn [fst snd].
    + destruct (fetchProfile query _) as [[row|]|e]; cbn [fst snd];
        rewrite ?subscribeToProfile_st; cbn;
        (split; [reflexivity|]); (split; [reflexivity|]);
        (split; [split; [eauto | reflexivity]|]);
        (split; [intros e' [=]|]); intros u' e'; intros [= <-]; try discriminate.
      intros _. repeat split.
    + split; [reflexivity|]. split; [reflexivity|].
      split; [split; [eauto | reflexivity]|].
      split; [intros e' [=] | intros u' e' [=]].
    + split; [reflexivity|]. split; [reflexivity|].
      split; [split; [discriminate | intros [du [=]]]|].
      split; [|intros u' e' [=]].
      intros e' [= <-] Hmsg. rewrite Hmsg. reflexivity.
    + split; [reflexivity|]. split; [reflexivity|].
      split; [split; [discriminate | intros [du [=]]]|].
      split; [intros e' [=] | intros u' e' [=]].
  - unfold signUp.
    destruct signedUp as [signUpData|e]; [|repeat split].
    destruct (signUp_error signUpData) as [e|]; [repeat split|].
    destruct (user_of (signUp_session signUpData)),
             (signUp_user signUpData); cbn;
      try destruct (fetchProfile query _) as [profileData|e];
      repeat split.
Qed.


(** ** What a run of [updateAuthState] leaves *)

(** X26: a run of [updateAuthState] on a mounted provider.  Without a
    session user it clears user, profile and error, and leaves the realtime
    channel where it is.  With one it sets the user, clears the error and
    ends with [isProfileLoading] false; a profile that is found is set and
    its row subscribed to, on a new channel; a missing row leaves a user
    without profile, no retry and the channels as they were; an error that
    is no timeout, or any error when the background retry is disabled,
    leaves no profile and no retry. *)
Theorem X26_updateAuthState_outcomes `{JsBuiltins} (session : option Session)
    (options : UpdateOptions) (query : nat -> run QueryReply) (c : Ctx) :
  mountedRef (refs c) = true ->
  let c' := updateAuthState session options query c in
  let fetched :=
    fetchProfile query
      {| timeout := Some (if default false (isInitial options)
                          then 5000%N else 10000%N);
         useRetry := Some true |} in
  backgroundRetryRef (refs (fst (updateAuthState_begin session options c)))
  = None /\
  (user_of session = None ->
   user (st c') = None /\ profile (st c') = None /\
   authError (st c') = None /\
   isAuthenticated (computedValues (st c')) = false /\
   channels (world c') = channels (world c) /\
   profileSubscriptionRef (refs c') = profileSubscriptionRef (refs c) /\
   calls_made (world c') = calls_made (world c)) /\
  (forall u, user_of session = Some u ->
     user (st c') = Some u /\ authError (st c') = None /\
     isProfileLoading (st c') = false /\
     isAuthenticated (computedValues (st c')) = true /\
     (forall row, fetched = Return (Some row) ->
        profile (st c') = Some row /\
        profileSubscriptionRef (refs c') = Some (next_id (world c)) /\
        channels (world c') !! next_id (world c)
        = Some (profile_channel (uid u)) /\
        backgroundRetryRef (refs c') = None) /\
     (fetched = Return None ->
        profile (st c') = None /\
        backgroundRetryRef (refs c') = None /\
        channels (world c') = channels (world c) /\
        profileSubscriptionRef (refs c') = profileSubscriptionRef (refs c)) /\
     (forall e, fetched = Throw e ->
        message_includes e "timeout" = false \/
        retryInBackground options = Some false ->
        profile (st c') = None /\
        backgroundRetryRef (refs c') = None /\
        channels (world c') = channels (world c))).
Proof.
  intros Hm. cbv zeta.
  assert (Hclear :
            mountedRef (refs (clear_background_retry c)) = true /\
            backgroundRetryRef (refs (clear_background_retry c)) = None /\
            st (clear_background_retry c) = st c /\
            channels (world (clear_background_retry c)) = channels (world c) /\
            profileSubscriptionRef (refs (clear_background_retry c))
            = profileSubscriptionRef (refs c) /\
            next_id (world (clear_background_retry c)) = next_id (world c) /\
            calls_made (world (clear_background_retry c))
            = calls_made (world c)).
  { unfold clear_background_retry.
    destruct (backgroundRetryRef (refs c)) eqn:Eb; cbn; repeat split; auto. }
  destruct Hclear as (Hm0 & Hb0 & Hst0 & Hch0 & Hsub0 & Hid0 & Hcalls0).
  unfold updateAuthState, updateAuthState_begin.
  set (c0 := clear_background_retry c) in *. clearbody c0.
  split; [destruct (user_of session); exact Hb0|].
  split.
  - intros Hnone. rewrite Hnone. cbn.
    rewrite Hch0, Hsub0, Hcalls0. repeat split.
  - intros u Hu. rewrite Hu. cbn [fst snd request_options].
    set (c1 := call _ _).
    assert (Hc1 : mountedRef (refs c1) = true /\
                  backgroundRetryRef (refs c1) = None /\
                  user (st c1) = Some u /\ authError (st c1) = None /\
                  channels (world c1) = channels (world c) /\
                  profileSubscriptionRef (refs c1)
                  = profileSubscriptionRef (refs c) /\
                  next_id (world c1) = next_id (world c)).
    { subst c1. cbn. repeat split; assumption. }
    clearbody c1. destruct Hc1 as (Hm1 & Hb1 & Hu1 & He1 & Hch1 & Hsub1 & Hid1).
    unfold updateAuthState_settle.
    destruct (fetchProfile query _) as [[row|]|e] eqn:Ef; rewrite Hm1.
    + cbn [setProfile with_st refs].
      destruct (subscribeToProfile_channels (uid u) (setProfile (Some row) c1))
        as [Hch Hsub].
      pose proof (subscribeToProfile_st (uid u) (setProfile (Some row) c1))
        as Hst.
      pose proof (subscribeToProfile_mounted (uid u) (setProfile (Some row) c1))
        as Hmount.
      cbn [setProfile with_st refs world] in Hch, Hsub, Hst, Hmount.
      rewrite Hmount, Hm1.
      assert (Hback : backgroundRetryRef
                        (refs (subscribeToProfile (uid u)
                                 (setProfile (Some row) c1))) = None).
      { unfold subscribeToProfile.
        destruct (profileSubscriptionRef (refs (setProfile (Some row) c1)));
          cbn; exact Hb1. }
      cbn [st setIsProfileLoading with_st user authError isProfileLoading
           profile refs world].
      rewrite Hst. cbn [st setProfile with_st user authError profile].
      rewrite Hu1, He1.
      split; [reflexivity|]. split; [reflexivity|]. split; [reflexivity|].
      split; [reflexivity|]. split; [|split; [discriminate | discriminate]].
      intros row' [= <-]. split; [reflexivity|].
      rewrite Hsub, Hch, Hid1. split; [reflexivity|].
      split; [apply lookup_insert_eq | exact Hback].
    + cbn. rewrite Hm1. cbn. rewrite Hu1, He1, Hb1, Hch1, Hsub1.
      repeat split; try discriminate.
    + destruct (message_includes e "timeout"
                && default true (retryInBackground options)) eqn:Eretry;
        cbn; rewrite Hm1; cbn; rewrite Hu1, He1.
      * split; [reflexivity|]. split; [reflexivity|]. split; [reflexivity|].
        split; [reflexivity|]. split; [discriminate|]. split; [discriminate|].
        intros e' [= <-] Hno. exfalso.
        destruct Hno as [Hno | Hno]; rewrite Hno in Eretry;
          [discriminate | rewrite andb_false_r in Eretry; discriminate].
      * rewrite Hb1, Hch1.
        split; [reflexivity|]. split; [reflexivity|]. split; [reflexivity|].
        split; [reflexivity|]. split; [discriminate|]. split; [discriminate|].
        intros e' _ _. repeat split.
Qed.

(** X26 at a first sign-in whose profile is found. *)
Lemma X26_witness :
  (forall B : JsBuiltins, mountedRef (refs initial_Ctx) = true) /\
  (forall B : JsBuiltins,
     user (st (updateAuthState hosted_session default_update flaky_query
                 initial_Ctx)) = Some hosted_user) /\
  (forall B : JsBuiltins,
     profile (st (updateAuthState hosted_session default_update flaky_query
                    initial_Ctx)) = Some stale_profile).
Proof.
  split; [intros B; reflexivity|]. split; intros B.
  - exact (proj1 (proj2 (proj2
             (X26_updateAuthState_outcomes hosted_session default_update
                flaky_query initial_Ctx eq_refl))
             hosted_user eq_refl)).
  - reflexivity.
Defined.
